(** * Message-processing pipeline of the QQ robot: admission control,
    session store, intent classifier and message router.

    Shallow embedding of
      src/storage/models.py, src/storage/database.py, src/storage/cache.py,
      src/managers/token.py, src/managers/ban.py,
      src/core/context.py, src/core/intent.py, src/core/state.py,
      src/core/langgraph.py, src/core/router.py, src/utils/helpers.py.

    Conventions.
    - A [datetime] is an integer number of microseconds (the resolution of
      Python's datetime) counted from [datetime.min]; a [timedelta] is
      their difference, so [(a - b).total_seconds() < 60] reads
      [a - b < 60 * usec]. Adding a number of hours given by the caller
      raises OverflowError outside the range of the two types
      ([add_hours]).
    - A Python [float] is a binary64 number ([PrimFloat.float]); a decimal
      literal denotes the nearest one, as it does in Python.
    - Every top-level call reads one clock value ([clock] of the world).
    - A Python [str] is a [string] holding its UTF-8 encoding: equality,
      concatenation, [in] and [startswith] read the same on the bytes;
      [len] counts code points ([py_len]).
    - Python's [re] module is outside the repository: pattern search and
      number extraction are parameters of the sections that use them.
    - The durable store and the cache can fail: each repository or cache
      call consumes one entry of a fault schedule and raises when it says
      so. *)

From Stdlib Require Import ZArith List Bool Lia Sorted Permutation.
From Stdlib Require Import PrimFloat Uint63.
From stdpp Require Import base option list strings gmap pretty.

Local Open Scope string_scope.
Local Open Scope Z_scope.

(** A decimal float literal stands for the nearest binary64 number. *)
#[local] Set Warnings "-inexact-float".

(** ** Python helpers *)

Definition usec : Z := 1000000.

(** [l[start:]] for a Python list. *)
Definition slice_from {A} (start : Z) (l : list A) : list A :=
  if start <? 0
  then drop (Z.to_nat (Z.max 0 (Z.of_nat (length l) + start))) l
  else drop (Z.to_nat start) l.

(** The largest [datetime], the last microsecond of the year 9999:
    [datetime.max - datetime.min]. *)
Definition DATETIME_MAX : Z := 3652059 * 86400 * usec - 1.

Definition is_datetime (t : Z) : bool := (0 <=? t) && (t <=? DATETIME_MAX).

(** [timedelta(hours=h)] exists when its number of days, rounded down,
    has magnitude at most 999999999. *)
Definition is_timedelta (d : Z) : bool :=
  Z.abs (d / (86400 * usec)) <=? 999999999.

(** [(now - ts).total_seconds() < window], [window] in seconds. *)
Definition within (now : Z) (window : Z) (ts : Z) : bool :=
  now - ts <? window * usec.

(** ** storage/models.py *)

Inductive ContextType := PRIVATE | GROUP | MULTI_USER | CT_ROLE_PLAY.
Inductive ContextStatus := ACTIVE | PAUSED | EXPIRED | ARCHIVED | DELETED.
Inductive MessageType := TEXT | IMAGE | VOICE | MT_SYSTEM | MT_COMMAND.
Inductive MessageRole := USER | ASSISTANT | MR_SYSTEM.
Inductive BanType := TEMPORARY | PERMANENT.
Inductive BanReason :=
  | BR_RATE_LIMIT_EXCEEDED | TOKEN_ABUSE | MALICIOUS_BEHAVIOR | SPAMMING | MANUAL.

#[global] Instance ContextType_eq_dec : EqDecision ContextType.
Proof. solve_decision. Defined.
#[global] Instance ContextStatus_eq_dec : EqDecision ContextStatus.
Proof. solve_decision. Defined.
#[global] Instance MessageType_eq_dec : EqDecision MessageType.
Proof. solve_decision. Defined.
#[global] Instance MessageRole_eq_dec : EqDecision MessageRole.
Proof. solve_decision. Defined.
#[global] Instance BanType_eq_dec : EqDecision BanType.
Proof. solve_decision. Defined.
#[global] Instance BanReason_eq_dec : EqDecision BanReason.
Proof. solve_decision. Defined.

Record ChatMessage := {
  message_id : string;
  sender_id : string;
  sender_name : string;
  role : MessageRole;
  content : string;
  message_type : MessageType;
  timestamp : Z;
  is_system : bool
}.

Record Context := {
  context_id : string;
  type : ContextType;
  name : string;
  creator_id : string;
  participants : list string;
  messages : list ChatMessage;
  max_messages : Z;
  status : ContextStatus;
  current_role_id : option string;
  created_at : Z;
  updated_at : Z;
  expires_at : option Z
}.

Record User := {
  user_id : string;
  nickname : string;
  is_active : bool;
  is_banned : bool;
  current_context_id : option string;
  last_active : Z
}.

Record TokenQuota := {
  q_user_id : string;
  total_quota : Z;
  used : Z;
  daily_limit : Z;
  daily_used : Z;
  daily_reset : Z;
  minute_limit : Z;
  minute_requests : list Z
}.

(** TokenQuota.remaining *)
Definition remaining (q : TokenQuota) : Z := Z.max 0 (total_quota q - used q).

(** TokenQuota.daily_remaining *)
Definition daily_remaining (q : TokenQuota) : Z :=
  Z.max 0 (daily_limit q - daily_used q).

(** TokenQuota.is_minute_limit_exceeded *)
Definition is_minute_limit_exceeded (now : Z) (q : TokenQuota) : bool :=
  let recent := filter (fun ts => within now 60 ts = true) (minute_requests q) in
  minute_limit q <=? Z.of_nat (length recent).

(** TokenQuota.validate_minute_requests: run each time a TokenQuota is
    constructed, in particular when a row is read back. *)
Definition validate_minute_requests (now : Z) (v : list Z) : list Z :=
  filter (fun ts => within now 60 ts = true) v.

Record BanRecord := {
  b_user_id : string;
  reason : BanReason;
  ban_type : BanType;
  started_at : Z;
  b_expires_at : option Z;
  details : string
}.

(** BanRecord.is_active *)
Definition ban_is_active (now : Z) (r : BanRecord) : bool :=
  if decide (ban_type r = PERMANENT) then true
  else match b_expires_at r with
       | None => false
       | Some e => now <? e
       end.

(** BanRecord.remaining_seconds; [int] truncates towards zero. *)
Definition remaining_seconds (now : Z) (r : BanRecord) : option Z :=
  if decide (ban_type r = PERMANENT) then None
  else match b_expires_at r with
       | None => Some 0
       | Some e => Some (Z.max 0 (Z.quot (e - now) usec))
       end.


(** ** The world: durable store, cache, in-process trackers, environment *)

Record World := {
  clock : Z;                                  (* datetime.now() *)
  db_faults : list bool;                      (* fault schedule of the database *)
  cache_faults : list bool;                   (* fault schedule of Redis *)
  uuids : list string;                        (* supply of uuid4().hex *)
  users_tbl : gmap string User;               (* table users *)
  contexts_tbl : gmap string Context;         (* table contexts (columns only) *)
  messages_tbl : list (string * ChatMessage); (* table messages, insertion order *)
  quotas_tbl : gmap string TokenQuota;        (* table token_quotas *)
  bans_tbl : list BanRecord;                  (* table ban_records, insertion order *)
  redis_ctx : gmap string (Z * Context);      (* ctx:<id> -> (expiry, value) *)
  user_requests : gmap string (list Z);       (* BanManager._user_requests *)
  user_messages : gmap string (list Z);       (* BanManager._user_messages *)
  user_content : gmap string (list (Z * string)) (* BanManager._user_content *)
}.

Definition set_clock (t : Z) (w : World) : World :=
  {| clock := t; db_faults := db_faults w; cache_faults := cache_faults w;
     uuids := uuids w; users_tbl := users_tbl w; contexts_tbl := contexts_tbl w;
     messages_tbl := messages_tbl w; quotas_tbl := quotas_tbl w;
     bans_tbl := bans_tbl w; redis_ctx := redis_ctx w;
     user_requests := user_requests w; user_messages := user_messages w;
     user_content := user_content w |}.

Definition set_db_faults (f : list bool) (w : World) : World :=
  {| clock := clock w; db_faults := f; cache_faults := cache_faults w;
     uuids := uuids w; users_tbl := users_tbl w; contexts_tbl := contexts_tbl w;
     messages_tbl := messages_tbl w; quotas_tbl := quotas_tbl w;
     bans_tbl := bans_tbl w; redis_ctx := redis_ctx w;
     user_requests := user_requests w; user_messages := user_messages w;
     user_content := user_content w |}.

Definition set_cache_faults (f : list bool) (w : World) : World :=
  {| clock := clock w; db_faults := db_faults w; cache_faults := f;
     uuids := uuids w; users_tbl := users_tbl w; contexts_tbl := contexts_tbl w;
     messages_tbl := messages_tbl w; quotas_tbl := quotas_tbl w;
     bans_tbl := bans_tbl w; redis_ctx := redis_ctx w;
     user_requests := user_requests w; user_messages := user_messages w;
     user_content := user_content w |}.

Definition set_uuids (u : list string) (w : World) : World :=
  {| clock := clock w; db_faults := db_faults w; cache_faults := cache_faults w;
     uuids := u; users_tbl := users_tbl w; contexts_tbl := contexts_tbl w;
     messages_tbl := messages_tbl w; quotas_tbl := quotas_tbl w;
     bans_tbl := bans_tbl w; redis_ctx := redis_ctx w;
     user_requests := user_requests w; user_messages := user_messages w;
     user_content := user_content w |}.

Definition set_users (u : gmap string User) (w : World) : World :=
  {| clock := clock w; db_faults := db_faults w; cache_faults := cache_faults w;
     uuids := uuids w; users_tbl := u; contexts_tbl := contexts_tbl w;
     messages_tbl := messages_tbl w; quotas_tbl := quotas_tbl w;
     bans_tbl := bans_tbl w; redis_ctx := redis_ctx w;
     user_requests := user_requests w; user_messages := user_messages w;
     user_content := user_content w |}.

Definition set_contexts (c : gmap string Context) (w : World) : World :=
  {| clock := clock w; db_faults := db_faults w; cache_faults := cache_faults w;
     uuids := uuids w; users_tbl := users_tbl w; contexts_tbl := c;
     messages_tbl := messages_tbl w; quotas_tbl := quotas_tbl w;
     bans_tbl := bans_tbl w; redis_ctx := redis_ctx w;
     user_requests := user_requests w; user_messages := user_messages w;
     user_content := user_content w |}.

Definition set_messages (m : list (string * ChatMessage)) (w : World) : World :=
  {| clock := clock w; db_faults := db_faults w; cache_faults := cache_faults w;
     uuids := uuids w; users_tbl := users_tbl w; contexts_tbl := contexts_tbl w;
     messages_tbl := m; quotas_tbl := quotas_tbl w;
     bans_tbl := bans_tbl w; redis_ctx := redis_ctx w;
     user_requests := user_requests w; user_messages := user_messages w;
     user_content := user_content w |}.

Definition set_quotas (q : gmap string TokenQuota) (w : World) : World :=
  {| clock := clock w; db_faults := db_faults w; cache_faults := cache_faults w;
     uuids := uuids w; users_tbl := users_tbl w; contexts_tbl := contexts_tbl w;
     messages_tbl := messages_tbl w; quotas_tbl := q;
     bans_tbl := bans_tbl w; redis_ctx := redis_ctx w;
     user_requests := user_requests w; user_messages := user_messages w;
     user_content := user_content w |}.

Definition set_bans (b : list BanRecord) (w : World) : World :=
  {| clock := clock w; db_faults := db_faults w; cache_faults := cache_faults w;
     uuids := uuids w; users_tbl := users_tbl w; contexts_tbl := contexts_tbl w;
     messages_tbl := messages_tbl w; quotas_tbl := quotas_tbl w;
     bans_tbl := b; redis_ctx := redis_ctx w;
     user_requests := user_requests w; user_messages := user_messages w;
     user_content := user_content w |}.

Definition set_redis (r : gmap string (Z * Context)) (w : World) : World :=
  {| clock := clock w; db_faults := db_faults w; cache_faults := cache_faults w;
     uuids := uuids w; users_tbl := users_tbl w; contexts_tbl := contexts_tbl w;
     messages_tbl := messages_tbl w; quotas_tbl := quotas_tbl w;
     bans_tbl := bans_tbl w; redis_ctx := r;
     user_requests := user_requests w; user_messages := user_messages w;
     user_content := user_content w |}.

Definition set_user_requests (r : gmap string (list Z)) (w : World) : World :=
  {| clock := clock w; db_faults := db_faults w; cache_faults := cache_faults w;
     uuids := uuids w; users_tbl := users_tbl w; contexts_tbl := contexts_tbl w;
     messages_tbl := messages_tbl w; quotas_tbl := quotas_tbl w;
     bans_tbl := bans_tbl w; redis_ctx := redis_ctx w;
     user_requests := r; user_messages := user_messages w;
     user_content := user_content w |}.

Definition set_user_messages (r : gmap string (list Z)) (w : World) : World :=
  {| clock := clock w; db_faults := db_faults w; cache_faults := cache_faults w;
     uuids := uuids w; users_tbl := users_tbl w; contexts_tbl := contexts_tbl w;
     messages_tbl := messages_tbl w; quotas_tbl := quotas_tbl w;
     bans_tbl := bans_tbl w; redis_ctx := redis_ctx w;
     user_requests := user_requests w; user_messages := r;
     user_content := user_content w |}.

Definition set_user_content (r : gmap string (list (Z * string))) (w : World) : World :=
  {| clock := clock w; db_faults := db_faults w; cache_faults := cache_faults w;
     uuids := uuids w; users_tbl := users_tbl w; contexts_tbl := contexts_tbl w;
     messages_tbl := messages_tbl w; quotas_tbl := quotas_tbl w;
     bans_tbl := bans_tbl w; redis_ctx := redis_ctx w;
     user_requests := user_requests w; user_messages := user_messages w;
     user_content := r |}.

(** ** State and exception monad *)

Inductive result (A : Type) : Type :=
  | Ok (a : A)
  | Raise (e : string).
Arguments Ok {A} a.
Arguments Raise {A} e.

Definition M (A : Type) : Type := World -> result A * World.

Definition ret {A} (a : A) : M A := fun w => (Ok a, w).

Definition bind {A B} (m : M A) (k : A -> M B) : M B :=
  fun w => match m w with
           | (Ok a, w') => k a w'
           | (Raise e, w') => (Raise e, w')
           end.

Definition raise {A} (e : string) : M A := fun w => (Raise e, w).

(** [try: m except Exception as e: h e] *)
Definition try_except {A} (m : M A) (h : string -> M A) : M A :=
  fun w => match m w with
           | (Ok a, w') => (Ok a, w')
           | (Raise e, w') => h e w'
           end.

Definition gets {A} (f : World -> A) : M A := fun w => (Ok (f w), w).
Definition modify (f : World -> World) : M unit := fun w => (Ok tt, f w).

(** A pure computation that may raise, run inside [M]. *)
Definition lift {A} (r : result A) : M A := fun w => (r, w).

Notation "x <- m ;; k" := (bind m (fun x => k))
  (at level 100, m at next level, right associativity).
Notation "m ;;; k" := (bind m (fun _ => k))
  (at level 100, right associativity).

Definition now : M Z := gets clock.

(** [t + timedelta(hours=h)]: OverflowError when the timedelta or the sum
    is out of range (the exception is rendered by the name of its
    class). *)
Definition add_hours (t h : Z) : M Z :=
  let d := h * 3600 * usec in
  if is_timedelta d && is_datetime (t + d) then ret (t + d)
  else raise "OverflowError".

(** One round trip to the database ([async with self.db.get_session()]):
    it fails when the schedule says so. *)
Definition db_session : M unit := fun w =>
  match db_faults w with
  | [] => (Ok tt, w)
  | false :: fs => (Ok tt, set_db_faults fs w)
  | true :: fs => (Raise "database error", set_db_faults fs w)
  end.

(** One round trip to Redis ([await self.redis.get_client()] and the
    command that follows). *)
Definition redis_call : M unit := fun w =>
  match cache_faults w with
  | [] => (Ok tt, w)
  | false :: fs => (Ok tt, set_cache_faults fs w)
  | true :: fs => (Raise "redis error", set_cache_faults fs w)
  end.

(** uuid.uuid4().hex *)
Definition generate_uuid : M string := fun w =>
  match uuids w with
  | [] => (Ok "", w)
  | u :: us => (Ok u, set_uuids us w)
  end.

(** ** storage/database.py: TokenQuotaRepository *)

Module TokenQuotaRepository.

(** Field constraints of the pydantic model ([ge=0], [ge=1]). *)
Definition valid (q : TokenQuota) : bool :=
  (0 <=? total_quota q) && (0 <=? used q) && (0 <=? daily_limit q)
  && (0 <=? daily_used q) && (1 <=? minute_limit q).

(** _orm_to_model: builds a [TokenQuota], which validates the fields and
    runs [validate_minute_requests]. *)
Definition _orm_to_model (uid : string) (row : TokenQuota) : M TokenQuota :=
  t <- now ;;
  if valid row then
    ret {| q_user_id := uid; total_quota := total_quota row; used := used row;
           daily_limit := daily_limit row; daily_used := daily_used row;
           daily_reset := daily_reset row; minute_limit := minute_limit row;
           minute_requests := validate_minute_requests t (minute_requests row) |}
  else raise "ValidationError".

Definition get (uid : string) : M (option TokenQuota) :=
  db_session ;;;
  row <- gets (fun w => quotas_tbl w !! uid) ;;
  match row with
  | None => ret None
  | Some r => q <- _orm_to_model uid r ;; ret (Some q)
  end.

Definition create (q : TokenQuota) : M TokenQuota :=
  db_session ;;;
  modify (fun w => set_quotas (<[q_user_id q := q]> (quotas_tbl w)) w) ;;;
  _orm_to_model (q_user_id q) q.

(** UPDATE ... WHERE user_id = quota.user_id; returns its argument. *)
Definition update (q : TokenQuota) : M TokenQuota :=
  db_session ;;;
  modify (fun w => match quotas_tbl w !! q_user_id q with
                   | Some _ => set_quotas (<[q_user_id q := q]> (quotas_tbl w)) w
                   | None => w
                   end) ;;;
  ret q.

Definition increment_used (uid : string) (tokens : Z) : M TokenQuota :=
  quota <- get uid ;;
  match quota with
  | None => raise ("Token quota not found for user: " +:+ uid)
  | Some q =>
      update {| q_user_id := q_user_id q; total_quota := total_quota q;
                used := used q + tokens;
                daily_limit := daily_limit q;
                daily_used := daily_used q + tokens;
                daily_reset := daily_reset q; minute_limit := minute_limit q;
                minute_requests := minute_requests q |}
  end.

Definition reset_daily (uid : string) : M TokenQuota :=
  quota <- get uid ;;
  match quota with
  | None => raise ("Token quota not found for user: " +:+ uid)
  | Some q =>
      t <- now ;;
      update {| q_user_id := q_user_id q; total_quota := total_quota q;
                used := used q;
                daily_limit := daily_limit q;
                daily_used := 0;
                daily_reset := t + 86400 * usec;
                minute_limit := minute_limit q;
                minute_requests := minute_requests q |}
  end.

End TokenQuotaRepository.

(** ** storage/database.py: BanRecordRepository *)

Module BanRecordRepository.

(** ORDER BY started_at DESC LIMIT 1 (among equal dates the row inserted
    first is taken). *)
Fixpoint latest (l : list BanRecord) : option BanRecord :=
  match l with
  | [] => None
  | r :: rest =>
      match latest rest with
      | Some r' => if started_at r <? started_at r' then Some r' else Some r
      | None => Some r
      end
  end.

(** The WHERE clause of [get_active_ban]. *)
Definition selected (uid : string) (t : Z) (r : BanRecord) : bool :=
  bool_decide (b_user_id r = uid)
  && (bool_decide (ban_type r = PERMANENT)
      || match b_expires_at r with Some e => t <? e | None => false end).

Definition get_active_ban (uid : string) : M (option BanRecord) :=
  db_session ;;;
  t <- now ;;
  rows <- gets bans_tbl ;;
  ret (latest (List.filter (selected uid t) rows)).

Definition create (r : BanRecord) : M BanRecord :=
  db_session ;;;
  modify (fun w => set_bans (bans_tbl w ++ [r])%list w) ;;;
  ret r.

End BanRecordRepository.

(** ** managers/token.py: TokenController *)

Module TokenController.

Definition DEFAULT_TOTAL_QUOTA : Z := 50000.
Definition DEFAULT_DAILY_LIMIT : Z := 5000.
Definition DEFAULT_MINUTE_LIMIT : Z := 200.

Definition _create_default_quota (uid : string) : M TokenQuota :=
  t <- now ;;
  let tomorrow := t + 86400 * usec in
  TokenQuotaRepository.create
    {| q_user_id := uid; total_quota := DEFAULT_TOTAL_QUOTA; used := 0;
       daily_limit := DEFAULT_DAILY_LIMIT; daily_used := 0;
       daily_reset := tomorrow; minute_limit := DEFAULT_MINUTE_LIMIT;
       minute_requests := [] |}.

Definition _check_and_reset_daily (quota : TokenQuota) : M TokenQuota :=
  t <- now ;;
  if daily_reset quota <=? t
  then TokenQuotaRepository.reset_daily (q_user_id quota)
  else ret quota.

Definition get_quota (uid : string) : M TokenQuota :=
  quota <- TokenQuotaRepository.get uid ;;
  match quota with
  | None => _create_default_quota uid
  | Some q => _check_and_reset_daily q
  end.

Definition check_quota (uid : string) (tokens : Z) : M (bool * string) :=
  quota <- get_quota uid ;;
  t <- now ;;
  ret (if remaining quota <? tokens then
         (false, "配额不足，剩余 " +:+ pretty (remaining quota) +:+ " Token")
       else if daily_remaining quota <? tokens then
         (false, "今日配额不足，剩余 " +:+ pretty (daily_remaining quota)
                 +:+ " Token")
       else if is_minute_limit_exceeded t quota then
         (false, "请求过于频繁，请稍后再试")
       else (true, "")).

Definition check_minute_limit (uid : string) : M bool :=
  quota <- get_quota uid ;;
  t <- now ;;
  ret (negb (is_minute_limit_exceeded t quota)).

Definition check_daily_limit (uid : string) : M bool :=
  quota <- get_quota uid ;;
  ret (0 <? daily_remaining quota).

Definition _record_request (quota : TokenQuota) : M unit :=
  t <- now ;;
  let kept := filter (fun ts => within t 60 ts = true) (minute_requests quota) in
  TokenQuotaRepository.update
    {| q_user_id := q_user_id quota; total_quota := total_quota quota;
       used := used quota; daily_limit := daily_limit quota;
       daily_used := daily_used quota; daily_reset := daily_reset quota;
       minute_limit := minute_limit quota;
       minute_requests := (kept ++ [t])%list |} ;;;
  ret tt.

Definition consume (uid : string) (tokens : Z) : M bool :=
  chk <- check_quota uid tokens ;;
  if negb (fst chk) then ret false
  else
    quota <- TokenQuotaRepository.increment_used uid tokens ;;
    _record_request quota ;;;
    ret true.

End TokenController.

(** ** managers/ban.py: BanManager *)

Record DetectionRules := {
  rapid_request_threshold : Z;
  rapid_request_window : Z;
  token_burst_threshold : Z;
  token_rate_threshold : Z;
  spam_message_threshold : Z;
  spam_window : Z;
  repeat_threshold : Z;
  repeat_window : Z
}.

Definition DEFAULT_DETECTION_RULES : DetectionRules :=
  {| rapid_request_threshold := 10; rapid_request_window := 60;
     token_burst_threshold := 1000; token_rate_threshold := 5000;
     spam_message_threshold := 5; spam_window := 10;
     repeat_threshold := 3; repeat_window := 30 |}.

Module BanManager.

Definition check_ban_status (uid : string) : M (option BanRecord) :=
  record <- BanRecordRepository.get_active_ban uid ;;
  t <- now ;;
  match record with
  | Some r => if ban_is_active t r then ret (Some r) else ret None
  | None => ret None
  end.

Definition is_banned (uid : string) : M bool :=
  record <- check_ban_status uid ;;
  ret (bool_decide (record <> None)).

Definition get_remaining_ban_time (uid : string) : M (option Z) :=
  record <- check_ban_status uid ;;
  t <- now ;;
  match record with
  | Some r => ret (remaining_seconds t r)
  | None => ret None
  end.

Section Detection.
Variable detection_rules : DetectionRules.

Definition _detect_rapid_requests (uid : string) (t : Z) : M bool :=
  reqs <- gets (fun w => default [] (user_requests w !! uid)) ;;
  let window := rapid_request_window detection_rules in
  let threshold := rapid_request_threshold detection_rules in
  let kept := (filter (fun ts => within t window ts = true) reqs ++ [t])%list in
  modify (fun w => set_user_requests (<[uid := kept]> (user_requests w)) w) ;;;
  ret (threshold <? Z.of_nat (length kept)).

Definition _detect_token_abuse (uid : string) (tokens_used : Z) (t : Z)
  : M bool :=
  ret (token_burst_threshold detection_rules <? tokens_used).

Definition _detect_spam (uid : string) (message_content : string) (t : Z)
  : M bool :=
  msgs <- gets (fun w => default [] (user_messages w !! uid)) ;;
  let window := spam_window detection_rules in
  let threshold := spam_message_threshold detection_rules in
  let kept := (filter (fun ts => within t window ts = true) msgs ++ [t])%list in
  modify (fun w => set_user_messages (<[uid := kept]> (user_messages w)) w) ;;;
  ret (threshold <? Z.of_nat (length kept)).

Definition _detect_repeated_content (uid : string) (content : string) (t : Z)
  : M bool :=
  if bool_decide (content = "") then ret false
  else
    old <- gets (fun w => default [] (user_content w !! uid)) ;;
    let window := repeat_window detection_rules in
    let threshold := repeat_threshold detection_rules in
    let kept := filter (fun p => within t window (fst p) = true) old in
    let content_count :=
      length (filter (fun p => snd p = content) kept) in
    modify (fun w =>
      set_user_content (<[uid := (kept ++ [(t, content)])%list]> (user_content w)) w) ;;;
    ret (threshold <=? Z.of_nat content_count).

Definition detect_abuse (uid : string) (message_content : string)
    (tokens_used : Z) : M (bool * option string) :=
  t <- now ;;
  rapid <- _detect_rapid_requests uid t ;;
  if rapid then ret (true, Some "请求过于频繁")
  else
    burst <- (if 0 <? tokens_used
              then _detect_token_abuse uid tokens_used t
              else ret false) ;;
    if burst then ret (true, Some "Token消耗异常")
    else if bool_decide (message_content = "") then ret (false, None)
    else
      spam <- _detect_spam uid message_content t ;;
      if spam then ret (true, Some "检测到刷屏行为")
      else
        rep <- _detect_repeated_content uid message_content t ;;
        if rep then ret (true, Some "发送重复内容")
        else ret (false, None).
End Detection.

End BanManager.

(** ** storage/database.py: UserRepository *)

Module UserRepository.

Definition _orm_to_model (uid : string) (row : User) : User :=
  {| user_id := uid; nickname := nickname row; is_active := is_active row;
     is_banned := is_banned row;
     current_context_id := current_context_id row;
     last_active := last_active row |}.

Definition get (uid : string) : M (option User) :=
  db_session ;;;
  row <- gets (fun w => users_tbl w !! uid) ;;
  ret (_orm_to_model uid <$> row).

Definition create (u : User) : M User :=
  db_session ;;;
  modify (fun w => set_users (<[user_id u := u]> (users_tbl w)) w) ;;;
  ret (_orm_to_model (user_id u) u).

Definition get_or_create (uid : string) (nick : string) : M User :=
  user <- get uid ;;
  match user with
  | Some u => ret u
  | None =>
      t <- now ;;
      create {| user_id := uid; nickname := nick; is_active := true;
                is_banned := false; current_context_id := None;
                last_active := t |}
  end.

(** UPDATE ... WHERE user_id = user.user_id; returns its argument. *)
Definition update (u : User) : M User :=
  db_session ;;;
  modify (fun w => match users_tbl w !! user_id u with
                   | Some _ => set_users (<[user_id u := u]> (users_tbl w)) w
                   | None => w
                   end) ;;;
  ret u.

End UserRepository.

(** ** storage/database.py: ContextRepository *)

Module ContextRepository.

(** ORDER BY timestamp, stable on the insertion order. *)
Fixpoint insert_by_timestamp (m : ChatMessage) (l : list ChatMessage)
  : list ChatMessage :=
  match l with
  | [] => [m]
  | x :: r => if timestamp m <=? timestamp x then m :: x :: r
              else x :: insert_by_timestamp m r
  end.

Definition order_by_timestamp (l : list ChatMessage) : list ChatMessage :=
  foldr insert_by_timestamp [] l.

Definition messages_of (cid : string) (tbl : list (string * ChatMessage))
  : list ChatMessage :=
  order_by_timestamp
    (List.map snd (List.filter (fun p => bool_decide (fst p = cid)) tbl)).

(** _orm_to_model: the columns of the row, the messages of the context
    read from the message table, and [max_messages=200]. *)
Definition _orm_to_model (cid : string) (row : Context) : M Context :=
  tbl <- gets messages_tbl ;;
  ret {| context_id := cid; type := type row; name := name row;
         creator_id := creator_id row; participants := participants row;
         messages := messages_of cid tbl; max_messages := 200;
         status := status row; current_role_id := current_role_id row;
         created_at := created_at row; updated_at := updated_at row;
         expires_at := expires_at row |}.

(** The columns of a row: messages live in their own table and
    [max_messages] is not stored. *)
Definition columns (c : Context) : Context :=
  {| context_id := context_id c; type := type c; name := name c;
     creator_id := creator_id c; participants := participants c;
     messages := []; max_messages := 200;
     status := status c; current_role_id := current_role_id c;
     created_at := created_at c; updated_at := updated_at c;
     expires_at := expires_at c |}.

Definition create (c : Context) : M Context :=
  db_session ;;;
  modify (fun w =>
    set_contexts (<[context_id c := columns c]> (contexts_tbl w)) w) ;;;
  _orm_to_model (context_id c) c.

Definition get (cid : string) : M (option Context) :=
  db_session ;;;
  row <- gets (fun w => contexts_tbl w !! cid) ;;
  match row with
  | None => ret None
  | Some r => c <- _orm_to_model cid r ;; ret (Some c)
  end.

(** UPDATE ... WHERE context_id = context.context_id: [creator_id] and
    [created_at] keep their stored value, [updated_at] is the time of
    the statement; returns its argument. *)
Definition update (c : Context) : M Context :=
  db_session ;;;
  t <- now ;;
  modify (fun w =>
    match contexts_tbl w !! context_id c with
    | Some old =>
        set_contexts
          (<[context_id c :=
               {| context_id := context_id c; type := type c; name := name c;
                  creator_id := creator_id old;
                  participants := participants c;
                  messages := []; max_messages := 200;
                  status := status c; current_role_id := current_role_id c;
                  created_at := created_at old; updated_at := t;
                  expires_at := expires_at c |}]> (contexts_tbl w)) w
    | None => w
    end) ;;;
  ret c.

Definition add_message (cid : string) (m : ChatMessage) : M unit :=
  db_session ;;;
  modify (fun w => set_messages (messages_tbl w ++ [(cid, m)])%list w).

End ContextRepository.

(** ** storage/cache.py: ContextCache *)

Module ContextCache.

Definition TTL_SECONDS : Z := 86400.

(** _deserialize: [current_role_id] is not part of the serialized form;
    building the [Context] validates [max_messages >= 1]. *)
Definition _deserialize (c : Context) : result Context :=
  if 1 <=? max_messages c then
    Ok {| context_id := context_id c; type := type c; name := name c;
          creator_id := creator_id c; participants := participants c;
          messages := messages c; max_messages := max_messages c;
          status := status c; current_role_id := None;
          created_at := created_at c; updated_at := updated_at c;
          expires_at := expires_at c |}
  else Raise "ValidationError".

Definition get (cid : string) : M (option Context) :=
  redis_call ;;;
  t <- now ;;
  data <- gets (fun w => redis_ctx w !! cid) ;;
  match data with
  | None => ret None
  | Some (expiry, c) =>
      if expiry <=? t then ret None
      else c' <- lift (_deserialize c) ;; ret (Some c')
  end.

(** [ttl = ttl or self.TTL_SECONDS], then SETEX. *)
Definition set (c : Context) (ttl : Z) : M unit :=
  redis_call ;;;
  t <- now ;;
  let ttl' := if ttl =? 0 then TTL_SECONDS else ttl in
  modify (fun w =>
    set_redis (<[context_id c := (t + ttl' * usec, c)]> (redis_ctx w)) w).

Definition delete (cid : string) : M unit :=
  redis_call ;;;
  modify (fun w => set_redis (base.delete cid (redis_ctx w)) w).

End ContextCache.

(** ** core/context.py: storage strategies *)

(** The interface [ContextStorage]. *)
Record ContextStorage := {
  storage_get : string -> M (option Context);
  storage_save : Context -> M bool;
  storage_delete : string -> M bool
}.

Module RedisContextStorage.

Definition get (cid : string) : M (option Context) :=
  try_except (ContextCache.get cid) (fun _ => ret None).

Definition save (ttl_seconds : Z) (c : Context) : M bool :=
  try_except (ContextCache.set c ttl_seconds ;;; ret true)
             (fun _ => ret false).

Definition delete (cid : string) : M bool :=
  try_except (ContextCache.delete cid ;;; ret true) (fun _ => ret false).

Definition make (ttl_seconds : Z) : ContextStorage :=
  {| storage_get := get; storage_save := save ttl_seconds;
     storage_delete := delete |}.

End RedisContextStorage.

Definition with_status (st : ContextStatus) (c : Context) : Context :=
  {| context_id := context_id c; type := type c; name := name c;
     creator_id := creator_id c; participants := participants c;
     messages := messages c; max_messages := max_messages c;
     status := st; current_role_id := current_role_id c;
     created_at := created_at c; updated_at := updated_at c;
     expires_at := expires_at c |}.

Module DatabaseContextStorage.

Definition get (cid : string) : M (option Context) :=
  try_except (ContextRepository.get cid) (fun _ => ret None).

Definition save (c : Context) : M bool :=
  try_except
    (existing <- ContextRepository.get (context_id c) ;;
     match existing with
     | Some _ => ContextRepository.update c ;;; ret true
     | None => ContextRepository.create c ;;; ret true
     end)
    (fun _ => ret false).

Definition delete (cid : string) : M bool :=
  try_except
    (context <- ContextRepository.get cid ;;
     match context with
     | Some c => ContextRepository.update (with_status DELETED c) ;;; ret true
     | None => ret false
     end)
    (fun _ => ret false).

Definition make : ContextStorage :=
  {| storage_get := get; storage_save := save; storage_delete := delete |}.

End DatabaseContextStorage.

Module HybridContextStorage.
Section Hybrid.
Variables cache_storage db_storage : ContextStorage.

Definition get (cid : string) : M (option Context) :=
  context <- storage_get cache_storage cid ;;
  match context with
  | Some c => ret (Some c)
  | None =>
      context <- storage_get db_storage cid ;;
      match context with
      | Some c => storage_save cache_storage c ;;; ret (Some c)
      | None => ret None
      end
  end.

Definition save (c : Context) : M bool :=
  cache_ok <- storage_save cache_storage c ;;
  db_ok <- storage_save db_storage c ;;
  ret (cache_ok && db_ok).

Definition delete (cid : string) : M bool :=
  cache_ok <- storage_delete cache_storage cid ;;
  db_ok <- storage_delete db_storage cid ;;
  ret (cache_ok && db_ok).

Definition make : ContextStorage :=
  {| storage_get := get; storage_save := save; storage_delete := delete |}.
End Hybrid.
End HybridContextStorage.

(** The storage a [ContextManager] builds when none is given. *)
Definition default_storage : ContextStorage :=
  HybridContextStorage.make (RedisContextStorage.make 3600)
                            DatabaseContextStorage.make.

(** ** utils/helpers.py: IDHelper *)

Module IDHelper.

Definition generate_short_id (n : nat) : M string :=
  u <- generate_uuid ;; ret (String.substring 0 n u).

Definition generate_context_id : M string :=
  u <- generate_uuid ;; ret ("ctx_" +:+ u).

Definition generate_message_id : M string :=
  t <- now ;;
  sid <- generate_short_id 8 ;;
  ret ("msg_" +:+ sid +:+ "_" +:+ pretty (Z.quot t usec)).

End IDHelper.

(** ** core/context.py: ContextManager *)

Definition ContextType_value (t : ContextType) : string :=
  match t with
  | PRIVATE => "private" | GROUP => "group"
  | MULTI_USER => "multi_user" | CT_ROLE_PLAY => "role_play"
  end.

Definition with_messages (ms : list ChatMessage) (t : Z) (c : Context)
  : Context :=
  {| context_id := context_id c; type := type c; name := name c;
     creator_id := creator_id c; participants := participants c;
     messages := ms; max_messages := max_messages c;
     status := status c; current_role_id := current_role_id c;
     created_at := created_at c; updated_at := t;
     expires_at := expires_at c |}.

Definition with_updated_at (t : Z) (c : Context) : Context :=
  with_messages (messages c) t c.

Definition with_participants (ps : list string) (t : Z) (c : Context)
  : Context :=
  {| context_id := context_id c; type := type c; name := name c;
     creator_id := creator_id c; participants := ps;
     messages := messages c; max_messages := max_messages c;
     status := status c; current_role_id := current_role_id c;
     created_at := created_at c; updated_at := t;
     expires_at := expires_at c |}.

Definition with_current_context (cid : option string) (u : User) : User :=
  {| user_id := user_id u; nickname := nickname u; is_active := is_active u;
     is_banned := is_banned u; current_context_id := cid;
     last_active := last_active u |}.

Module ContextManager.
Section Manager.
Variable storage : ContextStorage.

Definition create_context (context_type : ContextType)
    (creator : string) (nm : string) (parts : option (list string))
    (expires_in_hours : option Z) : M Context :=
  user <- UserRepository.get_or_create creator "" ;;
  let parts' :=
    match parts with
    | None => [creator]
    | Some ps => if bool_decide (creator ∈ ps) then ps
                 else (ps ++ [creator])%list
    end in
  cid <- IDHelper.generate_context_id ;;
  t <- now ;;
  expires <- match expires_in_hours with
             | Some h => if h =? 0 then ret None
                         else (e <- add_hours t h ;; ret (Some e))
             | None => ret None
             end ;;
  let context :=
    {| context_id := cid; type := context_type;
       name := if bool_decide (nm = "")
               then ContextType_value context_type +:+ "_" +:+ String.substring 0 8 cid
               else nm;
       creator_id := creator; participants := parts';
       messages := []; max_messages := 200;
       status := ACTIVE; current_role_id := None;
       created_at := t; updated_at := t; expires_at := expires |} in
  created <- ContextRepository.create context ;;
  storage_save storage created ;;;
  UserRepository.update (with_current_context (Some cid) user) ;;;
  ret created.

Definition get_context (cid : string) : M (option Context) :=
  storage_get storage cid.

Definition update_context (c : Context) : M bool :=
  t <- now ;;
  storage_save storage (with_updated_at t c).

Definition add_participant (cid : string) (uid : string) (uname : string)
  : M bool :=
  context <- get_context cid ;;
  match context with
  | None => ret false
  | Some c =>
      if bool_decide (uid ∈ participants c) then ret true
      else
        UserRepository.get_or_create uid uname ;;;
        t <- now ;;
        update_context (with_participants (participants c ++ [uid])%list t c)
  end.

(** Lines 563-568 of [add_message]: append to the in-memory list,
    stamp [updated_at], cut the list down to [max_messages]. *)
Definition append_message (message : ChatMessage) (t : Z) (c : Context)
  : Context :=
  let ms := (messages c ++ [message])%list in
  if max_messages c <? Z.of_nat (length ms)
  then with_messages (slice_from (- max_messages c) ms) t c
  else with_messages ms t c.

Definition add_message (cid : string) (sender sender_nm : string)
    (text : string) (mtype : MessageType) (rl : MessageRole)
    (is_sys : bool) : M bool :=
  context <- get_context cid ;;
  match context with
  | None => ret false
  | Some c =>
      mid <- IDHelper.generate_message_id ;;
      t <- now ;;
      let message :=
        {| message_id := mid; sender_id := sender;
           sender_name := sender_nm; role := rl; content := text;
           message_type := mtype; timestamp := t; is_system := is_sys |} in
      ContextRepository.add_message cid message ;;;
      update_context (append_message message t c)
  end.

Definition get_messages (cid : string) (limit : option Z)
  : M (list ChatMessage) :=
  context <- get_context cid ;;
  match context with
  | None => ret []
  | Some c =>
      let ms := messages c in
      match limit with
      | Some l =>
          if negb (l =? 0) && (l <? Z.of_nat (length ms))
          then ret (slice_from (- l) ms)
          else ret ms
      | None => ret ms
      end
  end.

Definition get_user_context (uid : string) : M (option Context) :=
  user <- UserRepository.get uid ;;
  match user with
  | None => ret None
  | Some u =>
      match current_context_id u with
      | None => ret None
      | Some cid => if bool_decide (cid = "") then ret None
                    else get_context cid
      end
  end.

End Manager.
End ContextManager.

(** ** Python [str] operations on UTF-8 strings *)

Definition byte_of (c : Ascii.ascii) : N := Ascii.N_of_ascii c.

(** A continuation byte of a multi-byte code point. *)
Definition is_continuation (c : Ascii.ascii) : bool :=
  ((128 <=? byte_of c) && (byte_of c <? 192))%N.

(** [len(s)]: the number of code points. *)
Fixpoint py_len (s : string) : Z :=
  match s with
  | EmptyString => 0
  | String c r => (if is_continuation c then 0 else 1) + py_len r
  end.

(** [kw in text] *)
Fixpoint contains (kw text : string) : bool :=
  String.prefix kw text
  || match text with
     | EmptyString => false
     | String _ r => contains kw r
     end.

(** [text.startswith(p)] *)
Definition startswith (p text : string) : bool := String.prefix p text.

(** Length in bytes of the white-space code point at the head of [s], 0 when
    [s] does not start with one. White space is what [str.isspace] and the
    pattern [\s] accept: U+0009-000D, U+001C-0020, U+0085, U+00A0, U+1680,
    U+2000-200A, U+2028, U+2029, U+202F, U+205F, U+3000. *)
Definition ws_len (s : string) : nat :=
  match s with
  | EmptyString => 0
  | String a r =>
      let x := byte_of a in
      if (((9 <=? x) && (x <=? 13)) || ((28 <=? x) && (x <=? 32)))%N then 1
      else
        match r with
        | EmptyString => 0
        | String b r2 =>
            let y := byte_of b in
            if ((x =? 194) && ((y =? 133) || (y =? 160)))%N then 2
            else
              match r2 with
              | EmptyString => 0
              | String c _ =>
                  let z := byte_of c in
                  if ((x =? 225) && (y =? 154) && (z =? 128))%N then 3
                  else if ((x =? 226) && (y =? 128)
                           && (((128 <=? z) && (z <=? 138)) || (z =? 168)
                               || (z =? 169) || (z =? 175)))%N then 3
                  else if ((x =? 226) && (y =? 129) && (z =? 159))%N then 3
                  else if ((x =? 227) && (y =? 128) && (z =? 128))%N then 3
                  else 0
              end
        end
  end%nat.

(** [s.lstrip()]; [skip] bytes of a white-space code point remain to drop. *)
Fixpoint lstrip_from (skip : nat) (s : string) : string :=
  match s with
  | EmptyString => EmptyString
  | String _ r =>
      match skip with
      | S k => lstrip_from k r
      | O => match ws_len s with
             | O => s
             | S k => lstrip_from k r
             end
      end
  end.

Definition lstrip (s : string) : string := lstrip_from 0 s.

(** [s.isspace()] or [s] empty. *)
Fixpoint all_space_from (skip : nat) (s : string) : bool :=
  match s with
  | EmptyString => match skip with O => true | S _ => false end
  | String _ r =>
      match skip with
      | S k => all_space_from k r
      | O => match ws_len s with
             | O => false
             | S k => all_space_from k r
             end
      end
  end.

(** [s.rstrip()] *)
Fixpoint rstrip (s : string) : string :=
  if all_space_from 0 s then EmptyString
  else match s with
       | EmptyString => EmptyString
       | String a r => String a (rstrip r)
       end.

(** [s.strip()] *)
Definition strip (s : string) : string := rstrip (lstrip s).

(** [re.sub(r"\s+", " ", s)] *)
Fixpoint collapse_spaces (skip : nat) (in_run : bool) (s : string) : string :=
  match s with
  | EmptyString => EmptyString
  | String a r =>
      match skip with
      | S k => collapse_spaces k in_run r
      | O => match ws_len s with
             | O => String a (collapse_spaces 0 false r)
             | S k => if in_run then collapse_spaces k true r
                      else String (Ascii.ascii_of_nat 32) (collapse_spaces k true r)
             end
      end
  end.

(** [s[1:]] *)
Fixpoint drop_continuation (s : string) : string :=
  match s with
  | EmptyString => EmptyString
  | String a r => if is_continuation a then drop_continuation r else s
  end.

Definition tail1 (s : string) : string :=
  match s with
  | EmptyString => EmptyString
  | String _ r => drop_continuation r
  end.

(** The first element of [s.split()], if any. *)
Fixpoint take_word (s : string) : string :=
  match s with
  | EmptyString => EmptyString
  | String a r => match ws_len s with
                  | O => String a (take_word r)
                  | S _ => EmptyString
                  end
  end.

Definition first_word (s : string) : option string :=
  let t := take_word (lstrip s) in
  if bool_decide (t = "") then None else Some t.

(** ** utils/helpers.py: TextHelper, EntityHelper *)

(** Values stored in the entity dictionaries. *)
Inductive PyVal :=
  | VNone
  | VBool (b : bool)
  | VInt (z : Z)
  | VStr (s : string).

Module TextHelper.

Definition clean_text (text : string) : string :=
  if bool_decide (text = "") then ""
  else collapse_spaces 0 false (strip text).

End TextHelper.

Module EntityHelper.
Section Numbers.
(** [TextHelper.extract_numbers]: the integers written in the text, as
    found by the pattern [\d+]. *)
Variable extract_numbers : string -> list Z.

Definition time_keywords : list (string * string) :=
  [("早上", "morning"); ("上午", "morning"); ("中午", "noon");
   ("下午", "afternoon"); ("晚上", "evening"); ("夜里", "night")].

Definition extract_time_entities (text : string) : gmap string PyVal :=
  let entities : gmap string PyVal :=
    <["has_time" := VBool false]>
      (<["time_type" := VNone]>
         (<["hour" := VNone]> (<["minute" := VNone]> ∅))) in
  let entities :=
    match List.find (fun p => contains (fst p) text) time_keywords with
    | Some (_, time_type) =>
        <["time_type" := VStr time_type]>
          (<["has_time" := VBool true]> entities)
    | None => entities
    end in
  match extract_numbers text with
  | hour :: _ =>
      if (0 <=? hour) && (hour <=? 23)
      then <["has_time" := VBool true]> (<["hour" := VInt hour]> entities)
      else entities
  | [] => entities
  end.
End Numbers.

Definition common_cities : list string :=
  ["北京"; "上海"; "广州"; "深圳"; "杭州"; "成都"; "重庆"; "武汉"; "西安";
   "南京"; "天津"; "苏州"; "长沙"; "郑州"].

Definition extract_location_entities (text : string) : gmap string PyVal :=
  let entities : gmap string PyVal :=
    <["has_location" := VBool false]> (<["location" := VNone]> ∅) in
  match List.find (fun city => contains city text) common_cities with
  | Some city =>
      <["location" := VStr city]> (<["has_location" := VBool true]> entities)
  | None => entities
  end.

Record IntentHints := {
  has_command : bool;
  command : option string;
  has_query : bool;
  query_type : option string
}.

Definition query_keywords : list (string * string) :=
  [("天气", "weather"); ("温度", "weather"); ("下雨", "weather");
   ("角色", "role_play"); ("扮演", "role_play")].

Definition extract_intent_hints (text : string) : IntentHints :=
  let is_cmd := startswith "/" text || startswith "！" text in
  let q := List.find (fun p => contains (fst p) text) query_keywords in
  {| has_command := is_cmd;
     command := if is_cmd then first_word (tail1 text) else None;
     has_query := bool_decide (q <> None);
     query_type := snd <$> q |}.

End EntityHelper.

(** ** Python floats *)

(** [min(a, b)]: the first argument unless the second is smaller. *)
Definition py_min (a b : float) : float :=
  if PrimFloat.ltb b a then b else a.

(** [float(n)] for the length [n] of a list. *)
Definition float_of_nat (n : nat) : float :=
  PrimFloat.of_uint63 (Uint63.of_Z (Z.of_nat n)).

(** ** core/state.py *)

Inductive IntentType :=
  | CHAT | WEATHER | ROLE_PLAY | CONTEXT_CREATE | CONTEXT_JOIN
  | CONTEXT_LEAVE | CONTEXT_END | USER_BAN | COMMAND | UNKNOWN.

Inductive RouteTarget :=
  | CHAT_MODULE | WEATHER_MODULE | ROLE_PLAY_MODULE | CONTEXT_HANDLER
  | RESPONSE_GENERATOR | ERROR_HANDLER | RT_END.

Inductive ProcessingStage :=
  | RECEIVED | PREPROCESSING | INTENT_CLASSIFYING | CONTEXT_LOADING
  | PROCESSING | POSTPROCESSING | COMPLETED | FAILED.

#[global] Instance IntentType_eq_dec : EqDecision IntentType.
Proof. solve_decision. Defined.
#[global] Instance RouteTarget_eq_dec : EqDecision RouteTarget.
Proof. solve_decision. Defined.
#[global] Instance ProcessingStage_eq_dec : EqDecision ProcessingStage.
Proof. solve_decision. Defined.

Record RobotState := {
  rs_message_id : string;
  rs_user_id : string;
  rs_user_name : string;
  rs_group_id : option string;
  message_content : string;
  rs_message_type : string;
  rs_intent : IntentType;
  intent_confidence : float;
  route_target : RouteTarget;
  processing_stage : ProcessingStage;
  rs_context_id : option string;
  rs_context_type : option string;
  history_limit : Z;
  response : string;
  response_type : string;
  need_response : bool;
  error_message : string;
  rs_error_code : option string;
  retry_count : Z;
  entities : gmap string PyVal
}.

Record IntentResult := {
  intent : IntentType;
  confidence : float;
  raw_input : string;
  ir_entities : gmap string PyVal;
  reasoning : string
}.

Record MessageProcessingResult := {
  success : bool;
  mpr_response : string;
  error : option string;
  processing_time_ms : Z;
  tokens_used : Z;
  state_snapshot : option RobotState
}.

Definition create_initial_state (mid uid text uname : string)
    (gid : option string) (mtype : string) : RobotState :=
  {| rs_message_id := mid; rs_user_id := uid; rs_user_name := uname;
     rs_group_id := gid; message_content := text; rs_message_type := mtype;
     rs_intent := UNKNOWN; intent_confidence := 0%float;
     route_target := CHAT_MODULE;
     processing_stage := RECEIVED; rs_context_id := None;
     rs_context_type := None; history_limit := 10; response := "";
     response_type := "text"; need_response := true; error_message := "";
     rs_error_code := None; retry_count := 0; entities := ∅ |}.

(** ** core/intent.py *)

Record IntentRule := {
  rule_intent : IntentType;
  keywords : list string;
  patterns : list string;
  priority : Z;
  description : string
}.

#[global] Instance IntentRule_eq_dec : EqDecision IntentRule.
Proof. solve_decision. Defined.

Definition DEFAULT_INTENT_RULES : list IntentRule :=
  [ {| rule_intent := WEATHER;
       keywords := ["天气"; "气温"; "温度"; "下雨"; "下雪"; "晴天"; "阴天"; "刮风"];
       patterns := [".*天气.*"; ".*(?:气温|温度).*"; ".*(?:雨|雪|晴|阴|风).*"];
       priority := 10; description := "天气查询意图" |};
    {| rule_intent := ROLE_PLAY;
       keywords := ["扮演"; "角色"; "角色扮演"; "变成"; "当作"];
       patterns := ["扮演.*"; "角色.*"; "变成.*"];
       priority := 15; description := "角色扮演意图" |};
    {| rule_intent := CONTEXT_CREATE;
       keywords := ["创建对话"; "新建对话"; "创建上下文"; "开始对话"];
       patterns := ["创建.*(?:对话|上下文)"; "新建.*对话"];
       priority := 20; description := "创建上下文意图" |};
    {| rule_intent := CONTEXT_JOIN;
       keywords := ["加入对话"; "进入对话"; "加入上下文"];
       patterns := ["加入.*(?:对话|上下文)"; "进入.*对话"];
       priority := 20; description := "加入上下文意图" |};
    {| rule_intent := CONTEXT_LEAVE;
       keywords := ["离开对话"; "退出对话"; "离开上下文"];
       patterns := ["(?:离开|退出).*(?:对话|上下文)"];
       priority := 20; description := "离开上下文意图" |};
    {| rule_intent := CONTEXT_END;
       keywords := ["结束对话"; "终止对话"; "结束上下文"; "关闭对话"];
       patterns := ["(?:结束|终止|关闭).*(?:对话|上下文)"];
       priority := 20; description := "结束上下文意图" |};
    {| rule_intent := COMMAND;
       keywords := ["/help"; "/start"; "/status"; "/config"; "/ban"; "/unban"];
       patterns := ["/[a-zA-Z]+"];
       priority := 30; description := "命令操作意图" |};
    {| rule_intent := CHAT;
       keywords := ["你好"; "嗨"; "在吗"; "早上好"; "晚安"; "谢谢"; "再见"];
       patterns := [".*"];
       priority := 0; description := "普通聊天意图（默认）" |} ].

Module IntentRecognizer.

(** A compiled pattern: its source and its [search] method. *)
Record Pattern := {
  pattern_source : string;
  search : string -> bool
}.

Record t := {
  rules : list IntentRule;
  _compiled_patterns : list (IntentRule * Pattern)
}.

(** [sorted(rules, key=priority, reverse=True)]: stable. *)
Fixpoint insert_by_priority (r : IntentRule) (l : list IntentRule)
  : list IntentRule :=
  match l with
  | [] => [r]
  | x :: rest => if priority x <=? priority r then r :: x :: rest
                 else x :: insert_by_priority r rest
  end.

Definition sort_by_priority (l : list IntentRule) : list IntentRule :=
  foldr insert_by_priority [] l.

Section Regex.
(** [re.compile]: the [search] method of the compiled pattern, or
    [None] for [re.error]. *)
Variable re_compile : string -> option (string -> bool).

(** IntentRule.validate_patterns, run when a rule is built. *)
Definition validate_patterns (r : IntentRule) : result IntentRule :=
  match List.find (fun p => match re_compile p with
                            | None => true
                            | Some _ => false
                            end) (patterns r) with
  | Some p => Raise ("Invalid regex pattern '" +:+ p +:+ "'")
  | None => Ok r
  end.

Fixpoint build_rules (l : list IntentRule) : result (list IntentRule) :=
  match l with
  | [] => Ok []
  | r :: rest =>
      match validate_patterns r with
      | Raise e => Raise e
      | Ok r' => match build_rules rest with
                 | Raise e => Raise e
                 | Ok rest' => Ok (r' :: rest')
                 end
      end
  end.

(** The compiled patterns of one rule; a pattern that does not compile
    is skipped. *)
Definition compile_rule (r : IntentRule) : list (IntentRule * Pattern) :=
  omap (fun p => match re_compile p with
                 | Some f => Some (r, {| pattern_source := p; search := f |})
                 | None => None
                 end) (patterns r).

(** IntentRecognizer.__init__ *)
Definition init (rules_arg : option (list IntentRule)) : result t :=
  let rules0 := default DEFAULT_INTENT_RULES rules_arg in
  match build_rules (sort_by_priority rules0) with
  | Raise e => Raise e
  | Ok rs => Ok {| rules := rs;
                   _compiled_patterns := concat (List.map compile_rule rs) |}
  end.

(** IntentRecognizer.add_rule *)
Definition add_rule (r : IntentRule) (self : t) : t :=
  {| rules := sort_by_priority (rules self ++ [r])%list;
     _compiled_patterns :=
       (_compiled_patterns self ++ compile_rule r)%list |}.
End Regex.

(** IntentRecognizer.remove_rules_by_intent *)
Definition remove_rules_by_intent (i : IntentType) (self : t) : t * Z :=
  let kept := List.filter (fun r => negb (bool_decide (rule_intent r = i)))
                          (rules self) in
  ({| rules := kept;
      _compiled_patterns :=
        List.filter (fun p => negb (bool_decide (rule_intent (fst p) = i)))
                    (_compiled_patterns self) |},
   Z.of_nat (length (rules self)) - Z.of_nat (length kept)).

(** [sum(1 for kw in keywords if kw in text)] *)
Definition match_count (text : string) (kws : list string) : nat :=
  length (List.filter (fun kw => contains kw text) kws).

(** _calculate_keyword_confidence *)
Definition _calculate_keyword_confidence (text : string)
    (kws : list string) : float :=
  let n := match_count text kws in
  if (n =? 0)%nat then 0.0%float
  else
    let base_score := 0.7%float in
    let bonus := py_min (float_of_nat n * 0.1) 0.2 in
    let length_factor := if py_len text <? 20 then 1.0%float else 0.9%float in
    (py_min (base_score + bonus) 1.0 * length_factor)%float.

(** [rule.keywords and any(kw in text for kw in rule.keywords)] *)
Definition keyword_hit (text : string) (r : IntentRule) : bool :=
  existsb (fun kw => contains kw text) (keywords r).

(** [rule.patterns] is not empty and some compiled pattern registered
    for a rule equal to [r] finds a match in the text. *)
Definition pattern_hit (self : t) (text : string) (r : IntentRule) : bool :=
  negb (bool_decide (patterns r = []))
  && existsb (fun p => bool_decide (fst p = r) && search (snd p) text)
             (_compiled_patterns self).

(** The second loop of [_recognize_by_rules]. *)
Fixpoint scan_rules (self : t) (text : string) (rs : list IntentRule)
  : option IntentResult :=
  match rs with
  | [] => None
  | rule :: rest =>
      if bool_decide (rule_intent rule = COMMAND) then scan_rules self text rest
      else if keyword_hit text rule then
        Some {| intent := rule_intent rule;
                confidence := _calculate_keyword_confidence text (keywords rule);
                raw_input := text; ir_entities := ∅;
                reasoning := "Keyword match: " +:+ description rule |}
      else if pattern_hit self text rule then
        Some {| intent := rule_intent rule;
                confidence := 0.85%float;
                raw_input := text; ir_entities := ∅;
                reasoning := "Pattern match: " +:+ description rule |}
      else scan_rules self text rest
  end.

Definition py_str_option (o : option string) : string :=
  match o with Some s => s | None => "None" end.

Definition option_val (o : option string) : PyVal :=
  match o with Some s => VStr s | None => VNone end.

(** The first loop of [_recognize_by_rules]: some COMMAND rule has a
    keyword that occurs in the text. *)
Definition command_hit (self : t) (text : string) : bool :=
  existsb (fun r => bool_decide (rule_intent r = COMMAND)
                    && existsb (fun cmd => contains cmd text) (keywords r))
          (rules self).

Definition _recognize_by_rules (self : t) (text : string) : IntentResult :=
  let hints := EntityHelper.extract_intent_hints text in
  if EntityHelper.has_command hints && command_hit self text then
    {| intent := COMMAND; confidence := 0.95%float; raw_input := text;
       ir_entities := {[ "command" := option_val (EntityHelper.command hints) ]};
       reasoning := "Command detected: /" +:+
                    py_str_option (EntityHelper.command hints) |}
  else
    match scan_rules self text (rules self) with
    | Some r => r
    | None =>
        {| intent := CHAT; confidence := 0.5%float; raw_input := text;
           ir_entities := ∅;
           reasoning := "No specific pattern matched, default to CHAT" |}
    end.

Definition recognize_sync (self : t) (text : string) : IntentResult :=
  let text := strip text in
  if bool_decide (text = "") then
    {| intent := UNKNOWN; confidence := 0.0%float; raw_input := text;
       ir_entities := ∅; reasoning := "Empty input" |}
  else _recognize_by_rules self text.

(** [recognize]: the LLM branch falls back to the rules. *)
Definition recognize (self : t) (text : string) (use_llm : bool)
  : IntentResult :=
  recognize_sync self text.

End IntentRecognizer.

(** ** core/langgraph.py: LangGraphManager *)

Definition with_error (msg : string) (code : string) (st : RobotState)
  : RobotState :=
  {| rs_message_id := rs_message_id st; rs_user_id := rs_user_id st;
     rs_user_name := rs_user_name st; rs_group_id := rs_group_id st;
     message_content := message_content st;
     rs_message_type := rs_message_type st; rs_intent := rs_intent st;
     intent_confidence := intent_confidence st;
     route_target := route_target st; processing_stage := FAILED;
     rs_context_id := rs_context_id st; rs_context_type := rs_context_type st;
     history_limit := history_limit st; response := response st;
     response_type := response_type st; need_response := need_response st;
     error_message := msg; rs_error_code := Some code;
     retry_count := retry_count st; entities := entities st |}.

Definition with_stage (stage : ProcessingStage) (st : RobotState)
  : RobotState :=
  {| rs_message_id := rs_message_id st; rs_user_id := rs_user_id st;
     rs_user_name := rs_user_name st; rs_group_id := rs_group_id st;
     message_content := message_content st;
     rs_message_type := rs_message_type st; rs_intent := rs_intent st;
     intent_confidence := intent_confidence st;
     route_target := route_target st; processing_stage := stage;
     rs_context_id := rs_context_id st; rs_context_type := rs_context_type st;
     history_limit := history_limit st; response := response st;
     response_type := response_type st; need_response := need_response st;
     error_message := error_message st; rs_error_code := rs_error_code st;
     retry_count := retry_count st; entities := entities st |}.

Definition with_response (text : string) (st : RobotState) : RobotState :=
  {| rs_message_id := rs_message_id st; rs_user_id := rs_user_id st;
     rs_user_name := rs_user_name st; rs_group_id := rs_group_id st;
     message_content := message_content st;
     rs_message_type := rs_message_type st; rs_intent := rs_intent st;
     intent_confidence := intent_confidence st;
     route_target := route_target st;
     processing_stage := processing_stage st;
     rs_context_id := rs_context_id st; rs_context_type := rs_context_type st;
     history_limit := history_limit st; response := text;
     response_type := response_type st; need_response := need_response st;
     error_message := error_message st; rs_error_code := rs_error_code st;
     retry_count := retry_count st; entities := entities st |}.

Definition with_content (text : string) (ents : gmap string PyVal)
    (st : RobotState) : RobotState :=
  {| rs_message_id := rs_message_id st; rs_user_id := rs_user_id st;
     rs_user_name := rs_user_name st; rs_group_id := rs_group_id st;
     message_content := text;
     rs_message_type := rs_message_type st; rs_intent := rs_intent st;
     intent_confidence := intent_confidence st;
     route_target := route_target st;
     processing_stage := processing_stage st;
     rs_context_id := rs_context_id st; rs_context_type := rs_context_type st;
     history_limit := history_limit st; response := response st;
     response_type := response_type st; need_response := need_response st;
     error_message := error_message st; rs_error_code := rs_error_code st;
     retry_count := retry_count st; entities := ents |}.

Definition with_intent (i : IntentType) (c : float) (ents : gmap string PyVal)
    (st : RobotState) : RobotState :=
  {| rs_message_id := rs_message_id st; rs_user_id := rs_user_id st;
     rs_user_name := rs_user_name st; rs_group_id := rs_group_id st;
     message_content := message_content st;
     rs_message_type := rs_message_type st; rs_intent := i;
     intent_confidence := c;
     route_target := route_target st;
     processing_stage := processing_stage st;
     rs_context_id := rs_context_id st; rs_context_type := rs_context_type st;
     history_limit := history_limit st; response := response st;
     response_type := response_type st; need_response := need_response st;
     error_message := error_message st; rs_error_code := rs_error_code st;
     retry_count := retry_count st; entities := ents |}.

Definition with_context (cid ctype : option string) (st : RobotState)
  : RobotState :=
  {| rs_message_id := rs_message_id st; rs_user_id := rs_user_id st;
     rs_user_name := rs_user_name st; rs_group_id := rs_group_id st;
     message_content := message_content st;
     rs_message_type := rs_message_type st; rs_intent := rs_intent st;
     intent_confidence := intent_confidence st;
     route_target := route_target st;
     processing_stage := processing_stage st;
     rs_context_id := cid; rs_context_type := ctype;
     history_limit := history_limit st; response := response st;
     response_type := response_type st; need_response := need_response st;
     error_message := error_message st; rs_error_code := rs_error_code st;
     retry_count := retry_count st; entities := entities st |}.

(** [d1.update(d2)] *)
Definition dict_update (d1 d2 : gmap string PyVal) : gmap string PyVal :=
  d2 ∪ d1.

(** [str(v)] inside an f-string. *)
Definition py_str (v : PyVal) : string :=
  match v with
  | VNone => "None"
  | VBool true => "True"
  | VBool false => "False"
  | VInt z => pretty z
  | VStr s => s
  end.

Module LangGraphManager.

(** The collaborators given to the constructor. Each is a function of
    its argument that may raise. *)
Record t := {
  intent_classifier : option (string -> result IntentResult);
  response_generator : option (RobotState -> result string)
}.

Inductive Node :=
  | input_processor | intent_classifier_node | context_loader
  | response_generator_node | error_handler.

Section Graph.
Variable re_compile : string -> option (string -> bool).
Variable extract_numbers : string -> list Z.
Variable self : t.

Definition _input_processor_node (st : RobotState) : RobotState :=
  let cleaned := TextHelper.clean_text (message_content st) in
  let ents :=
    dict_update (EntityHelper.extract_time_entities extract_numbers cleaned)
                (EntityHelper.extract_location_entities cleaned) in
  with_stage PREPROCESSING (with_content cleaned ents st).

(** Assignment to [state.intent_confidence] is validated ([ge=0],
    [le=1]). *)
Definition assign_intent (r : IntentResult) (st : RobotState)
  : result RobotState :=
  if PrimFloat.leb 0 (confidence r) && PrimFloat.leb (confidence r) 1 then
    Ok (with_intent (intent r) (confidence r)
          (dict_update (entities st) (ir_entities r)) st)
  else Raise "ValidationError".

Definition with_unknown_intent (st : RobotState) : RobotState :=
  with_intent UNKNOWN (intent_confidence st) (entities st) st.

Definition _intent_classifier_node (st : RobotState) : RobotState :=
  let st := with_stage INTENT_CLASSIFYING st in
  let outcome :=
    match intent_classifier self with
    | Some f =>
        match f (message_content st) with
        | Ok r => assign_intent r st
        | Raise e => Raise e
        end
    | None =>
        match IntentRecognizer.init re_compile None with
        | Ok recognizer =>
            assign_intent
              (IntentRecognizer.recognize_sync recognizer
                 (message_content st)) st
        | Raise e => Raise e
        end
    end in
  match outcome with
  | Ok st' => st'
  | Raise e => with_unknown_intent (with_error e "INTENT_CLASSIFY_ERROR" st)
  end.

Definition _context_loader_node (st : RobotState) : RobotState :=
  with_stage PROCESSING (with_stage CONTEXT_LOADING st).

Definition _generate_default_response (st : RobotState) : string :=
  match rs_intent st with
  | WEATHER =>
      let location :=
        match entities st !! "location" with
        | Some v => py_str v
        | None => "未知地点"
        end in
      "正在查询" +:+ location +:+ "的天气信息..."
  | ROLE_PLAY => "角色扮演功能正在开发中..."
  | CHAT => "你说：" +:+ message_content st
  | _ => "我收到了你的消息。"
  end.

Definition _response_generator_node (st : RobotState) : RobotState :=
  let st := with_stage PROCESSING st in
  let outcome :=
    match response_generator self with
    | Some g => g st
    | None => Ok (_generate_default_response st)
    end in
  match outcome with
  | Ok text => with_stage POSTPROCESSING (with_response text st)
  | Raise e =>
      with_response "抱歉，生成回复时出现错误。"
        (with_error e "RESPONSE_GENERATE_ERROR" st)
  end.

Definition _error_handler_node (st : RobotState) : RobotState :=
  let st := with_stage FAILED st in
  if bool_decide (rs_error_code st = Some "INTENT_CLASSIFY_ERROR") then
    with_response "抱歉，我无法理解您的意思。" st
  else if bool_decide (rs_error_code st = Some "CONTEXT_LOAD_ERROR") then
    with_response "抱歉，加载对话上下文时出现错误。" st
  else if bool_decide (rs_error_code st = Some "RESPONSE_GENERATE_ERROR") then
    with_response "抱歉，生成回复时出现错误。" st
  else with_response "抱歉，处理您的请求时出现错误。" st.

(** The conditional edges; [None] is END. *)
Definition _should_continue_after_input (st : RobotState) : Node :=
  if bool_decide (error_message st <> "") then error_handler
  else intent_classifier_node.

Definition _route_by_intent (st : RobotState) : RouteTarget :=
  if bool_decide (error_message st <> "") then ERROR_HANDLER
  else match rs_intent st with
       | WEATHER => WEATHER_MODULE
       | ROLE_PLAY => ROLE_PLAY_MODULE
       | CONTEXT_CREATE | CONTEXT_JOIN | CONTEXT_LEAVE | CONTEXT_END =>
           CONTEXT_HANDLER
       | _ => CHAT_MODULE
       end.

Definition _should_continue_after_context (st : RobotState) : Node :=
  if bool_decide (error_message st <> "") then error_handler
  else response_generator_node.

Definition _should_end (st : RobotState) : option Node := None.

(** The graph of [_build_graph], entered at [input_processor]. *)
Definition run_graph (st : RobotState) : RobotState :=
  let st := _input_processor_node st in
  match _should_continue_after_input st with
  | error_handler => _error_handler_node st
  | _ =>
      let st := _intent_classifier_node st in
      match _route_by_intent st with
      | ERROR_HANDLER => _error_handler_node st
      | CONTEXT_HANDLER =>
          let st := _context_loader_node st in
          match _should_continue_after_context st with
          | error_handler => _error_handler_node st
          | _ => _response_generator_node st
          end
      | _ => _response_generator_node st
      end
  end.

(** [process]: the graph library itself is taken not to fail. *)
Definition process (st : RobotState) : RobotState :=
  with_stage COMPLETED (run_graph st).
End Graph.

End LangGraphManager.

(** ** core/router.py: MessageRouter *)

Record CheckResult := {
  allowed : bool;
  cr_reason : string;
  error_code : option string
}.

(** A call made inside the [try] of [_pre_check]: [None] when it raised. *)
Definition attempt {A} (m : M A) : M (option A) :=
  try_except (a <- m ;; ret (Some a)) (fun _ => ret None).

Module MessageRouter.

Definition _calculate_elapsed_ms (start_time t : Z) : Z :=
  Z.quot (t - start_time) 1000.

(** Whatever has been written to [result] is returned when a check
    raises. *)
Definition _pre_check (uid : string) : M CheckResult :=
  let result := {| allowed := true; cr_reason := ""; error_code := None |} in
  banned <- attempt (BanManager.is_banned uid) ;;
  match banned with
  | None => ret result
  | Some true =>
      let result := {| allowed := false; cr_reason := "";
                       error_code := Some "USER_BANNED" |} in
      remaining <- attempt (BanManager.get_remaining_ban_time uid) ;;
      match remaining with
      | None => ret result
      | Some None =>
          ret {| allowed := false; cr_reason := "您已被永久封禁。";
                 error_code := Some "USER_BANNED" |}
      | Some (Some secs) =>
          if 0 <? secs then
            ret {| allowed := false;
                   cr_reason := "您已被封禁，剩余 " +:+ pretty (secs / 60)
                                +:+ " 分钟。";
                   error_code := Some "USER_BANNED" |}
          else
            ret {| allowed := false; cr_reason := "您已被封禁。";
                   error_code := Some "USER_BANNED" |}
      end
  | Some false =>
      quota <- attempt (TokenController.check_quota uid 0) ;;
      match quota with
      | None => ret result
      | Some (quota_ok, quota_msg) =>
          if negb quota_ok then
            ret {| allowed := false; cr_reason := quota_msg;
                   error_code := Some "QUOTA_EXCEEDED" |}
          else
            minute_ok <- attempt (TokenController.check_minute_limit uid) ;;
            match minute_ok with
            | None => ret result
            | Some false =>
                ret {| allowed := false;
                       cr_reason := "请求过于频繁，请稍后再试。";
                       error_code := Some "RATE_LIMIT_EXCEEDED" |}
            | Some true =>
                daily_ok <- attempt (TokenController.check_daily_limit uid) ;;
                match daily_ok with
                | None => ret result
                | Some false =>
                    ret {| allowed := false;
                           cr_reason := "今日配额已用完，请明天再试。";
                           error_code := Some "DAILY_LIMIT_EXCEEDED" |}
                | Some true => ret result
                end
            end
      end
  end.

Section Router.
Variable re_compile : string -> option (string -> bool).
Variable extract_numbers : string -> list Z.
Variable storage : ContextStorage.
Variable langgraph_manager : LangGraphManager.t.

Definition is_active_context (c : Context) : bool :=
  bool_decide (status c = ACTIVE).

Definition _get_or_create_context (uid uname : string)
    (gid : option string) (context_type : ContextType)
  : M (option Context) :=
  try_except
    (if bool_decide (context_type = PRIVATE) then
       context <- ContextManager.get_user_context storage uid ;;
       match context with
       | Some c =>
           if is_active_context c then ret (Some c)
           else
             c' <- ContextManager.create_context storage context_type uid
                     ("私聊_" +:+ uname) (Some [uid]) None ;;
             ret (Some c')
       | None =>
           c' <- ContextManager.create_context storage context_type uid
                   ("私聊_" +:+ uname) (Some [uid]) None ;;
           ret (Some c')
       end
     else
       let gname := IntentRecognizer.py_str_option gid in
       existing <- ContextRepository.get ("group_" +:+ gname) ;;
       context <-
         match existing with
         | Some c =>
             if is_active_context c then ret c
             else ContextManager.create_context storage context_type uid
                    ("群聊_" +:+ gname) (Some [uid]) None
         | None =>
             ContextManager.create_context storage context_type uid
               ("群聊_" +:+ gname) (Some [uid]) None
         end ;;
       (if bool_decide (uid ∈ participants context) then ret true
        else ContextManager.add_participant storage (context_id context)
               uid uname) ;;;
       ret (Some context))
    (fun _ => ret None).

(** The names of the members of [MessageType]. *)
Definition MessageType_members : list string :=
  ["TEXT"; "IMAGE"; "VOICE"; "SYSTEM"; "COMMAND"].

(** [MessageType(message_type) if message_type in
    MessageType.__members__ else MessageType.TEXT]: the member names
    are not values of the enumeration. *)
Definition message_type_of (mtype : string) : result MessageType :=
  if bool_decide (mtype ∈ MessageType_members)
  then Raise ("'" +:+ mtype +:+ "' is not a valid MessageType")
  else Ok TEXT.

Definition route_message (uid uname text : string)
    (gid : option string) (mtype : string) : M MessageProcessingResult :=
  start_time <- now ;;
  mid <- IDHelper.generate_message_id ;;
  try_except
    (check_result <- _pre_check uid ;;
     if negb (allowed check_result) then
       t <- now ;;
       ret {| success := false; mpr_response := cr_reason check_result;
              error := error_code check_result;
              processing_time_ms := _calculate_elapsed_ms start_time t;
              tokens_used := 0; state_snapshot := None |}
     else
       let state := create_initial_state mid uid text uname gid mtype in
       let context_type :=
         match gid with None => PRIVATE | Some _ => GROUP end in
       let state :=
         with_context None (Some (ContextType_value context_type)) state in
       context <- _get_or_create_context uid uname gid context_type ;;
       state <-
         match context with
         | Some c =>
             mt <- lift (message_type_of mtype) ;;
             ContextManager.add_message storage (context_id c) uid uname
               text mt USER false ;;;
             ret (with_context (Some (context_id c))
                    (rs_context_type state) state)
         | None => ret state
         end ;;
       let final_state :=
         LangGraphManager.process re_compile extract_numbers
           langgraph_manager state in
       let reply := response final_state in
       match context with
       | Some c =>
           if bool_decide (reply <> "") then
             ContextManager.add_message storage (context_id c)
               "robot" "Robot" reply TEXT USER false ;;; ret tt
           else ret tt
       | None => ret tt
       end ;;;
       t <- now ;;
       ret {| success := true; mpr_response := reply; error := None;
              processing_time_ms := _calculate_elapsed_ms start_time t;
              tokens_used := 0; state_snapshot := Some final_state |})
    (fun e =>
       t <- now ;;
       ret {| success := false;
              mpr_response := "抱歉，处理您的消息时出现错误。";
              error := Some e;
              processing_time_ms := _calculate_elapsed_ms start_time t;
              tokens_used := 0; state_snapshot := None |}).
End Router.

End MessageRouter.

(** ** Further operations of the modules above *)

(** *** storage/database.py: BanRecordRepository.update *)

Module BanRecordRepositoryMore.

(** The row of a record: same user and same start date. *)
Definition same_row (r row : BanRecord) : bool :=
  bool_decide (b_user_id row = b_user_id r)
  && bool_decide (started_at row = started_at r).

Definition updated_row (r row : BanRecord) : BanRecord :=
  {| b_user_id := b_user_id row; reason := reason row;
     ban_type := ban_type row; started_at := started_at row;
     b_expires_at := b_expires_at r; details := details r |}.

(** [scalar_one_or_none] raises when several rows match; the date in the
    message is rendered as its number of microseconds. *)
Definition update (r : BanRecord) : M BanRecord :=
  db_session ;;;
  rows <- gets bans_tbl ;;
  match List.filter (same_row r) rows with
  | [] => raise ("Ban record not found for user: " +:+ b_user_id r
                 +:+ " at " +:+ pretty (started_at r))
  | [row] =>
      modify (fun w =>
        set_bans (List.map (fun x => if same_row r x then updated_row r x
                                     else x) (bans_tbl w)) w) ;;;
      ret (updated_row r row)
  | _ => raise "MultipleResultsFound"
  end.

End BanRecordRepositoryMore.

(** *** managers/ban.py: ban_user, unban_user *)

Definition with_banned (b : bool) (u : User) : User :=
  {| user_id := user_id u; nickname := nickname u; is_active := is_active u;
     is_banned := b; current_context_id := current_context_id u;
     last_active := last_active u |}.

Definition with_expiry (e : option Z) (r : BanRecord) : BanRecord :=
  {| b_user_id := b_user_id r; reason := reason r; ban_type := ban_type r;
     started_at := started_at r; b_expires_at := e; details := details r |}.

Module BanManagerMore.

(** _clear_user_tracking *)
Definition _clear_user_tracking (uid : string) : M unit :=
  modify (fun w =>
    set_user_content (delete uid (user_content w))
      (set_user_messages (delete uid (user_messages w))
         (set_user_requests (delete uid (user_requests w)) w))).

(** [user.is_banned = flag] when the user exists. *)
Definition set_banned_flag (uid : string) (flag : bool) : M unit :=
  user <- UserRepository.get uid ;;
  match user with
  | Some u => UserRepository.update (with_banned flag u) ;;; ret tt
  | None => ret tt
  end.

Definition ban_user (uid : string) (rsn : BanReason) (btype : BanType)
    (duration_hours : option Z) (dtl : string) : M BanRecord :=
  t <- now ;;
  expires <- (if bool_decide (btype = TEMPORARY)
              then e <- add_hours t (default 1 duration_hours) ;; ret (Some e)
              else ret None) ;;
  let record :=
    {| b_user_id := uid; reason := rsn; ban_type := btype; started_at := t;
       b_expires_at := expires; details := dtl |} in
  created <- BanRecordRepository.create record ;;
  set_banned_flag uid true ;;;
  _clear_user_tracking uid ;;;
  ret created.

Definition unban_user (uid : string) : M bool :=
  record <- BanRecordRepository.get_active_ban uid ;;
  match record with
  | None => ret false
  | Some r =>
      t <- now ;;
      BanRecordRepositoryMore.update (with_expiry (Some t) r) ;;;
      set_banned_flag uid false ;;;
      ret true
  end.

End BanManagerMore.

(** *** managers/token.py: administration *)

Definition with_total_quota (v : Z) (q : TokenQuota) : TokenQuota :=
  {| q_user_id := q_user_id q; total_quota := v; used := used q;
     daily_limit := daily_limit q; daily_used := daily_used q;
     daily_reset := daily_reset q; minute_limit := minute_limit q;
     minute_requests := minute_requests q |}.

Definition with_daily_limit (v : Z) (q : TokenQuota) : TokenQuota :=
  {| q_user_id := q_user_id q; total_quota := total_quota q; used := used q;
     daily_limit := v; daily_used := daily_used q;
     daily_reset := daily_reset q; minute_limit := minute_limit q;
     minute_requests := minute_requests q |}.

Definition with_minute_limit (v : Z) (q : TokenQuota) : TokenQuota :=
  {| q_user_id := q_user_id q; total_quota := total_quota q; used := used q;
     daily_limit := daily_limit q; daily_used := daily_used q;
     daily_reset := daily_reset q; minute_limit := v;
     minute_requests := minute_requests q |}.

Module TokenControllerMore.

Definition add_quota (uid : string) (amount : Z) : M bool :=
  quota <- TokenController.get_quota uid ;;
  TokenQuotaRepository.update
    (with_total_quota (total_quota quota + amount) quota) ;;;
  ret true.

Definition reset_user (uid : string) : M bool :=
  quota <- TokenController.get_quota uid ;;
  TokenQuotaRepository.update
    {| q_user_id := q_user_id quota; total_quota := total_quota quota;
       used := 0; daily_limit := daily_limit quota; daily_used := 0;
       daily_reset := daily_reset quota; minute_limit := minute_limit quota;
       minute_requests := [] |} ;;;
  ret true.

Definition set_daily_limit (uid : string) (limit : Z) : M bool :=
  quota <- TokenController.get_quota uid ;;
  TokenQuotaRepository.update (with_daily_limit limit quota) ;;;
  ret true.

Definition set_minute_limit (uid : string) (limit : Z) : M bool :=
  quota <- TokenController.get_quota uid ;;
  TokenQuotaRepository.update (with_minute_limit limit quota) ;;;
  ret true.

End TokenControllerMore.

(** *** core/context.py: further operations of the ContextManager *)

Module ContextManagerMore.
Section Manager.
Variable storage : ContextStorage.

(** The loop of [delete_context] over the participants. *)
Fixpoint clear_current_context (cid : string) (ps : list string) : M unit :=
  match ps with
  | [] => ret tt
  | p :: rest =>
      user <- UserRepository.get p ;;
      match user with
      | Some u =>
          if bool_decide (current_context_id u = Some cid)
          then UserRepository.update (with_current_context None u) ;;;
               clear_current_context cid rest
          else clear_current_context cid rest
      | None => clear_current_context cid rest
      end
  end.

Definition delete_context (cid : string) : M bool :=
  context <- ContextManager.get_context storage cid ;;
  match context with
  | Some c => clear_current_context cid (participants c)
  | None => ret tt
  end ;;;
  storage_delete storage cid.

Definition pause_context (cid : string) : M bool :=
  context <- ContextManager.get_context storage cid ;;
  match context with
  | None => ret false
  | Some c => ContextManager.update_context storage (with_status PAUSED c)
  end.

Definition resume_context (cid : string) : M bool :=
  context <- ContextManager.get_context storage cid ;;
  match context with
  | None => ret false
  | Some c => ContextManager.update_context storage (with_status ACTIVE c)
  end.

End Manager.
End ContextManagerMore.

(** *** utils/helpers.py: TextHelper.truncate_text *)

(** The first [n] code points of [s]. *)
Fixpoint py_take (n : nat) (s : string) : string :=
  match s with
  | EmptyString => EmptyString
  | String c r =>
      if is_continuation c then String c (py_take n r)
      else match n with
           | O => EmptyString
           | S k => String c (py_take k r)
           end
  end.

(** [s[:stop]] *)
Definition slice_to (stop : Z) (s : string) : string :=
  if stop <? 0 then py_take (Z.to_nat (Z.max 0 (py_len s + stop))) s
  else py_take (Z.to_nat stop) s.

Module TextHelperMore.

Definition truncate_text (text : string) (max_length : Z) (suffix : string)
  : string :=
  if py_len text <=? max_length then text
  else slice_to (max_length - py_len suffix) text +:+ suffix.

End TextHelperMore.


(** ** Auxiliary notions used in the statements *)

(** *** Worlds that differ in the fault schedules only *)

Definition faults_only (w w1 : World) : Prop :=
  w1 = set_cache_faults (cache_faults w1) (set_db_faults (db_faults w1) w).

(** *** TokenQuotaRepository and TokenController.get_quota *)

(** The quota object built from a stored row. *)
Definition quota_model (uid : string) (t : Z) (row : TokenQuota) : TokenQuota :=
  {| q_user_id := uid; total_quota := total_quota row; used := used row;
     daily_limit := daily_limit row; daily_used := daily_used row;
     daily_reset := daily_reset row; minute_limit := minute_limit row;
     minute_requests := validate_minute_requests t (minute_requests row) |}.

(** The effect of a committed UPDATE on the quota table. *)
Definition quota_updated (q : TokenQuota) (w : World) : World :=
  match quotas_tbl w !! q_user_id q with
  | Some _ => set_quotas (<[q_user_id q := q]> (quotas_tbl w)) w
  | None => w
  end.

Definition reset_due (t : Z) (q : TokenQuota) : bool := daily_reset q <=? t.

(** The record after the lazy daily reset of [get_quota]. *)
Definition after_lazy_reset (t : Z) (q : TokenQuota) : TokenQuota :=
  if reset_due t q
  then {| q_user_id := q_user_id q; total_quota := total_quota q;
          used := used q; daily_limit := daily_limit q; daily_used := 0;
          daily_reset := t + 86400 * usec; minute_limit := minute_limit q;
          minute_requests := minute_requests q |}
  else q.

Definition default_quota (uid : string) (t : Z) : TokenQuota :=
  {| q_user_id := uid; total_quota := TokenController.DEFAULT_TOTAL_QUOTA;
     used := 0; daily_limit := TokenController.DEFAULT_DAILY_LIMIT;
     daily_used := 0; daily_reset := t + 86400 * usec;
     minute_limit := TokenController.DEFAULT_MINUTE_LIMIT;
     minute_requests := [] |}.

(** *** Scenarios of BanManager.detect_abuse *)





(** *** Frame conditions *)

(** [m] leaves the part [proj] of the world as it found it, whatever it
    returns or raises. *)
Definition keeps {V A} (proj : World -> V) (m : M A) : Prop :=
  forall w r w', m w = (r, w') -> proj w' = proj w.

(** The session store: users, contexts and messages of the database and
    the cached contexts. *)
Definition session_view (w : World) :=
  (users_tbl w, contexts_tbl w, messages_tbl w, redis_ctx w).

(** *** Admission *)

(** The ban record [get_active_ban] selects for a user, if any. *)
Definition active_ban (uid : string) (w : World) : option BanRecord :=
  BanRecordRepository.latest
    (List.filter (BanRecordRepository.selected uid (clock w)) (bans_tbl w)).

(** The world after the lazy daily reset of [get_quota] was committed, when
    it was due. *)
Definition after_get_quota (uid : string) (row : TokenQuota) (w : World)
  : World :=
  if reset_due (clock w) row
  then quota_updated
         (after_lazy_reset (clock w) (quota_model uid (clock w) row)) w
  else w.

(** The text [_pre_check] gives for an active ban. *)
Definition ban_text (t : Z) (r : BanRecord) : string :=
  match remaining_seconds t r with
  | None => "您已被永久封禁。"
  | Some secs =>
      if 0 <? secs
      then "您已被封禁，剩余 " +:+ pretty (secs / 60) +:+ " 分钟。"
      else "您已被封禁。"
  end.

(** *** Outcomes of the router *)

(** The session type the router works with. *)
Definition context_type_of (gid : option string) : ContextType :=
  match gid with None => PRIVATE | Some _ => GROUP end.

(** The state [route_message] hands to the pipeline: the initial state
    with the session type, and the session identifier when there is a
    session. *)
Definition routed_state (mid uid uname text : string) (gid : option string)
    (mtype : string) (context : option Context) : RobotState :=
  let state :=
    with_context None (Some (ContextType_value (context_type_of gid)))
      (create_initial_state mid uid text uname gid mtype) in
  match context with
  | Some c => with_context (Some (context_id c)) (rs_context_type state) state
  | None => state
  end.

(** The result reports success: no error, the response of the final state
    of the pipeline, and that state as snapshot. *)
Definition succeeded (final : RobotState) (res : MessageProcessingResult)
  : Prop :=
  success res = true /\ error res = None /\
  mpr_response res = response final /\ state_snapshot res = Some final.

(** The result reports the exception [e]: the fixed apology as response,
    the text of the exception as error, no snapshot. *)
Definition failed_with (e : string) (res : MessageProcessingResult) : Prop :=
  success res = false /\ error res = Some e /\
  mpr_response res = "抱歉，处理您的消息时出现错误。" /\
  state_snapshot res = None.

(** *** Concrete worlds and collaborators for the examples *)

Definition empty_world : World :=
  {| clock := 0; db_faults := []; cache_faults := []; uuids := [];
     users_tbl := ∅; contexts_tbl := ∅; messages_tbl := [];
     quotas_tbl := ∅; bans_tbl := []; redis_ctx := ∅;
     user_requests := ∅; user_messages := ∅; user_content := ∅ |}.

(** A regular-expression engine that knows no pattern, and a text without
    numbers: the examples below give the classifier explicitly and use
    texts without digits, so neither is consulted for a result. *)
Definition no_patterns : string -> option (string -> bool) := fun _ => None.
Definition no_numbers : string -> list Z := fun _ => [].

(** A classifier that answers CHAT and a responder that fails. *)
Definition chat_classifier (text : string) : result IntentResult :=
  Ok {| intent := CHAT; confidence := 0.9%float; raw_input := text;
        ir_entities := ∅; reasoning := "" |}.

Definition failing_responder (st : RobotState) : result string :=
  Raise "boom".

Definition failing_manager : LangGraphManager.t :=
  {| LangGraphManager.intent_classifier := Some chat_classifier;
     LangGraphManager.response_generator := Some failing_responder |}.

(** A world at time 1000 s with four identifiers left in the supply. *)
Definition fresh_world : World :=
  set_uuids ["0123456789abcdef"; "fedcba9876543210"; "0011223344556677";
             "8899aabbccddeeff"]
    (set_clock (1000 * usec) empty_world).

(** *** Intent rules and patterns *)



(** *** More concrete data for the examples *)

Definition temporary_ban : BanRecord :=
  {| b_user_id := "u"; reason := SPAMMING; ban_type := TEMPORARY;
     started_at := 0; b_expires_at := Some (2000 * usec); details := "" |}.

Definition permanent_ban : BanRecord :=
  {| b_user_id := "u"; reason := MANUAL; ban_type := PERMANENT;
     started_at := 0; b_expires_at := None; details := "" |}.

(** A world in which "u" is banned for ever. *)
Definition banned_world : World := set_bans [permanent_ban] fresh_world.

(** A quota whose daily reset is due at time 1000 s. *)
Definition stale_quota : TokenQuota :=
  {| q_user_id := "u"; total_quota := 50000; used := 0;
     daily_limit := 5000; daily_used := 3000; daily_reset := 100 * usec;
     minute_limit := 200; minute_requests := [] |}.

Definition stale_world : World :=
  set_quotas {[ "u" := stale_quota ]} fresh_world.

(** A quota with room left whose minute window (one request allowed) holds
    a request made one second ago. *)
Definition busy_quota : TokenQuota :=
  {| q_user_id := "u"; total_quota := 50000; used := 100;
     daily_limit := 5000; daily_used := 100; daily_reset := 5000 * usec;
     minute_limit := 1; minute_requests := [999 * usec] |}.

Definition busy_world : World :=
  set_quotas {[ "u" := busy_quota ]} fresh_world.

Definition sample_message (n : Z) (text : string) : ChatMessage :=
  {| message_id := "m" +:+ pretty n; sender_id := "u"; sender_name := "U";
     role := USER; content := text; message_type := TEXT;
     timestamp := n * usec; is_system := false |}.

(** A session that holds two messages and keeps at most two. *)
Definition small_context : Context :=
  {| context_id := "ctx_1"; type := PRIVATE; name := "s"; creator_id := "u";
     participants := ["u"];
     messages := [sample_message 1 "a"; sample_message 2 "b"];
     max_messages := 2; status := ACTIVE; current_role_id := None;
     created_at := 0; updated_at := 0; expires_at := None |}.


(** A session with the history "a", "b", "c", held by the cache. *)
Definition abc_context : Context :=
  {| context_id := "ctx_2"; type := PRIVATE; name := "s"; creator_id := "u";
     participants := ["u"];
     messages := [sample_message 1 "a"; sample_message 2 "b";
                  sample_message 3 "c"];
     max_messages := 200; status := ACTIVE; current_role_id := None;
     created_at := 0; updated_at := 0; expires_at := None |}.

Definition abc_world : World :=
  set_redis {[ "ctx_2" := (5000 * usec, abc_context) ]} fresh_world.


(** A weather rule without patterns. *)
Definition weather_rule : IntentRule :=
  {| rule_intent := WEATHER; keywords := ["天气"; "气温"]; patterns := [];
     priority := 10; description := "天气查询意图" |}.

Definition weather_recognizer : IntentRecognizer.t :=
  {| IntentRecognizer.rules := [weather_rule];
     IntentRecognizer._compiled_patterns := [] |}.

(** Two more rules without patterns, one of lower and one of higher
    priority, and the recognizer [__init__] builds from the three. *)
Definition greeting_rule : IntentRule :=
  {| rule_intent := CHAT; keywords := ["你好"; "谢谢"]; patterns := [];
     priority := 0; description := "普通聊天意图（默认）" |}.

Definition role_rule : IntentRule :=
  {| rule_intent := ROLE_PLAY; keywords := ["扮演"; "角色"]; patterns := [];
     priority := 15; description := "角色扮演意图" |}.


Definition three_recognizer : IntentRecognizer.t :=
  {| IntentRecognizer.rules := [role_rule; weather_rule; greeting_rule];
     IntentRecognizer._compiled_patterns := [] |}.


(** *** Notions used in the statements on the further operations *)

(** The row the quota table holds for a user once [get_quota] has run. *)
Definition stored_after_get (uid : string) (row : TokenQuota) (w : World)
  : TokenQuota :=
  if reset_due (clock w) row
  then after_lazy_reset (clock w) (quota_model uid (clock w) row)
  else row.

(** The record once [n] tokens are charged. *)
Definition with_charge (n : Z) (q : TokenQuota) : TokenQuota :=
  {| q_user_id := q_user_id q; total_quota := total_quota q;
     used := used q + n; daily_limit := daily_limit q;
     daily_used := daily_used q + n; daily_reset := daily_reset q;
     minute_limit := minute_limit q;
     minute_requests := minute_requests q |}.

(** The record once a request made at [t] is logged. *)
Definition with_request (t : Z) (q : TokenQuota) : TokenQuota :=
  {| q_user_id := q_user_id q; total_quota := total_quota q;
     used := used q; daily_limit := daily_limit q;
     daily_used := daily_used q; daily_reset := daily_reset q;
     minute_limit := minute_limit q;
     minute_requests := (minute_requests q ++ [t])%list |}.

(** An INTEGER column holds a signed 64-bit number; the database driver
    refuses any other. *)
Definition is_int64 (z : Z) : bool := (- 2 ^ 63 <=? z) && (z <? 2 ^ 63).

(** Every number of the record fits its column. *)
Definition storable (q : TokenQuota) : bool :=
  is_int64 (total_quota q) && is_int64 (used q) && is_int64 (daily_limit q)
  && is_int64 (daily_used q) && is_int64 (minute_limit q).

(** The result of [_pre_check] for a user it lets through. *)
Definition ALLOWED : CheckResult :=
  {| allowed := true; cr_reason := ""; error_code := None |}.

(** The record [reset_user] writes. *)
Definition reset_record (q : TokenQuota) : TokenQuota :=
  {| q_user_id := q_user_id q; total_quota := total_quota q;
     used := 0; daily_limit := daily_limit q; daily_used := 0;
     daily_reset := daily_reset q; minute_limit := minute_limit q;
     minute_requests := [] |}.


(** *** Dates *)

(** [t + timedelta(hours=h)] exists: the timedelta and the sum are within
    the range of their types. *)
Definition hours_fit (t h : Z) : Prop :=
  is_timedelta (h * 3600 * usec) = true /\
  is_datetime (t + h * 3600 * usec) = true.

(** *** BanManager *)

(** The record [ban_user] creates at time [t]. *)
Definition ban_record_of (uid : string) (rsn : BanReason) (btype : BanType)
    (duration_hours : option Z) (dtl : string) (t : Z) : BanRecord :=
  {| b_user_id := uid; reason := rsn; ban_type := btype; started_at := t;
     b_expires_at := if bool_decide (btype = TEMPORARY)
                     then Some (t + default 1 duration_hours * 3600 * usec)
                     else None;
     details := dtl |}.

(** Everything outside the trackers of the ban manager. *)
Definition outside_trackers (w : World) :=
  (clock w, db_faults w, cache_faults w, uuids w,
   (users_tbl w, contexts_tbl w, messages_tbl w, quotas_tbl w, bans_tbl w,
    redis_ctx w)).

(** The three trackers of one user. *)
Definition trackers_of (uid : string) (w : World) :=
  (user_requests w !! uid, user_messages w !! uid, user_content w !! uid).

(** The ban table once [unban_user] has ended the record [r] at [t]. *)
Definition bans_after_unban (r : BanRecord) (t : Z) (rows : list BanRecord)
  : list BanRecord :=
  List.map (fun x => if BanRecordRepositoryMore.same_row r x
                     then BanRecordRepositoryMore.updated_row
                            (with_expiry (Some t) r) x
                     else x) rows.

(** *** Session storage *)

(** What the cache hands out for a key: nothing for a missing or expired
    entry or one that does not deserialize. *)
Definition cached (cid : string) (w : World) : option Context :=
  match redis_ctx w !! cid with
  | Some (expiry, c) =>
      if expiry <=? clock w then None
      else match ContextCache._deserialize c with
           | Ok c' => Some c'
           | Raise _ => None
           end
  | None => None
  end.

(** The session the database hands out for a key: the columns of the row
    and the messages of the message table. *)
Definition db_model (cid : string) (w : World) : option Context :=
  match contexts_tbl w !! cid with
  | Some row =>
      Some {| context_id := cid; type := type row; name := name row;
              creator_id := creator_id row;
              participants := participants row;
              messages := ContextRepository.messages_of cid (messages_tbl w);
              max_messages := 200;
              status := status row; current_role_id := current_role_id row;
              created_at := created_at row; updated_at := updated_at row;
              expires_at := expires_at row |}
  | None => None
  end.

(** A session as it comes back from the cache. *)
Definition without_role (c : Context) : Context :=
  {| context_id := context_id c; type := type c; name := name c;
     creator_id := creator_id c; participants := participants c;
     messages := messages c; max_messages := max_messages c;
     status := status c; current_role_id := None;
     created_at := created_at c; updated_at := updated_at c;
     expires_at := expires_at c |}.

(** The cache after a write of [c] with the TTL of the default storage. *)
Definition cache_put (c : Context) (w : World) : World :=
  set_redis (<[context_id c := (clock w + 3600 * usec, c)]> (redis_ctx w)) w.

(** *** Conditions an operation carries along *)

(** [m] carries the condition [P] from the world it starts in to the
    world it ends in, whatever it returns or raises. *)
Definition preserves {A} (P : World -> Prop) (m : M A) : Prop :=
  forall w r w', P w -> m w = (r, w') -> P w'.

(** No storage fault is scheduled. *)
Definition quiet (w : World) : Prop :=
  db_faults w = [] /\ cache_faults w = [].

(** The cache holds every session under its own identifier, as [set]
    writes it. *)
Definition cache_keyed (w : World) : Prop :=
  forall k expiry c, redis_ctx w !! k = Some (expiry, c) -> context_id c = k.

(** *** Confidence values *)

(** [0 <= c <= 1], the bounds the state model puts on a confidence. *)
Definition in_unit (c : float) : bool :=
  PrimFloat.leb 0 c && PrimFloat.leb c 1.

(** The keyword confidence when [z] keywords are found, for a short or a
    long text. *)
Definition confidence_at (z : Z) (short : bool) : float :=
  (py_min (0.7 + py_min (PrimFloat.of_uint63 (Uint63.of_Z z) * 0.1) 0.2) 1.0
   * (if short then 1.0 else 0.9))%float.

(** The confidences for [z], [z + 1], ... ([fuel] of them) are within
    bounds. *)
Fixpoint in_unit_from (fuel : nat) (z : Z) : bool :=
  match fuel with
  | O => true
  | S k => in_unit (confidence_at z true) && in_unit (confidence_at z false)
           && in_unit_from k (z + 1)
  end.

(** A number of keywords per rule up to which the confidences are
    evaluated one by one. *)
Definition KEYWORDS_EVALUATED : nat := 65536.

(** *** Concrete data for the examples of the further properties *)

(** A quota with room left in every respect, at time 1000 s. *)
Definition roomy_quota : TokenQuota :=
  {| q_user_id := "u"; total_quota := 50000; used := 100;
     daily_limit := 5000; daily_used := 100; daily_reset := 5000 * usec;
     minute_limit := 200; minute_requests := [999 * usec] |}.

Definition roomy_world : World :=
  set_quotas {[ "u" := roomy_quota ]} fresh_world.

(** A world in which "u" is banned until time 2000 s. *)
Definition tempban_world : World := set_bans [temporary_ban] fresh_world.

(** A ban with thirty seconds left at time 1000 s. *)
Definition ending_ban : BanRecord :=
  {| b_user_id := "u"; reason := SPAMMING; ban_type := TEMPORARY;
     started_at := 0; b_expires_at := Some (1030 * usec); details := "" |}.

Definition ending_ban_world : World := set_bans [ending_ban] fresh_world.

(** The session "ctx_2" as the database holds it: its row and one
    message. *)
Definition stored_context : Context :=
  {| context_id := "ctx_2"; type := PRIVATE; name := "s"; creator_id := "u";
     participants := ["u"]; messages := [sample_message 1 "a"];
     max_messages := 200; status := ACTIVE; current_role_id := None;
     created_at := 0; updated_at := 0; expires_at := None |}.

Definition stored_world : World :=
  set_messages [("ctx_2", sample_message 1 "a")]
    (set_contexts {[ "ctx_2" := ContextRepository.columns stored_context ]}
       fresh_world).

(** A world in which "u" has "ctx_2" as current session and the cache
    holds it. *)
Definition attached_world : World :=
  set_users {[ "u" := {| user_id := "u"; nickname := "U"; is_active := true;
                         is_banned := false;
                         current_context_id := Some "ctx_2";
                         last_active := 0 |} ]} abc_world.

(** A recognizer with the one rule for commands. *)
Definition command_rule : IntentRule :=
  {| rule_intent := COMMAND; keywords := ["/help"; "/start"];
     patterns := ["/[a-zA-Z]+"]; priority := 30;
     description := "命令操作意图" |}.

Definition command_recognizer : IntentRecognizer.t :=
  {| IntentRecognizer.rules := [command_rule];
     IntentRecognizer._compiled_patterns := [] |}.

(** A classifier that fails, with the responder that fails, and a manager
    without a response generator. *)
Definition failing_classifier (text : string) : result IntentResult :=
  Raise "down".

Definition deaf_manager : LangGraphManager.t :=
  {| LangGraphManager.intent_classifier := Some failing_classifier;
     LangGraphManager.response_generator := Some failing_responder |}.

Definition plain_manager : LangGraphManager.t :=
  {| LangGraphManager.intent_classifier := Some chat_classifier;
     LangGraphManager.response_generator := None |}.

Definition hi_state : RobotState :=
  create_initial_state "m1" "u" "hi" "U" None "text".
(** ** Theorems *)

(** C7. BanRecord.is_active: a PERMANENT ban is active at every time; a
    TEMPORARY ban is active exactly when the current time is strictly
    before its expiry, so at [now = expires_at] it is already inactive
    (and a TEMPORARY ban without an expiry is never active). *)
Theorem ban_is_active_spec :
  (forall now r, ban_type r = PERMANENT -> ban_is_active now r = true) /\
  (forall now r e, ban_type r = TEMPORARY -> b_expires_at r = Some e ->
     (ban_is_active now r = true <-> now < e)) /\
  (forall r e, ban_type r = TEMPORARY -> b_expires_at r = Some e ->
     ban_is_active (e - 1) r = true /\ ban_is_active e r = false) /\
  (forall now r, ban_type r = TEMPORARY -> b_expires_at r = None ->
     ban_is_active now r = false).
Proof.
  repeat split.
  - intros now r H. unfold ban_is_active. rewrite H. reflexivity.
  - unfold ban_is_active. rewrite H, H0. simpl. apply Z.ltb_lt.
  - unfold ban_is_active. rewrite H, H0. simpl. apply Z.ltb_lt.
  - unfold ban_is_active. rewrite H, H0. simpl. apply Z.ltb_lt. lia.
  - unfold ban_is_active. rewrite H, H0. simpl. apply Z.ltb_ge. lia.
  - intros now r H H0. unfold ban_is_active. rewrite H, H0. reflexivity.
Qed.

(** ** Proof support *)

Ltac munfold :=
  cbv beta iota delta [bind ret raise try_except gets modify lift now] in *.

Ltac storage_unfold :=
  cbn [storage_get storage_save storage_delete default_storage
       HybridContextStorage.make RedisContextStorage.make
       DatabaseContextStorage.make] in *.

Lemma db_session_cases w :
  (db_session w = (Ok tt, w) /\ db_faults w = []) \/
  (exists fs, db_faults w = false :: fs /\
              db_session w = (Ok tt, set_db_faults fs w)) \/
  (exists fs, db_faults w = true :: fs /\
              db_session w = (Raise "database error", set_db_faults fs w)).
Proof.
  unfold db_session. destruct (db_faults w) as [|[] fs]; eauto.
Qed.

Lemma redis_call_cases w :
  (redis_call w = (Ok tt, w) /\ cache_faults w = []) \/
  (exists fs, cache_faults w = false :: fs /\
              redis_call w = (Ok tt, set_cache_faults fs w)) \/
  (exists fs, cache_faults w = true :: fs /\
              redis_call w = (Raise "redis error", set_cache_faults fs w)).
Proof.
  unfold redis_call. destruct (cache_faults w) as [|[] fs]; eauto.
Qed.

Lemma redis_save_total ttl c w :
  exists b w', RedisContextStorage.save ttl c w = (Ok b, w').
Proof.
  unfold RedisContextStorage.save, ContextCache.set. munfold.
  destruct (redis_call w) as [[[]|e] w1]; eauto.
Qed.

Lemma db_save_total c w :
  exists b w', DatabaseContextStorage.save c w = (Ok b, w').
Proof.
  unfold DatabaseContextStorage.save, ContextRepository.get,
    ContextRepository.update, ContextRepository.create,
    ContextRepository._orm_to_model. munfold.
  destruct (db_session w) as [[[]|e] w1]; eauto.
  destruct (contexts_tbl w1 !! context_id c); simpl.
  - destruct (db_session w1) as [[[]|e] w2]; eauto.
  - destruct (db_session w1) as [[[]|e] w2]; eauto.
Qed.

(** C8. HybridContextStorage.save runs the cache write and then the
    database write, whatever the cache write returned, and answers the
    conjunction of the two results: true exactly when both writes
    succeeded. When only the cache write fails the row is still written to
    the database, and when only the database write fails the cache entry is
    still written. *)
Theorem hybrid_save_strict_and :
  (forall c w, exists cache_ok db_ok w1 w2,
     RedisContextStorage.save 3600 c w = (Ok cache_ok, w1) /\
     DatabaseContextStorage.save c w1 = (Ok db_ok, w2) /\
     storage_save default_storage c w = (Ok (cache_ok && db_ok), w2) /\
     (cache_ok && db_ok = true <-> cache_ok = true /\ db_ok = true)) /\
  (forall c w fs, cache_faults w = true :: fs -> db_faults w = [] ->
     exists w2, storage_save default_storage c w = (Ok false, w2) /\
       is_Some (contexts_tbl w2 !! context_id c) /\
       redis_ctx w2 = redis_ctx w) /\
  (forall c w fs, cache_faults w = [] -> db_faults w = true :: fs ->
     exists w2, storage_save default_storage c w = (Ok false, w2) /\
       redis_ctx w2 !! context_id c = Some (clock w + 3600 * usec, c) /\
       contexts_tbl w2 = contexts_tbl w).
Proof.
  split; [|split].
  - intros c w.
    destruct (redis_save_total 3600 c w) as (cache_ok & w1 & H1).
    destruct (db_save_total c w1) as (db_ok & w2 & H2).
    exists cache_ok, db_ok, w1, w2. repeat split; auto.
    + simpl. unfold HybridContextStorage.save, bind, ret. simpl.
      rewrite H1, H2. reflexivity.
    + destruct cache_ok; simpl in *; congruence.
    + destruct cache_ok, db_ok; simpl in *; congruence.
    + intros [-> ->]. reflexivity.
  - intros c w fs Hc Hd. simpl.
    unfold HybridContextStorage.save. storage_unfold.
    unfold RedisContextStorage.save,
      DatabaseContextStorage.save, ContextCache.set, ContextRepository.get,
      ContextRepository.update, ContextRepository.create,
      ContextRepository._orm_to_model, redis_call, db_session.
    munfold. simpl. rewrite Hc. simpl. rewrite Hd. simpl.
    destruct (contexts_tbl w !! context_id c) eqn:E; simpl; rewrite ?Hd; simpl.
    + rewrite E. eexists; repeat split; simpl.
      rewrite lookup_insert_eq. eauto.
    + eexists; repeat split; simpl.
      rewrite lookup_insert_eq. eauto.
  - intros c w fs Hc Hd. simpl.
    unfold HybridContextStorage.save. storage_unfold.
    unfold RedisContextStorage.save,
      DatabaseContextStorage.save, ContextCache.set, ContextRepository.get,
      ContextRepository.update, ContextRepository.create,
      ContextRepository._orm_to_model, redis_call, db_session.
    munfold. simpl. rewrite Hc. simpl. rewrite Hd. simpl.
    eexists; repeat split; simpl.
    rewrite lookup_insert_eq. reflexivity.
Qed.

(** *** Frame rules *)

Section Keeps.
Context {V : Type} (proj : World -> V).

Lemma keeps_ret {A} (a : A) : keeps proj (ret a).
Proof. intros w r w' [= <- <-]. reflexivity. Qed.

Lemma keeps_raise {A} e : keeps proj (@raise A e).
Proof. intros w r w' [= <- <-]. reflexivity. Qed.

Lemma keeps_gets {A} (f : World -> A) : keeps proj (gets f).
Proof. intros w r w' [= <- <-]. reflexivity. Qed.

Lemma keeps_lift {A} (x : result A) : keeps proj (lift x).
Proof. intros w r w' [= <- <-]. reflexivity. Qed.

Lemma keeps_now : keeps proj now.
Proof. apply keeps_gets. Qed.

Lemma keeps_modify (f : World -> World) :
  (forall w, proj (f w) = proj w) -> keeps proj (modify f).
Proof. intros H w r w' [= <- <-]. apply H. Qed.

Lemma keeps_bind {A B} (m : M A) (k : A -> M B) :
  keeps proj m -> (forall a, keeps proj (k a)) -> keeps proj (bind m k).
Proof.
  intros Hm Hk w r w'. unfold bind.
  destruct (m w) as [[a|e] w1] eqn:E; intros H.
  - rewrite (Hk a _ _ _ H). eapply Hm; eauto.
  - injection H as <- <-. eapply Hm; eauto.
Qed.

Lemma keeps_try {A} (m : M A) (h : string -> M A) :
  keeps proj m -> (forall e, keeps proj (h e)) -> keeps proj (try_except m h).
Proof.
  intros Hm Hh w r w'. unfold try_except.
  destruct (m w) as [[a|e] w1] eqn:E; intros H.
  - injection H as <- <-. eapply Hm; eauto.
  - rewrite (Hh e _ _ _ H). eapply Hm; eauto.
Qed.

Lemma keeps_db_session :
  (forall fs w, proj (set_db_faults fs w) = proj w) -> keeps proj db_session.
Proof.
  intros H w r w'. unfold db_session.
  destruct (db_faults w) as [|[] fs]; intros [= <- <-]; auto.
Qed.

Lemma keeps_redis_call :
  (forall fs w, proj (set_cache_faults fs w) = proj w) ->
  keeps proj redis_call.
Proof.
  intros H w r w'. unfold redis_call.
  destruct (cache_faults w) as [|[] fs]; intros [= <- <-]; auto.
Qed.

Lemma keeps_generate_uuid :
  (forall us w, proj (set_uuids us w) = proj w) -> keeps proj generate_uuid.
Proof.
  intros H w r w'. unfold generate_uuid.
  destruct (uuids w) as [|u us]; intros [= <- <-]; auto.
Qed.
End Keeps.

Create HintDb embed.

#[local] Hint Unfold
  add_hours
  TokenQuotaRepository._orm_to_model TokenQuotaRepository.get
  TokenQuotaRepository.create TokenQuotaRepository.update
  TokenQuotaRepository.increment_used TokenQuotaRepository.reset_daily
  BanRecordRepository.get_active_ban BanRecordRepository.create
  TokenController._create_default_quota TokenController._check_and_reset_daily
  TokenController.get_quota TokenController.check_quota
  TokenController.check_minute_limit TokenController.check_daily_limit
  TokenController._record_request TokenController.consume
  BanManager.check_ban_status BanManager.is_banned
  BanManager.get_remaining_ban_time
  UserRepository.get UserRepository.create UserRepository.get_or_create
  UserRepository.update
  ContextRepository._orm_to_model ContextRepository.create
  ContextRepository.get ContextRepository.update ContextRepository.add_message
  ContextCache.get ContextCache.set ContextCache.delete
  RedisContextStorage.get RedisContextStorage.save RedisContextStorage.delete
  DatabaseContextStorage.get DatabaseContextStorage.save
  DatabaseContextStorage.delete
  HybridContextStorage.get HybridContextStorage.save HybridContextStorage.delete
  IDHelper.generate_short_id IDHelper.generate_context_id
  IDHelper.generate_message_id
  ContextManager.create_context ContextManager.get_context
  ContextManager.update_context ContextManager.add_participant
  ContextManager.add_message ContextManager.get_messages
  ContextManager.get_user_context : embed.

(** Side conditions: the setter at hand does not touch the projection. *)
Ltac keeps_side :=
  intros;
  repeat match goal with
         | |- context [match ?x with _ => _ end] => destruct x
         end;
  reflexivity.

Ltac keeps_step :=
  first
    [ apply keeps_ret | apply keeps_raise | apply keeps_now | apply keeps_gets
    | apply keeps_lift
    | apply keeps_db_session; keeps_side
    | apply keeps_redis_call; keeps_side
    | apply keeps_generate_uuid; keeps_side
    | apply keeps_modify; keeps_side
    | apply keeps_bind; [|intros ?]
    | apply keeps_try; [|intros ?]
    | match goal with
      | |- keeps _ (match ?x with _ => _ end) => destruct x
      | |- keeps _ (if ?b then _ else _) => destruct b
      | |- keeps _ (let _ := _ in _) => cbv zeta
      end
    | progress storage_unfold
    | progress autounfold with embed ].

Ltac keeps_tac := repeat keeps_step.

Lemma get_quota_keeps_clock uid : keeps clock (TokenController.get_quota uid).
Proof. keeps_tac. Qed.

Lemma consume_keeps_sessions uid n :
  keeps session_view (TokenController.consume uid n).
Proof. keeps_tac. Qed.

Lemma add_message_keeps_clock cid a b c d e f :
  keeps clock (ContextManager.add_message default_storage cid a b c d e f).
Proof. keeps_tac. Qed.



Lemma faults_only_refl w : faults_only w w.
Proof. destruct w; reflexivity. Qed.

Lemma faults_only_trans w1 w2 w3 :
  faults_only w1 w2 -> faults_only w2 w3 -> faults_only w1 w3.
Proof.
  unfold faults_only. intros H1 H2. rewrite H2 at 1. rewrite H1 at 1.
  reflexivity.
Qed.

Lemma faults_only_db fs w : faults_only w (set_db_faults fs w).
Proof. destruct w; reflexivity. Qed.

Lemma faults_only_cache fs w : faults_only w (set_cache_faults fs w).
Proof. destruct w; reflexivity. Qed.

Create HintDb world.

#[local] Hint Resolve faults_only_refl faults_only_db faults_only_cache : world.

Lemma db_session_spec w r w1 :
  db_session w = (r, w1) -> faults_only w w1.
Proof.
  unfold db_session. destruct (db_faults w) as [|[] fs]; intros [= <- <-];
    auto with world.
Qed.

Lemma db_session_no_fault w :
  db_faults w = [] -> db_session w = (Ok tt, w).
Proof. unfold db_session. intros ->. reflexivity. Qed.

Lemma faults_only_quotas w w1 : faults_only w w1 -> quotas_tbl w1 = quotas_tbl w.
Proof. intros ->. reflexivity. Qed.

Lemma faults_only_clock w w1 : faults_only w w1 -> clock w1 = clock w.
Proof. intros ->. reflexivity. Qed.

Lemma quota_repo_get_spec uid w r w1 :
  TokenQuotaRepository.get uid w = (r, w1) ->
  faults_only w w1 /\
  match r with
  | Ok None => quotas_tbl w !! uid = None
  | Ok (Some q) => exists row, quotas_tbl w !! uid = Some row /\
                     TokenQuotaRepository.valid row = true /\
                     q = quota_model uid (clock w) row
  | Raise _ => True
  end.
Proof.
  unfold TokenQuotaRepository.get, TokenQuotaRepository._orm_to_model.
  munfold.
  destruct (db_session w) as [[[]|e] w0] eqn:E; apply db_session_spec in E.
  - cbv beta iota. rewrite (faults_only_quotas _ _ E).
    destruct (quotas_tbl w !! uid) as [row|] eqn:Hrow; cbv beta iota;
      rewrite ?(faults_only_clock _ _ E).
    + destruct (TokenQuotaRepository.valid row) eqn:Hv; intros [= <- <-];
        split; eauto.
    + intros [= <- <-]. split; auto.
  - intros [= <- <-]. split; auto.
Qed.

Lemma quota_repo_get_no_fault uid w :
  db_faults w = [] ->
  TokenQuotaRepository.get uid w =
    match quotas_tbl w !! uid with
    | None => (Ok None, w)
    | Some row => if TokenQuotaRepository.valid row
                  then (Ok (Some (quota_model uid (clock w) row)), w)
                  else (Raise "ValidationError", w)
    end.
Proof.
  intros H. unfold TokenQuotaRepository.get, TokenQuotaRepository._orm_to_model.
  munfold. rewrite (db_session_no_fault _ H).
  destruct (quotas_tbl w !! uid) as [row|]; [|reflexivity].
  destruct (TokenQuotaRepository.valid row); reflexivity.
Qed.

Lemma quota_repo_update_spec q w r w1 :
  TokenQuotaRepository.update q w = (r, w1) ->
  (exists w0, faults_only w w0 /\ r = Ok q /\ w1 = quota_updated q w0) \/
  (exists e, r = Raise e /\ faults_only w w1).
Proof.
  unfold TokenQuotaRepository.update. munfold.
  destruct (db_session w) as [[[]|e] w0] eqn:E; apply db_session_spec in E;
    intros [= <- <-]; eauto.
Qed.

Lemma quota_updated_lookup q w uid :
  q_user_id q = uid ->
  is_Some (quotas_tbl w !! uid) ->
  quotas_tbl (quota_updated q w) !! uid = Some q.
Proof.
  intros <- [x Hx]. unfold quota_updated. rewrite Hx. simpl.
  apply lookup_insert_eq.
Qed.

Lemma quota_updated_clock q w : clock (quota_updated q w) = clock w.
Proof. unfold quota_updated. destruct (_ !! _); reflexivity. Qed.

Lemma quota_updated_no_fault q w :
  db_faults w = [] -> db_faults (quota_updated q w) = [].
Proof. unfold quota_updated. destruct (_ !! _); auto. Qed.

Lemma quota_repo_update_no_fault q w :
  db_faults w = [] ->
  TokenQuotaRepository.update q w = (Ok q, quota_updated q w).
Proof.
  intros H. unfold TokenQuotaRepository.update. munfold.
  rewrite (db_session_no_fault _ H). reflexivity.
Qed.

Lemma get_quota_spec_some uid w row r w1 :
  quotas_tbl w !! uid = Some row ->
  TokenController.get_quota uid w = (r, w1) ->
  match r with
  | Ok q1 =>
      q1 = after_lazy_reset (clock w) (quota_model uid (clock w) row) /\
      TokenQuotaRepository.valid row = true /\
      ((reset_due (clock w) row = false /\ faults_only w w1) \/
       (reset_due (clock w) row = true /\
        exists w0, faults_only w w0 /\ w1 = quota_updated q1 w0))
  | Raise _ => faults_only w w1
  end.
Proof.
  intros Hrow. unfold TokenController.get_quota. unfold bind at 1.
  destruct (TokenQuotaRepository.get uid w) as [[[q|]|e] w0] eqn:E;
    apply quota_repo_get_spec in E; destruct E as [F E].
  2: { congruence. }
  2: { intros [= <- <-]. exact F. }
  destruct E as (row' & Hrow' & Hv & ->).
  assert (row' = row) by congruence. subst row'.
  unfold TokenController._check_and_reset_daily. munfold.
  rewrite (faults_only_clock _ _ F).
  unfold after_lazy_reset, reset_due. cbn [daily_reset quota_model].
  destruct (daily_reset row <=? clock w) eqn:Hdue.
  - unfold TokenQuotaRepository.reset_daily. unfold bind at 1.
    cbn [q_user_id quota_model].
    destruct (TokenQuotaRepository.get uid w0) as [[[q|]|e] w2] eqn:E2;
      apply quota_repo_get_spec in E2; destruct E2 as [F2 E2].
    + destruct E2 as (row2 & Hrow2 & Hv2 & ->).
      rewrite (faults_only_quotas _ _ F) in Hrow2.
      assert (row2 = row) by congruence. subst row2.
      rewrite (faults_only_clock _ _ F). munfold.
      rewrite (faults_only_clock _ _ F2), (faults_only_clock _ _ F).
      cbn [quota_model q_user_id total_quota used daily_limit minute_limit
           minute_requests].
      match goal with |- context [TokenQuotaRepository.update ?q w2] =>
        destruct (TokenQuotaRepository.update q w2) as [r3 w3] eqn:E3;
        apply quota_repo_update_spec in E3 end.
      destruct E3 as [(w4 & F4 & -> & ->)|(e & -> & F4)]; intros [= <- <-].
      * repeat split; auto. right. split; auto. exists w4. split; auto.
        eauto using faults_only_trans.
      * eauto using faults_only_trans.
    + rewrite (faults_only_quotas _ _ F) in E2. congruence.
    + intros [= <- <-]. eauto using faults_only_trans.
  - intros [= <- <-]. repeat split; auto.
Qed.

Lemma get_quota_spec_none uid w r w1 :
  quotas_tbl w !! uid = None ->
  TokenController.get_quota uid w = (r, w1) ->
  match r with
  | Ok q1 =>
      q1 = default_quota uid (clock w) /\
      exists w0, faults_only w w0 /\
        w1 = set_quotas (<[uid := q1]> (quotas_tbl w0)) w0
  | Raise _ => faults_only w w1
  end.
Proof.
  intros Hrow. unfold TokenController.get_quota. unfold bind at 1.
  destruct (TokenQuotaRepository.get uid w) as [[[q|]|e] w0] eqn:E;
    apply quota_repo_get_spec in E; destruct E as [F E].
  1: { destruct E as (row' & Hrow' & _). congruence. }
  2: { intros [= <- <-]. exact F. }
  unfold TokenController._create_default_quota, TokenQuotaRepository.create,
    TokenQuotaRepository._orm_to_model. munfold.
  rewrite (faults_only_clock _ _ F).
  destruct (db_session w0) as [[[]|e] w2] eqn:E2; apply db_session_spec in E2;
    cbv beta iota.
  - cbn. intros [= <- <-]. split.
    + reflexivity.
    + exists w2. split; eauto using faults_only_trans.
  - intros [= <- <-]. eauto using faults_only_trans.
Qed.

(** C3 (amended). A rejected [consume] charges nothing. *)
Theorem consume_rejection_charges_nothing :
  (forall w uid n row r w',
     quotas_tbl w !! uid = Some row ->
     (remaining row < n \/
      daily_remaining (after_lazy_reset (clock w) row) < n) ->
     TokenController.consume uid n w = (r, w') ->
     r <> Ok true /\
     (db_faults w = [] -> TokenQuotaRepository.valid row = true ->
      r = Ok false) /\
     exists row', quotas_tbl w' !! uid = Some row' /\
       used row' = used row /\
       (daily_used row' = daily_used row \/
        (reset_due (clock w) row = true /\ daily_used row' = 0))) /\
  (forall w uid n r w',
     quotas_tbl w !! uid = None ->
     (TokenController.DEFAULT_TOTAL_QUOTA < n \/
      TokenController.DEFAULT_DAILY_LIMIT < n) ->
     TokenController.consume uid n w = (r, w') ->
     r <> Ok true /\
     (db_faults w = [] -> r = Ok false) /\
     forall row', quotas_tbl w' !! uid = Some row' ->
       used row' = 0 /\ daily_used row' = 0).
Proof.
  split.
  - intros w uid n row r w' Hrow Hn.
    unfold TokenController.consume, TokenController.check_quota.
    unfold bind at 1 2.
    destruct (TokenController.get_quota uid w) as [[q1|e] w1] eqn:E.
    + pose proof (get_quota_spec_some _ _ _ _ _ Hrow E) as (-> & Hv & Hcase).
      munfold.
      assert (Hrej : (remaining (after_lazy_reset (clock w)
                         (quota_model uid (clock w) row)) <? n) = true \/
                     (daily_remaining (after_lazy_reset (clock w)
                         (quota_model uid (clock w) row)) <? n) = true).
      { unfold after_lazy_reset, reset_due, remaining, daily_remaining in *.
        cbn [daily_reset quota_model] in *.
        destruct (daily_reset row <=? clock w); cbn in *;
          destruct Hn; [left|right|left|right]; apply Z.ltb_lt; lia. }
      assert (Hfst : forall t q (v := after_lazy_reset (clock w)
                                         (quota_model uid (clock w) row)),
        q = v ->
        fst (if remaining q <? n
             then (false, "配额不足，剩余 " +:+ pretty (remaining q) +:+ " Token")
             else if daily_remaining q <? n
             then (false, "今日配额不足，剩余 " +:+ pretty (daily_remaining q)
                          +:+ " Token")
             else if is_minute_limit_exceeded t q
             then (false, "请求过于频繁，请稍后再试")
             else (true, "")) = false).
      { intros t q v ->. subst v. destruct Hrej as [-> | H2]; [reflexivity|].
        destruct (remaining _ <? n); [reflexivity|]. rewrite H2. reflexivity. }
      rewrite (Hfst _ _ eq_refl). cbn.
      intros [= <- <-]. split; [congruence|]. split; [auto|].
      destruct Hcase as [(Hdue & F)|(Hdue & w0 & F & ->)].
      * exists row. rewrite (faults_only_quotas _ _ F). auto.
      * assert (Hid : q_user_id (after_lazy_reset (clock w)
                          (quota_model uid (clock w) row)) = uid).
        { unfold after_lazy_reset. destruct (reset_due _ _); reflexivity. }
        eexists. split.
        { apply quota_updated_lookup; [exact Hid|].
          rewrite (faults_only_quotas _ _ F). eauto. }
        unfold after_lazy_reset.
        change (reset_due (clock w) (quota_model uid (clock w) row))
          with (reset_due (clock w) row).
        rewrite Hdue. cbn. auto.
    + pose proof (get_quota_spec_some _ _ _ _ _ Hrow E) as F.
      intros [= <- <-]. split; [congruence|]. split.
      * intros Hf Hv. exfalso.
        unfold TokenController.get_quota in E. unfold bind in E at 1.
        rewrite (quota_repo_get_no_fault _ _ Hf), Hrow, Hv in E.
        unfold TokenController._check_and_reset_daily in E. munfold.
        destruct (daily_reset (quota_model uid (clock w) row) <=? clock w);
          [|congruence].
        unfold TokenQuotaRepository.reset_daily in E. unfold bind in E at 1.
        cbn [q_user_id quota_model] in E.
        rewrite (quota_repo_get_no_fault _ _ Hf), Hrow, Hv in E.
        munfold. rewrite (quota_repo_update_no_fault _ _ Hf) in E.
        congruence.
      * exists row. rewrite (faults_only_quotas _ _ F). auto.
  - intros w uid n r w' Hrow Hn.
    unfold TokenController.consume, TokenController.check_quota.
    unfold bind at 1 2.
    destruct (TokenController.get_quota uid w) as [[q1|e] w1] eqn:E.
    + pose proof (get_quota_spec_none _ _ _ _ Hrow E) as (-> & w0 & F & ->).
      munfold. unfold remaining, daily_remaining.
      cbn [default_quota total_quota used daily_limit daily_used].
      unfold TokenController.DEFAULT_TOTAL_QUOTA,
        TokenController.DEFAULT_DAILY_LIMIT in *.
      destruct (Z.max 0 (50000 - 0) <? n) eqn:H1.
      * cbn. intros [= <- <-]. split; [congruence|]. split; [auto|].
        cbn. rewrite lookup_insert_eq. intros ? [= <-]. auto.
      * destruct (Z.max 0 (5000 - 0) <? n) eqn:H2.
        -- cbn. intros [= <- <-]. split; [congruence|]. split; [auto|].
           cbn. rewrite lookup_insert_eq. intros ? [= <-]. auto.
        -- exfalso. apply Z.ltb_ge in H1, H2. lia.
    + pose proof (get_quota_spec_none _ _ _ _ Hrow E) as F.
      intros [= <- <-]. split; [congruence|]. split.
      * intros Hf. exfalso.
        unfold TokenController.get_quota in E. unfold bind in E at 1.
        rewrite (quota_repo_get_no_fault _ _ Hf), Hrow in E.
        unfold TokenController._create_default_quota,
          TokenQuotaRepository.create, TokenQuotaRepository._orm_to_model in E.
        munfold. rewrite (db_session_no_fault _ Hf) in E. cbn in E.
        congruence.
      * rewrite (faults_only_quotas _ _ F), Hrow. congruence.
Qed.

(** *** BanManager.detect_abuse *)










(** *** Admission without storage faults *)

Lemma get_quota_no_fault uid w row :
  db_faults w = [] ->
  quotas_tbl w !! uid = Some row ->
  TokenQuotaRepository.valid row = true ->
  TokenController.get_quota uid w =
    (Ok (after_lazy_reset (clock w) (quota_model uid (clock w) row)),
     after_get_quota uid row w).
Proof.
  intros Hf Hrow Hv.
  unfold TokenController.get_quota. unfold bind at 1.
  rewrite (quota_repo_get_no_fault _ _ Hf), Hrow, Hv.
  unfold TokenController._check_and_reset_daily. munfold.
  unfold after_get_quota, after_lazy_reset, reset_due.
  cbn [daily_reset quota_model].
  destruct (daily_reset row <=? clock w) eqn:Hdue; [|reflexivity].
  unfold TokenQuotaRepository.reset_daily. unfold bind at 1.
  cbn [q_user_id quota_model].
  rewrite (quota_repo_get_no_fault _ _ Hf), Hrow, Hv. munfold.
  rewrite (quota_repo_update_no_fault _ _ Hf). reflexivity.
Qed.

Lemma after_get_quota_no_fault uid row w :
  db_faults w = [] -> db_faults (after_get_quota uid row w) = [].
Proof.
  unfold after_get_quota. destruct (reset_due _ _); auto.
  apply quota_updated_no_fault.
Qed.

Lemma after_get_quota_clock uid row w :
  clock (after_get_quota uid row w) = clock w.
Proof.
  unfold after_get_quota. destruct (reset_due _ _); auto.
  apply quota_updated_clock.
Qed.

Lemma after_get_quota_bans uid row w :
  bans_tbl (after_get_quota uid row w) = bans_tbl w.
Proof.
  unfold after_get_quota, quota_updated.
  destruct (reset_due _ _); auto. destruct (_ !! _); reflexivity.
Qed.

Lemma filter_within_idem t (l : list Z) :
  filter (fun ts => within t 60 ts = true)
         (filter (fun ts => within t 60 ts = true) l)
  = filter (fun ts => within t 60 ts = true) l.
Proof.
  induction l as [|x l IH]; [reflexivity|].
  destruct (decide (within t 60 x = true)) as [H|H].
  - rewrite (filter_cons_True _ x l H).
    rewrite (filter_cons_True _ x _ H). f_equal. exact IH.
  - rewrite (filter_cons_False _ x l H). exact IH.
Qed.

Lemma minute_limit_of_model uid t row :
  is_minute_limit_exceeded t (after_lazy_reset t (quota_model uid t row))
  = is_minute_limit_exceeded t row.
Proof.
  unfold is_minute_limit_exceeded, after_lazy_reset.
  destruct (reset_due _ _); cbn [minute_requests minute_limit quota_model];
    unfold validate_minute_requests; rewrite filter_within_idem; reflexivity.
Qed.

Lemma get_active_ban_no_fault uid w :
  db_faults w = [] ->
  BanRecordRepository.get_active_ban uid w = (Ok (active_ban uid w), w).
Proof.
  intros Hf. unfold BanRecordRepository.get_active_ban. munfold.
  rewrite (db_session_no_fault _ Hf). reflexivity.
Qed.

Lemma selected_is_active uid t r :
  BanRecordRepository.selected uid t r = true -> ban_is_active t r = true.
Proof.
  unfold BanRecordRepository.selected, ban_is_active.
  intros H. apply andb_true_iff in H as [_ H].
  destruct (decide (ban_type r = PERMANENT)); [reflexivity|].
  rewrite bool_decide_eq_false_2 in H by assumption. exact H.
Qed.

Lemma latest_in l r : BanRecordRepository.latest l = Some r -> In r l.
Proof.
  revert r. induction l as [|x l IH]; intros r; [discriminate|].
  cbn. destruct (BanRecordRepository.latest l) as [r'|].
  - destruct (started_at x <? started_at r'); intros [= <-]; auto.
  - intros [= <-]. auto.
Qed.

Lemma active_ban_is_active uid w r :
  active_ban uid w = Some r -> ban_is_active (clock w) r = true.
Proof.
  intros H. apply latest_in in H. apply filter_In in H as [_ H].
  eapply selected_is_active; eauto.
Qed.

Lemma check_ban_status_no_fault uid w :
  db_faults w = [] ->
  BanManager.check_ban_status uid w = (Ok (active_ban uid w), w).
Proof.
  intros Hf. unfold BanManager.check_ban_status. unfold bind at 1.
  rewrite (get_active_ban_no_fault _ _ Hf). munfold.
  destruct (active_ban uid w) as [r|] eqn:E; [|reflexivity].
  rewrite (active_ban_is_active _ _ _ E). reflexivity.
Qed.

Lemma attempt_ok {A} (m : M A) w a w1 :
  m w = (Ok a, w1) -> attempt m w = (Ok (Some a), w1).
Proof. intros H. unfold attempt, try_except, bind, ret. rewrite H. reflexivity. Qed.

Lemma attempt_total {A} (m : M A) w :
  exists o w1, attempt m w = (Ok o, w1).
Proof.
  unfold attempt, try_except, bind, ret.
  destruct (m w) as [[a|e] w1]; eauto.
Qed.

(** C1. With no storage fault, a user who is not banned and whose minute
    window is full is turned away by the quota step of [_pre_check]: the
    error code is QUOTA_EXCEEDED and the text is the one of [check_quota],
    because [check_quota] tests the minute window itself; the total and
    daily tests cannot fail there, the requested amount being 0. *)
Theorem pre_check_minute_window_full :
  forall w uid row,
    db_faults w = [] ->
    active_ban uid w = None ->
    quotas_tbl w !! uid = Some row ->
    TokenQuotaRepository.valid row = true ->
    is_minute_limit_exceeded (clock w) row = true ->
    MessageRouter._pre_check uid w =
      (Ok {| allowed := false; cr_reason := "请求过于频繁，请稍后再试";
             error_code := Some "QUOTA_EXCEEDED" |},
       after_get_quota uid row w).
Proof.
  intros w uid row Hf Hban Hrow Hv Hmin.
  unfold MessageRouter._pre_check. unfold bind at 1.
  assert (Hb : BanManager.is_banned uid w = (Ok false, w)).
  { unfold BanManager.is_banned. unfold bind.
    rewrite (check_ban_status_no_fault _ _ Hf), Hban. reflexivity. }
  rewrite (attempt_ok _ _ _ _ Hb). unfold bind at 1.
  assert (Hq : TokenController.check_quota uid 0 w =
               (Ok (false, "请求过于频繁，请稍后再试"), after_get_quota uid row w)).
  { unfold TokenController.check_quota. unfold bind at 1.
    rewrite (get_quota_no_fault _ _ _ Hf Hrow Hv). munfold.
    rewrite after_get_quota_clock, minute_limit_of_model, Hmin.
    assert (H1 : (remaining (after_lazy_reset (clock w)
                    (quota_model uid (clock w) row)) <? 0) = false).
    { apply Z.ltb_ge. unfold remaining. lia. }
    assert (H2 : (daily_remaining (after_lazy_reset (clock w)
                    (quota_model uid (clock w) row)) <? 0) = false).
    { apply Z.ltb_ge. unfold daily_remaining. lia. }
    rewrite H1, H2. reflexivity. }
  rewrite (attempt_ok _ _ _ _ Hq). reflexivity.
Qed.

(** No run of [_pre_check] answers RATE_LIMIT_EXCEEDED: its third step is
    only reached when [check_quota] found the minute window not full. *)
Lemma check_minute_limit_after_quota uid w q w1 :
  TokenController.get_quota uid w = (Ok q, w1) ->
  is_minute_limit_exceeded (clock w) q = false ->
  forall r w2, TokenController.check_minute_limit uid w1 = (Ok r, w2) ->
  r = true.
Proof.
  intros Hq Hmin r w2.
  assert (Hclk : clock w1 = clock w) by (eapply get_quota_keeps_clock; eauto).
  destruct (quotas_tbl w !! uid) as [row|] eqn:Hrow.
  - pose proof (get_quota_spec_some _ _ _ _ _ Hrow Hq) as (-> & Hv & Hcase).
    assert (Hrow1 : exists row1, quotas_tbl w1 !! uid = Some row1 /\
              reset_due (clock w) row1 = false /\
              is_minute_limit_exceeded (clock w) row1 = false).
    { destruct Hcase as [(Hdue & F)|(Hdue & w0 & F & ->)].
      - exists row. rewrite (faults_only_quotas _ _ F). repeat split; auto.
        rewrite minute_limit_of_model in Hmin. exact Hmin.
      - eexists. split.
        { apply quota_updated_lookup.
          - unfold after_lazy_reset. destruct (reset_due _ _); reflexivity.
          - rewrite (faults_only_quotas _ _ F). eauto. }
        split; [|exact Hmin].
        unfold after_lazy_reset.
        change (reset_due (clock w) (quota_model uid (clock w) row))
          with (reset_due (clock w) row).
        rewrite Hdue. unfold reset_due. cbn [daily_reset].
        apply Z.leb_gt. unfold usec. lia. }
    destruct Hrow1 as (row1 & Hrow1 & Hnd & Hm1).
    unfold TokenController.check_minute_limit. unfold bind at 1.
    destruct (TokenController.get_quota uid w1) as [[q2|e] w3] eqn:E2;
      [|discriminate].
    pose proof (get_quota_spec_some _ _ _ _ _ Hrow1 E2) as (-> & _ & _).
    munfold. intros [= <- <-].
    assert (Hclk3 : clock w3 = clock w1)
      by (eapply get_quota_keeps_clock; eauto).
    rewrite Hclk3, Hclk, minute_limit_of_model, Hm1. reflexivity.
  - pose proof (get_quota_spec_none _ _ _ _ Hrow Hq) as (-> & w0 & F & ->).
    unfold TokenController.check_minute_limit. unfold bind at 1.
    match goal with |- context [TokenController.get_quota uid ?w1] =>
      destruct (TokenController.get_quota uid w1) as [[q2|e] w3] eqn:E2;
      [|discriminate] end.
    assert (Hclk3 : clock w3 = clock w).
    { rewrite <- Hclk. eapply get_quota_keeps_clock; eauto. }
    eapply get_quota_spec_some in E2; [|cbn; apply lookup_insert_eq].
    destruct E2 as (-> & _ & _).
    munfold. intros [= <- <-]. rewrite Hclk3.
    cbn [clock set_quotas]. rewrite (faults_only_clock _ _ F).
    rewrite minute_limit_of_model. reflexivity.
Qed.

Lemma attempt_some {A} (m : M A) w a w1 :
  attempt m w = (Ok (Some a), w1) -> m w = (Ok a, w1).
Proof.
  unfold attempt, try_except, bind, ret.
  destruct (m w) as [[a'|e] w2]; intros [= <- <-]; reflexivity.
Qed.

Lemma check_quota_true uid w msg w1 :
  TokenController.check_quota uid 0 w = (Ok (true, msg), w1) ->
  exists q, TokenController.get_quota uid w = (Ok q, w1) /\
            is_minute_limit_exceeded (clock w) q = false.
Proof.
  unfold TokenController.check_quota. unfold bind at 1.
  destruct (TokenController.get_quota uid w) as [[q|e] w2] eqn:E;
    [|discriminate].
  assert (Hclk : clock w2 = clock w) by (eapply get_quota_keeps_clock; eauto).
  munfold. rewrite Hclk.
  destruct (remaining q <? 0); [discriminate|].
  destruct (daily_remaining q <? 0); [discriminate|].
  destruct (is_minute_limit_exceeded (clock w) q) eqn:Hm; [discriminate|].
  intros [= <- <-]. eauto.
Qed.

Lemma pre_check_never_rate_limit uid w r w' :
  MessageRouter._pre_check uid w = (r, w') ->
  exists cr, r = Ok cr /\ error_code cr <> Some "RATE_LIMIT_EXCEEDED".
Proof.
  unfold MessageRouter._pre_check. unfold bind at 1.
  destruct (attempt_total (BanManager.is_banned uid) w) as (b & w1 & ->).
  destruct b as [[]|].
  - unfold bind at 1.
    destruct (attempt_total (BanManager.get_remaining_ban_time uid) w1)
      as (o & w2 & ->).
    destruct o as [[secs|]|]; [destruct (0 <? secs)| |];
      intros [= <- <-]; eexists; (split; [reflexivity|discriminate]).
  - unfold bind at 1.
    destruct (attempt (TokenController.check_quota uid 0) w1)
      as [[[[ok msg]|]|e] w2] eqn:Eq.
    + destruct ok; cbn [negb].
      * apply attempt_some in Eq. apply check_quota_true in Eq.
        destruct Eq as (q & Hq & Hmin).
        unfold bind at 1.
        destruct (attempt (TokenController.check_minute_limit uid) w2)
          as [[[[]|]|e] w3] eqn:Em.
        -- unfold bind at 1.
           destruct (attempt_total (TokenController.check_daily_limit uid) w3)
             as (d & w4 & ->).
           destruct d as [[]|]; intros [= <- <-]; eexists;
             (split; [reflexivity|discriminate]).
        -- apply attempt_some in Em.
           pose proof (check_minute_limit_after_quota _ _ _ _ Hq Hmin _ _ Em).
           discriminate.
        -- intros [= <- <-]. eexists; (split; [reflexivity|discriminate]).
        -- destruct (attempt_total (TokenController.check_minute_limit uid) w2)
             as (? & ? & ?). congruence.
      * intros [= <- <-]. eexists; (split; [reflexivity|discriminate]).
    + intros [= <- <-]. eexists; (split; [reflexivity|discriminate]).
    + destruct (attempt_total (TokenController.check_quota uid 0) w1)
        as (? & ? & ?). congruence.
  - intros [= <- <-]. eexists; (split; [reflexivity|discriminate]).
Qed.

(** *** MessageRouter *)

#[local] Hint Unfold attempt MessageRouter._pre_check : embed.

Lemma pre_check_keeps_sessions uid :
  keeps session_view (MessageRouter._pre_check uid).
Proof. keeps_tac. Qed.

Lemma pre_check_keeps_clock uid : keeps clock (MessageRouter._pre_check uid).
Proof. keeps_tac. Qed.

Lemma generate_message_id_keeps_sessions :
  keeps session_view IDHelper.generate_message_id.
Proof. keeps_tac. Qed.

Lemma generate_message_id_keeps_clock : keeps clock IDHelper.generate_message_id.
Proof. keeps_tac. Qed.

Lemma generate_message_id_keeps_db_faults :
  keeps db_faults IDHelper.generate_message_id.
Proof. keeps_tac. Qed.

Lemma generate_message_id_keeps_bans : keeps bans_tbl IDHelper.generate_message_id.
Proof. keeps_tac. Qed.

Lemma generate_message_id_total w :
  exists mid, IDHelper.generate_message_id w
              = (Ok mid, snd (IDHelper.generate_message_id w)).
Proof.
  unfold IDHelper.generate_message_id, IDHelper.generate_short_id,
    generate_uuid. munfold.
  destruct (uuids w); cbn; eauto.
Qed.

Lemma pre_check_banned uid w r :
  db_faults w = [] ->
  active_ban uid w = Some r ->
  MessageRouter._pre_check uid w =
    (Ok {| allowed := false; cr_reason := ban_text (clock w) r;
           error_code := Some "USER_BANNED" |}, w).
Proof.
  intros Hf Hban.
  unfold MessageRouter._pre_check. unfold bind at 1.
  assert (Hb : BanManager.is_banned uid w = (Ok true, w)).
  { unfold BanManager.is_banned. unfold bind.
    rewrite (check_ban_status_no_fault _ _ Hf), Hban. reflexivity. }
  rewrite (attempt_ok _ _ _ _ Hb). unfold bind at 1.
  assert (Hr : BanManager.get_remaining_ban_time uid w
               = (Ok (remaining_seconds (clock w) r), w)).
  { unfold BanManager.get_remaining_ban_time. unfold bind at 1.
    rewrite (check_ban_status_no_fault _ _ Hf), Hban. reflexivity. }
  rewrite (attempt_ok _ _ _ _ Hr). unfold ban_text.
  destruct (remaining_seconds (clock w) r) as [secs|]; [|reflexivity].
  destruct (0 <? secs); reflexivity.
Qed.

(** C5. When [_pre_check] turns the user away, [route_message] answers at
    once with success=False, the reason as response and the error code, and
    the session store (users, contexts and messages of the database, cached
    contexts) is what it was before the call. An actively banned user is
    such a user: the answer carries USER_BANNED and the ban text. *)
Theorem route_message_denied_frame :
  (forall re_compile extract_numbers storage lgm uid uname text gid mtype
          w cr w1,
     MessageRouter._pre_check uid (snd (IDHelper.generate_message_id w))
       = (Ok cr, w1) ->
     allowed cr = false ->
     MessageRouter.route_message re_compile extract_numbers storage lgm
       uid uname text gid mtype w
     = (Ok {| success := false; mpr_response := cr_reason cr;
              error := error_code cr; processing_time_ms := 0;
              tokens_used := 0; state_snapshot := None |}, w1)
     /\ session_view w1 = session_view w) /\
  (forall re_compile extract_numbers storage lgm uid uname text gid mtype
          w r,
     db_faults w = [] ->
     active_ban uid w = Some r ->
     exists w1,
       MessageRouter.route_message re_compile extract_numbers storage lgm
         uid uname text gid mtype w
       = (Ok {| success := false; mpr_response := ban_text (clock w) r;
                error := Some "USER_BANNED"; processing_time_ms := 0;
                tokens_used := 0; state_snapshot := None |}, w1)
       /\ session_view w1 = session_view w).
Proof.
  assert (Hfirst : forall re_compile extract_numbers storage lgm uid uname
                          text gid mtype w cr w1,
     MessageRouter._pre_check uid (snd (IDHelper.generate_message_id w))
       = (Ok cr, w1) ->
     allowed cr = false ->
     MessageRouter.route_message re_compile extract_numbers storage lgm
       uid uname text gid mtype w
     = (Ok {| success := false; mpr_response := cr_reason cr;
              error := error_code cr; processing_time_ms := 0;
              tokens_used := 0; state_snapshot := None |}, w1)
     /\ session_view w1 = session_view w).
  { intros re_compile extract_numbers storage lgm uid uname text gid mtype
           w cr w1 Hpre Hden.
    destruct (generate_message_id_total w) as (mid & Hmid).
    pose proof (generate_message_id_keeps_clock _ _ _ Hmid) as Hc0.
    pose proof (generate_message_id_keeps_sessions _ _ _ Hmid) as Hs0.
    pose proof (pre_check_keeps_clock _ _ _ _ Hpre) as Hc1.
    pose proof (pre_check_keeps_sessions _ _ _ _ Hpre) as Hs1.
    split; [|congruence].
    unfold MessageRouter.route_message. unfold bind at 1. unfold now, gets.
    unfold bind at 1. rewrite Hmid.
    unfold try_except. unfold bind at 1. rewrite Hpre, Hden. cbn [negb].
    unfold bind, ret, gets. unfold MessageRouter._calculate_elapsed_ms.
    rewrite Hc1, Hc0, Z.sub_diag. reflexivity. }
  split; [exact Hfirst|].
  intros re_compile extract_numbers storage lgm uid uname text gid mtype
         w r Hf Hban.
  destruct (generate_message_id_total w) as (mid & Hmid).
  set (w0 := snd (IDHelper.generate_message_id w)) in *.
  pose proof (generate_message_id_keeps_clock _ _ _ Hmid) as Hc0.
  pose proof (generate_message_id_keeps_db_faults _ _ _ Hmid) as Hf0.
  pose proof (generate_message_id_keeps_bans _ _ _ Hmid) as Hb0.
  assert (Hban0 : active_ban uid w0 = Some r).
  { unfold active_ban in *. rewrite Hb0, Hc0. exact Hban. }
  assert (Hf0' : db_faults w0 = []) by congruence.
  pose proof (pre_check_banned uid w0 r Hf0' Hban0) as Hpre.
  exists w0. rewrite <- Hc0.
  apply (Hfirst re_compile extract_numbers storage lgm uid uname text gid
           mtype w _ w0 Hpre eq_refl).
Qed.

Lemma pre_check_total uid w :
  exists cr w1, MessageRouter._pre_check uid w = (Ok cr, w1).
Proof.
  destruct (MessageRouter._pre_check uid w) as [r w1] eqn:E.
  destruct (pre_check_never_rate_limit _ _ _ _ E) as (cr & -> & _). eauto.
Qed.

(** C2 as stated fails: the responder raises, the final state records the
    error message, and the router still answers success=True with no
    error. *)
Lemma route_message_success_despite_pipeline_error :
  match MessageRouter.route_message no_patterns no_numbers default_storage
          failing_manager "u" "U" "hi" None "text" fresh_world with
  | (Ok res, _) =>
      allowed <$> (match MessageRouter._pre_check "u"
                           (snd (IDHelper.generate_message_id fresh_world))
                   with (Ok cr, _) => Some cr | _ => None end) = Some true /\
      success res = true /\ error res = None /\
      error_message <$> state_snapshot res = Some "boom" /\
      rs_error_code <$> state_snapshot res
        = Some (Some "RESPONSE_GENERATE_ERROR") /\
      mpr_response res = "抱歉，生成回复时出现错误。"
  | (Raise _, _) => False
  end.
Proof. vm_compute. repeat split; reflexivity. Qed.

Lemma get_or_create_context_total storage uid uname gid ctype w :
  exists context w2,
    MessageRouter._get_or_create_context storage uid uname gid ctype w
    = (Ok context, w2).
Proof.
  unfold MessageRouter._get_or_create_context, try_except.
  match goal with
  | |- context [match ?m w with _ => _ end] =>
      destruct (m w) as [[context|e] w2]
  end.
  - eauto.
  - unfold ret. eauto.
Qed.

(** The cases of the theorem below end in a result that is there to
    read. *)
Ltac outcome_leaf :=
  eexists _, _; split; [reflexivity|];
  repeat match goal with
         | |- _ /\ _ => split
         | |- forall _, _ => intro
         end;
  simplify_eq; cbn [success mpr_response error state_snapshot];
  first [ reflexivity | congruence | contradiction
        | left; repeat split; reflexivity
        | right; eexists; repeat split; reflexivity ].

(** C2 (amended). Once [_pre_check] lets the message through,
    [route_message] never raises, and what it answers is decided by the
    exceptions that reach the router, not by the error message of the
    pipeline. It answers success=True with no error, the response of the
    final state of the pipeline and that state as snapshot, whether or
    not that state records an error message, when there is no session,
    or when the message type converts and neither storing the message of
    the user nor storing a response that is not empty raises. It answers
    success=False with the fixed apology as response, the text of the
    exception as error and no snapshot exactly in the remaining cases:
    the message type does not convert, or one of the two writes to the
    session raises. *)
Theorem route_message_admitted_outcome :
  forall re_compile extract_numbers storage lgm uid uname text gid mtype
         w mid w0 cr w1 context w2,
    IDHelper.generate_message_id w = (Ok mid, w0) ->
    MessageRouter._pre_check uid w0 = (Ok cr, w1) ->
    allowed cr = true ->
    MessageRouter._get_or_create_context storage uid uname gid
      (context_type_of gid) w1 = (Ok context, w2) ->
    let final :=
      LangGraphManager.process re_compile extract_numbers lgm
        (routed_state mid uid uname text gid mtype context) in
    exists res w',
      MessageRouter.route_message re_compile extract_numbers storage lgm
        uid uname text gid mtype w = (Ok res, w') /\
      (succeeded final res \/ exists e, failed_with e res) /\
      (context = None -> succeeded final res) /\
      (forall c, context = Some c ->
         (forall e, MessageRouter.message_type_of mtype = Raise e ->
            failed_with e res) /\
         (forall mt, MessageRouter.message_type_of mtype = Ok mt ->
            (forall e w3,
               ContextManager.add_message storage (context_id c) uid uname
                 text mt USER false w2 = (Raise e, w3) ->
               failed_with e res) /\
            (forall b w3,
               ContextManager.add_message storage (context_id c) uid uname
                 text mt USER false w2 = (Ok b, w3) ->
               (response final = "" -> succeeded final res) /\
               (response final <> "" ->
                  (forall e w4,
                     ContextManager.add_message storage (context_id c)
                       "robot" "Robot" (response final) TEXT USER false w3
                     = (Raise e, w4) ->
                     failed_with e res) /\
                  (forall b2 w4,
                     ContextManager.add_message storage (context_id c)
                       "robot" "Robot" (response final) TEXT USER false w3
                     = (Ok b2, w4) ->
                     succeeded final res))))).
Proof.
  intros re_compile extract_numbers storage lgm uid uname text gid mtype
         w mid w0 cr w1 context w2 Hmid Hpre Hok Hctx final.
  unfold succeeded, failed_with.
  unfold MessageRouter.route_message. unfold bind at 1. unfold now, gets.
  unfold bind at 1. rewrite Hmid.
  unfold try_except. unfold bind at 1. rewrite Hpre, Hok. cbn [negb].
  cbv zeta. unfold bind at 1.
  fold (context_type_of gid). rewrite Hctx.
  destruct context as [c|].
  - unfold bind at 1. unfold bind at 1. unfold lift.
    destruct (MessageRouter.message_type_of mtype) as [mt|e] eqn:Emt.
    2: { outcome_leaf. }
    unfold bind at 1.
    destruct (ContextManager.add_message storage (context_id c) uid uname
                text mt USER false w2) as [[b|e] w3] eqn:Eadd.
    2: { outcome_leaf. }
    unfold ret at 1. cbv beta iota. unfold bind at 1.
    fold (context_type_of gid).
    change (LangGraphManager.process re_compile extract_numbers lgm _)
      with final.
    destruct (decide (response final = "")) as [Hempty|Hfull].
    + rewrite bool_decide_eq_false_2 by (intros Hne; exact (Hne Hempty)).
      outcome_leaf.
    + rewrite bool_decide_eq_true_2 by exact Hfull.
      unfold bind at 1.
      destruct (ContextManager.add_message storage (context_id c) "robot"
                  "Robot" (response final) TEXT USER false w3)
        as [[b2|e2] w4] eqn:Eadd2.
      * outcome_leaf.
      * outcome_leaf.
  - outcome_leaf.
Qed.

(** *** ContextManager: message history *)

Lemma slice_from_neg {A} (k : Z) (l : list A) :
  0 < k ->
  slice_from (- k) l = drop (Z.to_nat (Z.of_nat (length l) - k)) l.
Proof.
  intros Hk. unfold slice_from.
  assert (H : (- k <? 0) = true) by (apply Z.ltb_lt; lia).
  rewrite H. f_equal. lia.
Qed.

Lemma append_message_spec message t c :
  1 <= max_messages c ->
  let n := Z.of_nat (length (messages c)) + 1 - max_messages c in
  messages (ContextManager.append_message message t c)
    = drop (Z.to_nat n) (messages c ++ [message]) /\
  max_messages (ContextManager.append_message message t c) = max_messages c /\
  context_id (ContextManager.append_message message t c) = context_id c.
Proof.
  intros Hmax n. subst n. unfold ContextManager.append_message.
  destruct (max_messages c <? Z.of_nat (length (messages c ++ [message])))
    eqn:Hlt; cbn [messages max_messages context_id with_messages].
  - rewrite slice_from_neg by lia. rewrite length_app. cbn [length].
    repeat split. f_equal. lia.
  - apply Z.ltb_ge in Hlt. rewrite length_app in Hlt. cbn [length] in Hlt.
    replace (Z.to_nat (Z.of_nat (length (messages c)) + 1 - max_messages c))
      with 0%nat by lia.
    repeat split.
Qed.

Lemma redis_save_true ttl c w w1 :
  RedisContextStorage.save ttl c w = (Ok true, w1) ->
  redis_ctx w1 !! context_id c
  = Some (clock w + (if ttl =? 0 then ContextCache.TTL_SECONDS else ttl) * usec,
          c).
Proof.
  unfold RedisContextStorage.save, ContextCache.set. munfold.
  destruct (redis_call w) as [[[]|e] w0] eqn:E.
  - assert (Hc : clock w0 = clock w).
    { eapply (keeps_redis_call clock); eauto. }
    cbv beta iota. rewrite Hc. intros [= <-]. cbn.
    apply lookup_insert_eq.
  - cbv beta iota. discriminate.
Qed.

Lemma db_save_keeps_redis c : keeps redis_ctx (DatabaseContextStorage.save c).
Proof. keeps_tac. Qed.

Lemma hybrid_save_true c w w' :
  storage_save default_storage c w = (Ok true, w') ->
  redis_ctx w' !! context_id c = Some (clock w + 3600 * usec, c).
Proof.
  storage_unfold. unfold HybridContextStorage.save. storage_unfold.
  unfold bind at 1.
  destruct (RedisContextStorage.save 3600 c w) as [[cache_ok|e] w1] eqn:E1;
    [|discriminate].
  unfold bind at 1.
  destruct (DatabaseContextStorage.save c w1) as [[db_ok|e] w2] eqn:E2;
    [|discriminate].
  unfold ret. intros [= Hand <-].
  apply andb_true_iff in Hand as [-> ->].
  rewrite (db_save_keeps_redis _ _ _ _ E2).
  apply redis_save_true in E1. exact E1.
Qed.

Lemma redis_get_valid cid w c w1 :
  RedisContextStorage.get cid w = (Ok (Some c), w1) -> 1 <= max_messages c.
Proof.
  unfold RedisContextStorage.get, ContextCache.get, ContextCache._deserialize.
  munfold.
  destruct (redis_call w) as [[[]|e] w0]; cbv beta iota; [|discriminate].
  destruct (redis_ctx w0 !! cid) as [[expiry c0]|]; [|discriminate].
  destruct (expiry <=? clock w0); [discriminate|].
  destruct (1 <=? max_messages c0) eqn:H; cbv beta iota; [|discriminate].
  intros [= <- <-]. cbn. apply Z.leb_le. exact H.
Qed.

Lemma db_get_valid cid w c w1 :
  DatabaseContextStorage.get cid w = (Ok (Some c), w1) -> max_messages c = 200.
Proof.
  unfold DatabaseContextStorage.get, ContextRepository.get,
    ContextRepository._orm_to_model.
  munfold.
  destruct (db_session w) as [[[]|e] w0]; cbv beta iota; [|discriminate].
  destruct (contexts_tbl w0 !! cid) as [row|]; [|discriminate].
  intros [= <- <-]. reflexivity.
Qed.

Lemma hybrid_get_valid cid w c w1 :
  storage_get default_storage cid w = (Ok (Some c), w1) ->
  1 <= max_messages c.
Proof.
  storage_unfold. unfold HybridContextStorage.get. storage_unfold.
  unfold bind at 1.
  destruct (RedisContextStorage.get cid w) as [[[c1|]|e] w2] eqn:E1.
  - unfold ret. intros [= <- <-]. eapply redis_get_valid; eauto.
  - unfold bind at 1.
    destruct (DatabaseContextStorage.get cid w2) as [[[c2|]|e] w3] eqn:E2.
    + apply db_get_valid in E2. unfold bind, ret.
      destruct (RedisContextStorage.save 3600 c2 w3) as [[b|e] w4];
        [|discriminate].
      intros [= <- <-]. lia.
    + discriminate.
    + discriminate.
  - discriminate.
Qed.

Lemma hybrid_get_keeps_clock cid : keeps clock (storage_get default_storage cid).
Proof. keeps_tac. Qed.

Lemma repo_add_message_keeps_clock cid m :
  keeps clock (ContextRepository.add_message cid m).
Proof. keeps_tac. Qed.

(** C10, as amended. [get_messages] cuts the history down whenever
    [limit] is not zero and smaller than the length of the history. For a
    positive such [limit] the result is the last [limit] entries. With
    [limit = 0] the whole history is returned, as it is without a limit,
    and so it is when [limit] is not smaller than the length. A negative
    [limit] cuts as well: the result is the history without its first
    [- limit] entries, which is empty when the history has no more than
    that. The result is shorter than the history exactly when [limit] is
    not zero and smaller than the length of a history that is not
    empty. *)
Theorem get_messages_limit :
  forall storage cid w c w1,
    storage_get storage cid w = (Ok (Some c), w1) ->
    let ms := messages c in
    let n := Z.of_nat (length ms) in
    ContextManager.get_messages storage cid (Some 0) w = (Ok ms, w1) /\
    ContextManager.get_messages storage cid None w = (Ok ms, w1) /\
    (forall l, 0 < l < n ->
       ContextManager.get_messages storage cid (Some l) w
       = (Ok (drop (Z.to_nat (n - l)) ms), w1) /\
       Z.of_nat (length (drop (Z.to_nat (n - l)) ms)) = l) /\
    (forall l, n <= l ->
       ContextManager.get_messages storage cid (Some l) w = (Ok ms, w1)) /\
    (forall l, l < 0 ->
       ContextManager.get_messages storage cid (Some l) w
       = (Ok (drop (Z.to_nat (- l)) ms), w1) /\
       Z.of_nat (length (drop (Z.to_nat (- l)) ms)) = Z.max 0 (n + l)) /\
    (forall l res,
       ContextManager.get_messages storage cid (Some l) w = (Ok res, w1) ->
       (length res < length ms)%nat <-> l <> 0 /\ l < n /\ 0 < n).
Proof.
  intros storage cid w c w1 Hget ms n.
  unfold ContextManager.get_messages, ContextManager.get_context.
  unfold bind. rewrite Hget. fold ms. fold n.
  split; [reflexivity|]. split; [reflexivity|].
  split; [|split; [|split]].
  - intros l Hl.
    assert (H1 : (l =? 0) = false) by (apply Z.eqb_neq; lia).
    assert (H2 : (l <? n) = true) by (apply Z.ltb_lt; lia).
    rewrite H1, H2. cbn [negb andb]. unfold ret.
    rewrite slice_from_neg by lia. split; [reflexivity|].
    rewrite length_drop. subst n. lia.
  - intros l Hl.
    assert (H2 : (l <? n) = false) by (apply Z.ltb_ge; lia).
    rewrite H2, andb_false_r. reflexivity.
  - intros l Hl.
    assert (H1 : (l =? 0) = false) by (apply Z.eqb_neq; lia).
    assert (H2 : (l <? n) = true) by (apply Z.ltb_lt; subst n; lia).
    rewrite H1, H2. cbn [negb andb]. unfold ret, slice_from.
    assert (H3 : (- l <? 0) = false) by (apply Z.ltb_ge; lia).
    rewrite H3. split; [reflexivity|].
    rewrite length_drop. subst n. lia.
  - intros l res H.
    destruct (negb (l =? 0) && (l <? n)) eqn:Hc.
    + apply andb_true_iff in Hc as [Hc1 Hc2].
      apply negb_true_iff, Z.eqb_neq in Hc1. apply Z.ltb_lt in Hc2.
      unfold ret in H. injection H as <-. unfold slice_from.
      destruct (- l <? 0) eqn:Hs.
      * apply Z.ltb_lt in Hs. rewrite length_drop. subst n. lia.
      * apply Z.ltb_ge in Hs. rewrite length_drop. subst n. lia.
    + unfold ret in H. injection H as <-.
      apply andb_false_iff in Hc as [Hc|Hc].
      * apply negb_false_iff, Z.eqb_eq in Hc. lia.
      * apply Z.ltb_ge in Hc. lia.
Qed.

(** *** IntentRecognizer *)





Section RegexFacts.
Variable re_compile : string -> option (string -> bool).





End RegexFacts.




(** *** Dates *)

Lemma add_hours_fit t h w :
  hours_fit t h -> add_hours t h w = (Ok (t + h * 3600 * usec), w).
Proof. intros [H1 H2]. unfold add_hours. rewrite H1, H2. reflexivity. Qed.

Lemma add_hours_overflow t h w :
  is_timedelta (h * 3600 * usec) = false \/
  is_datetime (t + h * 3600 * usec) = false ->
  add_hours t h w = (Raise "OverflowError", w).
Proof.
  intros H. unfold add_hours.
  destruct H as [H|H]; rewrite H; rewrite ?andb_false_r; reflexivity.
Qed.

(** Between two datetimes lies a timedelta. *)
Lemma datetimes_fit t h :
  is_datetime t = true -> is_datetime (t + h * 3600 * usec) = true ->
  hours_fit t h.
Proof.
  intros Ht Hs. split; [|exact Hs].
  unfold is_datetime, DATETIME_MAX in *.
  apply andb_true_iff in Ht as [Ht1 Ht2].
  apply andb_true_iff in Hs as [Hs1 Hs2].
  apply Z.leb_le in Ht1, Ht2, Hs1, Hs2.
  unfold is_timedelta. apply Z.leb_le. unfold usec in *.
  set (d := h * 3600 * 1000000) in *.
  assert (Hlo : -3652059 <= d / (86400 * 1000000)).
  { apply Z.div_le_lower_bound; lia. }
  assert (Hhi : d / (86400 * 1000000) <= 3652059).
  { apply Z.div_le_upper_bound; lia. }
  lia.
Qed.

(** *** Conditions carried along *)

Section Preserves.
Context (P : World -> Prop).

Lemma preserves_ret {A} (a : A) : preserves P (ret a).
Proof. intros w r w' H [= <- <-]. exact H. Qed.

Lemma preserves_raise {A} e : preserves P (@raise A e).
Proof. intros w r w' H [= <- <-]. exact H. Qed.

Lemma preserves_gets {A} (f : World -> A) : preserves P (gets f).
Proof. intros w r w' H [= <- <-]. exact H. Qed.

Lemma preserves_lift {A} (x : result A) : preserves P (lift x).
Proof. intros w r w' H [= <- <-]. exact H. Qed.

Lemma preserves_now : preserves P now.
Proof. apply preserves_gets. Qed.

Lemma preserves_modify (f : World -> World) :
  (forall w, P w -> P (f w)) -> preserves P (modify f).
Proof. intros Hf w r w' H [= <- <-]. apply Hf. exact H. Qed.

Lemma preserves_bind {A B} (m : M A) (k : A -> M B) :
  preserves P m -> (forall a, preserves P (k a)) -> preserves P (bind m k).
Proof.
  intros Hm Hk w r w' H. unfold bind.
  destruct (m w) as [[a|e] w1] eqn:E; intros Hr.
  - eapply Hk; [|exact Hr]. eapply Hm; eauto.
  - injection Hr as <- <-. eapply Hm; eauto.
Qed.

Lemma preserves_try {A} (m : M A) (h : string -> M A) :
  preserves P m -> (forall e, preserves P (h e)) ->
  preserves P (try_except m h).
Proof.
  intros Hm Hh w r w' H. unfold try_except.
  destruct (m w) as [[a|e] w1] eqn:E; intros Hr.
  - injection Hr as <- <-. eapply Hm; eauto.
  - eapply Hh; [|exact Hr]. eapply Hm; eauto.
Qed.

Lemma preserves_db_session :
  (forall fs w, P w -> P (set_db_faults fs w)) -> preserves P db_session.
Proof.
  intros HP w r w' H. unfold db_session.
  destruct (db_faults w) as [|[] fs]; intros [= <- <-]; auto.
Qed.

Lemma preserves_redis_call :
  (forall fs w, P w -> P (set_cache_faults fs w)) -> preserves P redis_call.
Proof.
  intros HP w r w' H. unfold redis_call.
  destruct (cache_faults w) as [|[] fs]; intros [= <- <-]; auto.
Qed.

Lemma preserves_generate_uuid :
  (forall us w, P w -> P (set_uuids us w)) -> preserves P generate_uuid.
Proof.
  intros HP w r w' H. unfold generate_uuid.
  destruct (uuids w) as [|u us]; intros [= <- <-]; auto.
Qed.
End Preserves.

Lemma quiet_db_session : preserves quiet db_session.
Proof.
  intros w r w' [Hd Hc]. unfold db_session. rewrite Hd.
  intros [= <- <-]. split; assumption.
Qed.

Lemma quiet_redis_call : preserves quiet redis_call.
Proof.
  intros w r w' [Hd Hc]. unfold redis_call. rewrite Hc.
  intros [= <- <-]. split; assumption.
Qed.

(** The setters of the tables, the trackers and the identifier supply
    leave the fault schedules alone. *)
Ltac quiet_side :=
  let w := fresh "w" in
  let H := fresh "H" in
  intros;
  match goal with
  | H : quiet ?w |- quiet _ =>
      repeat match goal with
             | |- context [match ?x with _ => _ end] => destruct x
             end;
      try exact H; destruct H; split; assumption
  end.

Ltac quiet_step :=
  first
    [ apply preserves_ret | apply preserves_raise | apply preserves_now
    | apply preserves_gets | apply preserves_lift
    | apply quiet_db_session
    | apply quiet_redis_call
    | apply preserves_generate_uuid; quiet_side
    | apply preserves_modify; quiet_side
    | apply preserves_bind; [|intros ?]
    | apply preserves_try; [|intros ?]
    | match goal with
      | |- preserves _ (match ?x with _ => _ end) => destruct x
      | |- preserves _ (if ?b then _ else _) => destruct b
      | |- preserves _ (let _ := _ in _) => cbv zeta
      end
    | progress storage_unfold
    | progress autounfold with embed ].

Ltac quiet_tac := repeat quiet_step.

Lemma quiet_storage_get cid : preserves quiet (storage_get default_storage cid).
Proof. quiet_tac. Qed.

Lemma quiet_storage_save c : preserves quiet (storage_save default_storage c).
Proof. quiet_tac. Qed.

Lemma quiet_storage_delete cid :
  preserves quiet (storage_delete default_storage cid).
Proof. quiet_tac. Qed.

Lemma quiet_add_message cid a b c d e f :
  preserves quiet (ContextManager.add_message default_storage cid a b c d e f).
Proof. quiet_tac. Qed.

Lemma quiet_user_get uid : preserves quiet (UserRepository.get uid).
Proof. quiet_tac. Qed.

Lemma quiet_user_update u : preserves quiet (UserRepository.update u).
Proof. quiet_tac. Qed.

(** ** Further properties *)

(** *** TokenController *)

Lemma quota_model_idem uid t row :
  quota_model uid t (quota_model uid t row) = quota_model uid t row.
Proof.
  unfold quota_model, validate_minute_requests. cbn.
  rewrite filter_within_idem. reflexivity.
Qed.

Lemma after_get_quota_lookup uid row w :
  quotas_tbl w !! uid = Some row ->
  quotas_tbl (after_get_quota uid row w) !! uid
  = Some (stored_after_get uid row w).
Proof.
  intros Hrow. unfold after_get_quota, stored_after_get.
  destruct (reset_due (clock w) row) eqn:Hdue; [|exact Hrow].
  apply quota_updated_lookup; [|eauto].
  unfold after_lazy_reset. destruct (reset_due _ _); reflexivity.
Qed.

Lemma after_get_quota_table uid row w :
  quotas_tbl w !! uid = Some row ->
  quotas_tbl (after_get_quota uid row w)
  = <[uid := stored_after_get uid row w]> (quotas_tbl w).
Proof.
  intros Hrow. unfold after_get_quota, stored_after_get, quota_updated.
  destruct (reset_due (clock w) row) eqn:Hdue.
  - assert (Hid : q_user_id (after_lazy_reset (clock w)
                               (quota_model uid (clock w) row)) = uid).
    { unfold after_lazy_reset. destruct (reset_due _ _); reflexivity. }
    rewrite Hid, Hrow. reflexivity.
  - symmetry. apply insert_id. exact Hrow.
Qed.

Lemma stored_after_get_valid uid row w :
  TokenQuotaRepository.valid row = true ->
  TokenQuotaRepository.valid (stored_after_get uid row w) = true.
Proof.
  unfold stored_after_get, after_lazy_reset, TokenQuotaRepository.valid.
  change (reset_due (clock w) (quota_model uid (clock w) row))
    with (reset_due (clock w) row).
  destruct (reset_due (clock w) row); cbn; [|auto].
  intros H. repeat (apply andb_true_iff in H as [H ?]).
  repeat (apply andb_true_iff; split); auto.
Qed.

Lemma quota_model_stored uid row w :
  quota_model uid (clock w) (stored_after_get uid row w)
  = after_lazy_reset (clock w) (quota_model uid (clock w) row).
Proof.
  unfold stored_after_get, after_lazy_reset.
  change (reset_due (clock w) (quota_model uid (clock w) row))
    with (reset_due (clock w) row).
  destruct (reset_due (clock w) row); [|reflexivity].
  unfold quota_model, validate_minute_requests. cbn.
  rewrite filter_within_idem. reflexivity.
Qed.

Lemma stored_not_due uid row w :
  reset_due (clock w) (stored_after_get uid row w) = false.
Proof.
  unfold stored_after_get, after_lazy_reset.
  change (reset_due (clock w) (quota_model uid (clock w) row))
    with (reset_due (clock w) row).
  destruct (reset_due (clock w) row) eqn:Hdue; [|exact Hdue].
  unfold reset_due. cbn. apply Z.leb_gt. unfold usec. lia.
Qed.

Lemma check_quota_no_fault uid n w row :
  db_faults w = [] ->
  quotas_tbl w !! uid = Some row ->
  TokenQuotaRepository.valid row = true ->
  let q := after_lazy_reset (clock w) (quota_model uid (clock w) row) in
  TokenController.check_quota uid n w =
    (Ok (if remaining q <? n then
           (false, "配额不足，剩余 " +:+ pretty (remaining q) +:+ " Token")
         else if daily_remaining q <? n then
           (false, "今日配额不足，剩余 " +:+ pretty (daily_remaining q)
                   +:+ " Token")
         else if is_minute_limit_exceeded (clock w) row then
           (false, "请求过于频繁，请稍后再试")
         else (true, "")),
     after_get_quota uid row w).
Proof.
  intros Hf Hrow Hv q.
  unfold TokenController.check_quota. unfold bind at 1.
  rewrite (get_quota_no_fault _ _ _ Hf Hrow Hv). munfold.
  rewrite after_get_quota_clock, minute_limit_of_model. reflexivity.
Qed.

Lemma increment_used_no_fault uid n w row :
  db_faults w = [] ->
  quotas_tbl w !! uid = Some row ->
  TokenQuotaRepository.valid row = true ->
  TokenQuotaRepository.increment_used uid n w =
    (Ok (with_charge n (quota_model uid (clock w) row)),
     quota_updated (with_charge n (quota_model uid (clock w) row)) w).
Proof.
  intros Hf Hrow Hv.
  unfold TokenQuotaRepository.increment_used. unfold bind at 1.
  rewrite (quota_repo_get_no_fault _ _ Hf), Hrow, Hv.
  apply quota_repo_update_no_fault. exact Hf.
Qed.

Lemma record_request_no_fault q w :
  db_faults w = [] ->
  Forall (fun ts => within (clock w) 60 ts = true) (minute_requests q) ->
  TokenController._record_request q w =
    (Ok tt, quota_updated (with_request (clock w) q) w).
Proof.
  intros Hf Hall.
  unfold TokenController._record_request. munfold.
  rewrite quota_repo_update_no_fault by exact Hf.
  assert (Hfl : filter (fun ts => within (clock w) 60 ts = true)
                  (minute_requests q) = minute_requests q).
  { induction Hall as [|x l Hx Hl IH]; [reflexivity|].
    rewrite filter_cons_True by exact Hx. f_equal. exact IH. }
  rewrite Hfl. reflexivity.
Qed.

Lemma validated_within t (l : list Z) :
  Forall (fun ts => within t 60 ts = true) (validate_minute_requests t l).
Proof.
  unfold validate_minute_requests. apply Forall_forall.
  intros x Hx. apply list_elem_of_In in Hx.
  apply list_elem_of_In, list_elem_of_filter in Hx. tauto.
Qed.

Lemma after_lazy_reset_requests t q :
  minute_requests (after_lazy_reset t q) = minute_requests q.
Proof. unfold after_lazy_reset. destruct (reset_due _ _); reflexivity. Qed.

Lemma after_lazy_reset_id t q :
  q_user_id (after_lazy_reset t q) = q_user_id q.
Proof. unfold after_lazy_reset. destruct (reset_due _ _); reflexivity. Qed.

Lemma consume_granted w uid n row :
  db_faults w = [] ->
  quotas_tbl w !! uid = Some row ->
  TokenQuotaRepository.valid row = true ->
  let q := after_lazy_reset (clock w) (quota_model uid (clock w) row) in
  n <= remaining q ->
  n <= daily_remaining q ->
  is_minute_limit_exceeded (clock w) row = false ->
  exists w',
    TokenController.consume uid n w = (Ok true, w') /\
    quotas_tbl w'
    = <[uid := with_request (clock w) (with_charge n q)]> (quotas_tbl w) /\
    db_faults w' = [] /\ clock w' = clock w.
Proof.
  intros Hf Hrow Hv q Hrem Hday Hmin.
  unfold TokenController.consume. unfold bind at 1.
  rewrite (check_quota_no_fault _ _ _ _ Hf Hrow Hv). fold q.
  assert (H1 : (remaining q <? n) = false) by (apply Z.ltb_ge; lia).
  assert (H2 : (daily_remaining q <? n) = false) by (apply Z.ltb_ge; lia).
  rewrite H1, H2, Hmin. cbn [fst negb].
  set (w1 := after_get_quota uid row w).
  assert (Hf1 : db_faults w1 = []) by (apply after_get_quota_no_fault; auto).
  assert (Hc1 : clock w1 = clock w) by apply after_get_quota_clock.
  assert (Hrow1 : quotas_tbl w1 !! uid = Some (stored_after_get uid row w))
    by (apply after_get_quota_lookup; auto).
  unfold bind at 1.
  rewrite (increment_used_no_fault _ _ _ _ Hf1 Hrow1
             (stored_after_get_valid _ _ _ Hv)).
  rewrite Hc1, quota_model_stored. fold q.
  set (w2 := quota_updated (with_charge n q) w1).
  assert (Hf2 : db_faults w2 = []) by (apply quota_updated_no_fault; auto).
  assert (Hc2 : clock w2 = clock w).
  { unfold w2. rewrite quota_updated_clock. exact Hc1. }
  assert (Hid : q_user_id q = uid).
  { unfold q. rewrite after_lazy_reset_id. reflexivity. }
  unfold bind at 1. rewrite record_request_no_fault; [|exact Hf2|].
  2: { cbn [minute_requests with_charge]. rewrite Hc2. unfold q.
       rewrite after_lazy_reset_requests. apply validated_within. }
  rewrite Hc2. unfold ret. eexists. split; [reflexivity|].
  split; [|split].
  - unfold w2, quota_updated.
    cbn [q_user_id with_request with_charge]. rewrite Hid.
    rewrite Hrow1. cbn [quotas_tbl set_quotas].
    rewrite lookup_insert_eq. cbn [quotas_tbl set_quotas].
    unfold w1. rewrite (after_get_quota_table _ _ _ Hrow).
    rewrite !insert_insert_eq. reflexivity.
  - apply quota_updated_no_fault. exact Hf2.
  - rewrite quota_updated_clock. exact Hc2.
Qed.

(** X1. With no storage fault, a [consume] that passes the three tests
    of [check_quota] answers True and leaves in the quota table exactly
    the record [get_quota] handed out with [n] added to [used] and to
    [daily_used] and the present time appended to the pruned minute
    window; the rows of the other users are untouched. *)
Theorem consume_charges_exactly :
  forall w uid n row,
    db_faults w = [] ->
    quotas_tbl w !! uid = Some row ->
    TokenQuotaRepository.valid row = true ->
    let q := after_lazy_reset (clock w) (quota_model uid (clock w) row) in
    n <= remaining q ->
    n <= daily_remaining q ->
    is_minute_limit_exceeded (clock w) row = false ->
    exists w',
      TokenController.consume uid n w = (Ok true, w') /\
      quotas_tbl w'
      = <[uid := with_request (clock w) (with_charge n q)]> (quotas_tbl w) /\
      (forall u, u <> uid -> quotas_tbl w' !! u = quotas_tbl w !! u).
Proof.
  intros w uid n row Hf Hrow Hv q Hrem Hday Hmin.
  destruct (consume_granted w uid n row Hf Hrow Hv Hrem Hday Hmin)
    as (w' & Hc & Htbl & _ & _).
  exists w'. split; [exact Hc|]. split; [exact Htbl|].
  intros u Hu. rewrite Htbl. apply lookup_insert_ne. congruence.
Qed.

Lemma invalid_row_raises uid w row :
  db_faults w = [] ->
  quotas_tbl w !! uid = Some row ->
  TokenQuotaRepository.valid row = false ->
  TokenController.get_quota uid w = (Raise "ValidationError", w).
Proof.
  intros Hf Hrow Hv. unfold TokenController.get_quota. unfold bind at 1.
  rewrite (quota_repo_get_no_fault _ _ Hf), Hrow, Hv. reflexivity.
Qed.

Lemma storable_fields q :
  storable q = true <->
  is_int64 (total_quota q) = true /\ is_int64 (used q) = true /\
  is_int64 (daily_limit q) = true /\ is_int64 (daily_used q) = true /\
  is_int64 (minute_limit q) = true.
Proof. unfold storable. rewrite !andb_true_iff. tauto. Qed.

Lemma is_int64_spec z : is_int64 z = true <-> - 2 ^ 63 <= z < 2 ^ 63.
Proof. unfold is_int64. rewrite andb_true_iff, Z.leb_le, Z.ltb_lt. tauto. Qed.

Lemma valid_fields q :
  TokenQuotaRepository.valid q = true ->
  0 <= total_quota q /\ 0 <= used q /\ 0 <= daily_limit q /\
  0 <= daily_used q /\ 1 <= minute_limit q.
Proof.
  unfold TokenQuotaRepository.valid. rewrite !andb_true_iff, !Z.leb_le. tauto.
Qed.

(** The record [get_quota] returns fits the columns when the row does. *)
Lemma after_lazy_reset_storable uid t row :
  storable row = true ->
  storable (after_lazy_reset t (quota_model uid t row)) = true.
Proof.
  intros Hs. apply storable_fields in Hs.
  destruct Hs as (H1 & H2 & H3 & H4 & H5).
  apply storable_fields. unfold after_lazy_reset.
  destruct (reset_due _ _); cbn; repeat split; auto.
Qed.

(** X2. [consume] accepts a negative amount: it passes every test of
    [check_quota], and when it drives [used] below zero the row it writes
    no longer satisfies the constraints of the model, so that every later
    [get_quota] for this user raises a validation error, at whatever time
    it is made. This is for a row and an amount within the range of the
    INTEGER columns (signed 64-bit): the numbers written are then within
    that range as well, so the database takes the write. *)
Theorem consume_negative_poisons_row :
  forall w uid n row,
    db_faults w = [] ->
    quotas_tbl w !! uid = Some row ->
    TokenQuotaRepository.valid row = true ->
    storable row = true ->
    is_minute_limit_exceeded (clock w) row = false ->
    - 2 ^ 63 <= n < 0 ->
    used row + n < 0 ->
    exists w' row',
      TokenController.consume uid n w = (Ok true, w') /\
      quotas_tbl w' !! uid = Some row' /\
      storable row' = true /\ used row' = used row + n /\
      forall t,
        TokenController.get_quota uid (set_clock t w')
        = (Raise "ValidationError", set_clock t w').
Proof.
  intros w uid n row Hf Hrow Hv Hs Hmin Hn Hneg.
  destruct (consume_granted w uid n row Hf Hrow Hv) as (w' & Hc & Htbl & Hf' & _).
  - unfold remaining. lia.
  - unfold daily_remaining. lia.
  - exact Hmin.
  - assert (Hu : used (after_lazy_reset (clock w)
                        (quota_model uid (clock w) row)) = used row).
    { unfold after_lazy_reset. destruct (reset_due _ _); reflexivity. }
    set (q := after_lazy_reset (clock w) (quota_model uid (clock w) row)) in *.
    exists w', (with_request (clock w) (with_charge n q)).
    split; [exact Hc|].
    split; [rewrite Htbl; apply lookup_insert_eq|].
    split; [|split].
    + pose proof (after_lazy_reset_storable uid (clock w) row Hs) as Hq.
      fold q in Hq. apply storable_fields in Hq.
      destruct Hq as (H1 & H2 & H3 & H4 & H5).
      assert (Hd : 0 <= daily_used q).
      { unfold q, after_lazy_reset. apply valid_fields in Hv.
        destruct (reset_due _ _); cbn; lia. }
      apply valid_fields in Hv.
      apply is_int64_spec in H2, H4.
      apply storable_fields. cbn [total_quota used daily_limit daily_used
                                  minute_limit with_request with_charge].
      repeat split; auto; apply is_int64_spec; rewrite ?Hu in *; lia.
    + cbn [used with_request with_charge]. rewrite Hu. reflexivity.
    + intros t. eapply invalid_row_raises.
      * exact Hf'.
      * cbn [quotas_tbl set_clock]. rewrite Htbl. apply lookup_insert_eq.
      * unfold TokenQuotaRepository.valid.
        cbn [used with_request with_charge]. rewrite Hu.
        assert (H0 : (0 <=? used row + n) = false) by (apply Z.leb_gt; lia).
        rewrite H0. rewrite andb_false_r. reflexivity.
Qed.

Lemma get_quota_again uid w row :
  db_faults w = [] ->
  quotas_tbl w !! uid = Some row ->
  TokenQuotaRepository.valid row = true ->
  TokenController.get_quota uid (after_get_quota uid row w)
  = (Ok (after_lazy_reset (clock w) (quota_model uid (clock w) row)),
     after_get_quota uid row w).
Proof.
  intros Hf Hrow Hv.
  rewrite (get_quota_no_fault uid _ (stored_after_get uid row w)).
  - rewrite after_get_quota_clock, quota_model_stored.
    assert (Hnd : reset_due (clock w) (stored_after_get uid row w) = false)
      by apply stored_not_due.
    f_equal.
    + f_equal. unfold after_lazy_reset at 1.
      replace (reset_due (clock w)
                 (after_lazy_reset (clock w) (quota_model uid (clock w) row)))
        with (reset_due (clock w) (stored_after_get uid row w)).
      * rewrite Hnd. reflexivity.
      * rewrite <- quota_model_stored. reflexivity.
    + unfold after_get_quota at 1. rewrite after_get_quota_clock, Hnd.
      reflexivity.
  - apply after_get_quota_no_fault. exact Hf.
  - apply after_get_quota_lookup. exact Hrow.
  - apply stored_after_get_valid. exact Hv.
Qed.

Lemma get_quota_unknown uid w :
  db_faults w = [] ->
  quotas_tbl w !! uid = None ->
  TokenController.get_quota uid w
  = (Ok (default_quota uid (clock w)),
     set_quotas (<[uid := default_quota uid (clock w)]> (quotas_tbl w)) w).
Proof.
  intros Hf Hrow. unfold TokenController.get_quota. unfold bind at 1.
  rewrite (quota_repo_get_no_fault _ _ Hf), Hrow.
  unfold TokenController._create_default_quota, TokenQuotaRepository.create,
    TokenQuotaRepository._orm_to_model. munfold.
  rewrite (db_session_no_fault _ Hf). reflexivity.
Qed.

Lemma default_quota_again uid w :
  db_faults w = [] ->
  let w1 := set_quotas (<[uid := default_quota uid (clock w)]> (quotas_tbl w)) w in
  TokenController.get_quota uid w1 = (Ok (default_quota uid (clock w)), w1).
Proof.
  intros Hf w1.
  rewrite (get_quota_no_fault uid w1 (default_quota uid (clock w))).
  - assert (Hnd : reset_due (clock w1) (default_quota uid (clock w)) = false).
    { unfold reset_due. cbn. apply Z.leb_gt. unfold usec. lia. }
    unfold after_get_quota, after_lazy_reset.
    change (reset_due (clock w1)
              (quota_model uid (clock w1) (default_quota uid (clock w))))
      with (reset_due (clock w1) (default_quota uid (clock w))).
    rewrite Hnd. reflexivity.
  - exact Hf.
  - cbn. apply lookup_insert_eq.
  - reflexivity.
Qed.

(** X3. With no storage fault, [get_quota] is idempotent: the creation
    of the default record and the lazy daily reset happen at most once,
    so that a second call in the world the first one left returns the
    same record and writes nothing. *)
Theorem get_quota_idempotent :
  forall w uid q w1,
    db_faults w = [] ->
    TokenController.get_quota uid w = (Ok q, w1) ->
    TokenController.get_quota uid w1 = (Ok q, w1).
Proof.
  intros w uid q w1 Hf Hq.
  destruct (quotas_tbl w !! uid) as [row|] eqn:Hrow.
  - destruct (TokenQuotaRepository.valid row) eqn:Hv.
    + rewrite (get_quota_no_fault _ _ _ Hf Hrow Hv) in Hq.
      injection Hq as <- <-. apply get_quota_again; assumption.
    + rewrite (invalid_row_raises _ _ _ Hf Hrow Hv) in Hq. discriminate.
  - rewrite (get_quota_unknown _ _ Hf Hrow) in Hq.
    injection Hq as <- <-. apply default_quota_again. exact Hf.
Qed.

Lemma db_session_pass w fs :
  db_faults w = false :: fs -> db_session w = (Ok tt, set_db_faults fs w).
Proof. unfold db_session. intros ->. reflexivity. Qed.

Lemma db_session_fault w fs :
  db_faults w = true :: fs ->
  db_session w = (Raise "database error", set_db_faults fs w).
Proof. unfold db_session. intros ->. reflexivity. Qed.

Lemma quota_repo_get_pass uid w fs :
  db_faults w = false :: fs ->
  TokenQuotaRepository.get uid w =
    match quotas_tbl w !! uid with
    | None => (Ok None, set_db_faults fs w)
    | Some row => if TokenQuotaRepository.valid row
                  then (Ok (Some (quota_model uid (clock w) row)),
                        set_db_faults fs w)
                  else (Raise "ValidationError", set_db_faults fs w)
    end.
Proof.
  intros H. unfold TokenQuotaRepository.get, TokenQuotaRepository._orm_to_model.
  munfold. rewrite (db_session_pass _ _ H). cbn [quotas_tbl set_db_faults].
  destruct (quotas_tbl w !! uid) as [row|]; [|reflexivity].
  destruct (TokenQuotaRepository.valid row); reflexivity.
Qed.

Lemma quota_repo_update_pass q w fs :
  db_faults w = false :: fs ->
  TokenQuotaRepository.update q w
  = (Ok q, quota_updated q (set_db_faults fs w)).
Proof.
  intros H. unfold TokenQuotaRepository.update. munfold.
  rewrite (db_session_pass _ _ H). reflexivity.
Qed.

Lemma quota_repo_update_fault q w fs :
  db_faults w = true :: fs ->
  TokenQuotaRepository.update q w
  = (Raise "database error", set_db_faults fs w).
Proof.
  intros H. unfold TokenQuotaRepository.update. munfold.
  rewrite (db_session_fault _ _ H). reflexivity.
Qed.

(** X4. [consume] is not atomic. When the database answers the three
    calls that read the record and write the charge but fails on the
    fourth, which logs the request, [consume] raises although the [n]
    tokens are already charged in the stored row; the request is missing
    from the minute window. *)
Theorem consume_charged_but_raises :
  forall w uid n row fs,
    db_faults w = false :: false :: false :: true :: fs ->
    quotas_tbl w !! uid = Some row ->
    TokenQuotaRepository.valid row = true ->
    reset_due (clock w) row = false ->
    n <= remaining row ->
    n <= daily_remaining row ->
    is_minute_limit_exceeded (clock w) row = false ->
    exists w',
      TokenController.consume uid n w = (Raise "database error", w') /\
      quotas_tbl w'
      = <[uid := with_charge n (quota_model uid (clock w) row)]> (quotas_tbl w) /\
      db_faults w' = fs.
Proof.
  intros w uid n row fs Hf Hrow Hv Hdue Hrem Hday Hmin.
  set (q := quota_model uid (clock w) row).
  set (w1 := set_db_faults (false :: false :: true :: fs) w).
  assert (Hget : TokenController.get_quota uid w = (Ok q, w1)).
  { unfold TokenController.get_quota. unfold bind at 1.
    rewrite (quota_repo_get_pass _ _ _ Hf), Hrow, Hv.
    unfold TokenController._check_and_reset_daily. munfold.
    cbn [daily_reset quota_model clock set_db_faults].
    unfold reset_due in Hdue. rewrite Hdue. reflexivity. }
  assert (Hchk : TokenController.check_quota uid n w = (Ok (true, ""), w1)).
  { unfold TokenController.check_quota. unfold bind at 1. rewrite Hget.
    munfold. cbn [clock w1 set_db_faults].
    assert (H1 : (remaining q <? n) = false) by (apply Z.ltb_ge; exact Hrem).
    assert (H2 : (daily_remaining q <? n) = false)
      by (apply Z.ltb_ge; exact Hday).
    assert (H3 : is_minute_limit_exceeded (clock w) q
                 = is_minute_limit_exceeded (clock w) row).
    { unfold is_minute_limit_exceeded, q. cbn [minute_requests quota_model
        minute_limit]. unfold validate_minute_requests.
      rewrite filter_within_idem. reflexivity. }
    rewrite H1, H2, H3, Hmin. reflexivity. }
  set (w2 := set_db_faults (false :: true :: fs) w1).
  set (w3 := quota_updated (with_charge n q) (set_db_faults (true :: fs) w2)).
  assert (Hinc : TokenQuotaRepository.increment_used uid n w1
                 = (Ok (with_charge n q), w3)).
  { unfold TokenQuotaRepository.increment_used. unfold bind at 1.
    rewrite (quota_repo_get_pass uid w1 (false :: true :: fs) eq_refl).
    cbn [quotas_tbl w1 set_db_faults clock]. rewrite Hrow, Hv.
    apply (quota_repo_update_pass _ _ (true :: fs)). reflexivity. }
  assert (Hf3 : db_faults w3 = true :: fs).
  { unfold w3, quota_updated. destruct (_ !! _); reflexivity. }
  assert (Hrec : forall q', TokenController._record_request q' w3
                 = (Raise "database error", set_db_faults fs w3)).
  { intros q'. unfold TokenController._record_request. munfold.
    rewrite (quota_repo_update_fault _ _ _ Hf3). reflexivity. }
  exists (set_db_faults fs w3). split; [|split].
  - unfold TokenController.consume. unfold bind at 1. rewrite Hchk.
    cbn [fst negb]. unfold bind at 1. rewrite Hinc.
    unfold bind. rewrite Hrec. reflexivity.
  - cbn [quotas_tbl set_db_faults]. unfold w3, quota_updated.
    cbn [quotas_tbl set_db_faults w2 w1 q_user_id with_charge q quota_model].
    rewrite Hrow. reflexivity.
  - reflexivity.
Qed.

(** The administration functions: read with [get_quota], change a field,
    write the record back. *)
Lemma admin_write uid w row (f : TokenQuota -> TokenQuota) :
  db_faults w = [] ->
  quotas_tbl w !! uid = Some row ->
  TokenQuotaRepository.valid row = true ->
  (forall q, q_user_id (f q) = q_user_id q) ->
  let q := after_lazy_reset (clock w) (quota_model uid (clock w) row) in
  exists w',
    (quota <- TokenController.get_quota uid ;;
     TokenQuotaRepository.update (f quota) ;;; ret true) w = (Ok true, w') /\
    quotas_tbl w' = <[uid := f q]> (quotas_tbl w) /\
    db_faults w' = [] /\ clock w' = clock w.
Proof.
  intros Hf Hrow Hv Hid q.
  unfold bind at 1. rewrite (get_quota_no_fault _ _ _ Hf Hrow Hv). fold q.
  unfold bind, ret.
  rewrite quota_repo_update_no_fault
    by (apply after_get_quota_no_fault; exact Hf).
  eexists. split; [reflexivity|]. split; [|split].
  - unfold quota_updated. rewrite Hid.
    assert (Hq : q_user_id q = uid).
    { unfold q. rewrite after_lazy_reset_id. reflexivity. }
    rewrite Hq, (after_get_quota_lookup _ _ _ Hrow).
    cbn [quotas_tbl set_quotas].
    rewrite (after_get_quota_table _ _ _ Hrow), insert_insert_eq.
    reflexivity.
  - apply quota_updated_no_fault, after_get_quota_no_fault. exact Hf.
  - rewrite quota_updated_clock. apply after_get_quota_clock.
Qed.

(** X5. The administration functions write what they are given without
    validating it: a minute limit below 1, a negative daily limit or an
    addition that makes the total quota negative is stored, the call
    answers True, and from then on every [get_quota] for the user raises
    a validation error. This is for a row within the range of the INTEGER
    columns (signed 64-bit) and a new number within that range: the record
    written then fits the columns, so the database takes the write. *)
Theorem unvalidated_limit_locks_record :
  forall w uid row,
    db_faults w = [] ->
    quotas_tbl w !! uid = Some row ->
    TokenQuotaRepository.valid row = true ->
    storable row = true ->
    (forall limit, - 2 ^ 63 <= limit < 1 ->
       exists w' row',
         TokenControllerMore.set_minute_limit uid limit w = (Ok true, w') /\
         quotas_tbl w' !! uid = Some row' /\
         storable row' = true /\ minute_limit row' = limit /\
         forall t, TokenController.get_quota uid (set_clock t w')
                   = (Raise "ValidationError", set_clock t w')) /\
    (forall limit, - 2 ^ 63 <= limit < 0 ->
       exists w' row',
         TokenControllerMore.set_daily_limit uid limit w = (Ok true, w') /\
         quotas_tbl w' !! uid = Some row' /\
         storable row' = true /\ daily_limit row' = limit /\
         forall t, TokenController.get_quota uid (set_clock t w')
                   = (Raise "ValidationError", set_clock t w')) /\
    (forall amount, - 2 ^ 63 <= total_quota row + amount < 0 ->
       exists w' row',
         TokenControllerMore.add_quota uid amount w = (Ok true, w') /\
         quotas_tbl w' !! uid = Some row' /\
         storable row' = true /\
         total_quota row' = total_quota row + amount /\
         forall t, TokenController.get_quota uid (set_clock t w')
                   = (Raise "ValidationError", set_clock t w')).
Proof.
  intros w uid row Hf Hrow Hv Hs.
  assert (Htot : forall t q, total_quota (after_lazy_reset t q) = total_quota q).
  { intros t q. unfold after_lazy_reset. destruct (reset_due _ _); reflexivity. }
  pose proof (after_lazy_reset_storable uid (clock w) row Hs) as Hq.
  apply storable_fields in Hq. destruct Hq as (H1 & H2 & H3 & H4 & H5).
  set (q := after_lazy_reset (clock w) (quota_model uid (clock w) row)) in *.
  split; [|split].
  - intros limit Hl.
    destruct (admin_write uid w row (with_minute_limit limit) Hf Hrow Hv)
      as (w' & Hrun & Htbl & Hf' & _); [reflexivity|].
    exists w', (with_minute_limit limit q). split; [exact Hrun|].
    split; [rewrite Htbl; apply lookup_insert_eq|].
    split; [|split; [reflexivity|]].
    { apply storable_fields. cbn. repeat split; auto.
      apply is_int64_spec. lia. }
    intros t.
    eapply invalid_row_raises; [exact Hf'| |].
    + cbn [quotas_tbl set_clock]. rewrite Htbl. apply lookup_insert_eq.
    + unfold TokenQuotaRepository.valid. cbn [minute_limit with_minute_limit].
      assert (H0 : (1 <=? limit) = false) by (apply Z.leb_gt; lia).
      rewrite H0. apply andb_false_r.
  - intros limit Hl.
    destruct (admin_write uid w row (with_daily_limit limit) Hf Hrow Hv)
      as (w' & Hrun & Htbl & Hf' & _); [reflexivity|].
    exists w', (with_daily_limit limit q). split; [exact Hrun|].
    split; [rewrite Htbl; apply lookup_insert_eq|].
    split; [|split; [reflexivity|]].
    { apply storable_fields. cbn. repeat split; auto.
      apply is_int64_spec. lia. }
    intros t.
    eapply invalid_row_raises; [exact Hf'| |].
    + cbn [quotas_tbl set_clock]. rewrite Htbl. apply lookup_insert_eq.
    + unfold TokenQuotaRepository.valid. cbn [daily_limit with_daily_limit].
      assert (H0 : (0 <=? limit) = false) by (apply Z.leb_gt; lia).
      rewrite H0. rewrite andb_false_r. reflexivity.
  - intros amount Ha.
    destruct (admin_write uid w row
                (fun q => with_total_quota (total_quota q + amount) q)
                Hf Hrow Hv)
      as (w' & Hrun & Htbl & Hf' & _); [reflexivity|].
    assert (Hq : total_quota q = total_quota row).
    { unfold q. rewrite Htot. reflexivity. }
    exists w', (with_total_quota (total_quota q + amount) q).
    split; [exact Hrun|].
    split; [rewrite Htbl; apply lookup_insert_eq|].
    split; [|split; [cbn [total_quota with_total_quota]; rewrite Hq;
                     reflexivity|]].
    { apply storable_fields.
      cbn [total_quota used daily_limit daily_used minute_limit
           with_total_quota].
      repeat split; auto. apply is_int64_spec. rewrite Hq. lia. }
    intros t.
    eapply invalid_row_raises; [exact Hf'| |].
    + cbn [quotas_tbl set_clock]. rewrite Htbl. apply lookup_insert_eq.
    + unfold TokenQuotaRepository.valid.
      cbn [total_quota with_total_quota]. fold q. rewrite Hq.
      assert (H0 : (0 <=? total_quota row + amount) = false)
        by (apply Z.leb_gt; lia).
      rewrite H0. reflexivity.
Qed.

(** X6. With no storage fault, [reset_user] clears [used], [daily_used]
    and the minute window and keeps the limits: right after it,
    [check_quota] grants every amount that does not exceed the total quota
    and the daily limit. *)
Theorem reset_user_restores_budget :
  forall w uid row,
    db_faults w = [] ->
    quotas_tbl w !! uid = Some row ->
    TokenQuotaRepository.valid row = true ->
    exists w',
      TokenControllerMore.reset_user uid w = (Ok true, w') /\
      (exists row', quotas_tbl w' !! uid = Some row' /\
         used row' = 0 /\ daily_used row' = 0 /\ minute_requests row' = [] /\
         total_quota row' = total_quota row /\
         daily_limit row' = daily_limit row /\
         minute_limit row' = minute_limit row) /\
      forall n, n <= total_quota row -> n <= daily_limit row ->
        TokenController.check_quota uid n w' = (Ok (true, ""), w').
Proof.
  intros w uid row Hf Hrow Hv.
  destruct (admin_write uid w row reset_record Hf Hrow Hv)
    as (w' & Hrun & Htbl & Hf' & Hclk); [reflexivity|].
  set (q := after_lazy_reset (clock w) (quota_model uid (clock w) row)) in *.
  assert (Hfields : total_quota q = total_quota row /\
                    daily_limit q = daily_limit row /\
                    minute_limit q = minute_limit row /\
                    reset_due (clock w) q = false).
  { unfold q, after_lazy_reset.
    change (reset_due (clock w) (quota_model uid (clock w) row))
      with (reset_due (clock w) row).
    destruct (reset_due (clock w) row) eqn:Hdue; cbn; repeat split; auto.
    unfold reset_due. cbn. apply Z.leb_gt. unfold usec. lia. }
  destruct Hfields as (Ht & Hd & Hm & Hnd).
  assert (Hlk : quotas_tbl w' !! uid = Some (reset_record q)).
  { rewrite Htbl. apply lookup_insert_eq. }
  assert (Hv' : TokenQuotaRepository.valid (reset_record q) = true).
  { unfold TokenQuotaRepository.valid in *. cbn. rewrite Ht, Hd, Hm.
    repeat (apply andb_true_iff in Hv as [Hv ?]).
    repeat (apply andb_true_iff; split); auto. }
  exists w'. split; [exact Hrun|]. split.
  - exists (reset_record q). cbn. repeat split; auto.
  - intros n Hn1 Hn2.
    rewrite (check_quota_no_fault _ _ _ _ Hf' Hlk Hv').
    assert (Hnd' : reset_due (clock w') (reset_record q) = false).
    { rewrite Hclk. exact Hnd. }
    unfold after_get_quota, after_lazy_reset.
    change (reset_due (clock w')
              (quota_model uid (clock w') (reset_record q)))
      with (reset_due (clock w') (reset_record q)).
    rewrite Hnd'. unfold remaining, daily_remaining, is_minute_limit_exceeded.
    cbn. rewrite Ht, Hd, Hm.
    assert (H1 : (Z.max 0 (total_quota row - 0) <? n) = false)
      by (apply Z.ltb_ge; lia).
    assert (H2 : (Z.max 0 (daily_limit row - 0) <? n) = false)
      by (apply Z.ltb_ge; lia).
    assert (H3 : (minute_limit row <=? 0) = false).
    { apply Z.leb_gt. unfold TokenQuotaRepository.valid in Hv.
      apply andb_true_iff in Hv as [_ Hv]. apply Z.leb_le in Hv. lia. }
    rewrite H1, H2. change (Z.of_nat 0) with 0. rewrite H3. reflexivity.
Qed.

(** *** BanManager: bans *)

Lemma latest_some l : l <> [] -> BanRecordRepository.latest l <> None.
Proof.
  destruct l as [|x l]; [congruence|]. intros _. cbn.
  destruct (BanRecordRepository.latest l) as [r'|]; [|discriminate].
  destruct (started_at x <? started_at r'); discriminate.
Qed.

Lemma is_banned_when_selected uid w r :
  db_faults w = [] ->
  In r (bans_tbl w) ->
  BanRecordRepository.selected uid (clock w) r = true ->
  BanManager.is_banned uid w = (Ok true, w).
Proof.
  intros Hf Hin Hsel.
  unfold BanManager.is_banned. unfold bind.
  rewrite (check_ban_status_no_fault _ _ Hf). unfold ret. f_equal. f_equal.
  apply bool_decide_eq_true_2. unfold active_ban. apply latest_some.
  intros Hnil.
  assert (H : In r (List.filter (BanRecordRepository.selected uid (clock w))
                      (bans_tbl w))) by (apply filter_In; auto).
  rewrite Hnil in H. destruct H.
Qed.

Lemma filter_none {A} (p : A -> bool) (l : list A) :
  (forall x, In x l -> p x = false) -> List.filter p l = [].
Proof.
  induction l as [|x l IH]; intros H; [reflexivity|].
  cbn. rewrite (H x (or_introl eq_refl)). apply IH.
  intros y Hy. apply H. right. exact Hy.
Qed.

Lemma is_banned_when_none_selected uid w :
  db_faults w = [] ->
  (forall r, In r (bans_tbl w) ->
             BanRecordRepository.selected uid (clock w) r = false) ->
  BanManager.is_banned uid w = (Ok false, w).
Proof.
  intros Hf Hnone.
  unfold BanManager.is_banned. unfold bind.
  rewrite (check_ban_status_no_fault _ _ Hf). unfold active_ban.
  rewrite (filter_none _ _ Hnone). reflexivity.
Qed.

Lemma user_repo_get_no_fault uid w :
  db_faults w = [] ->
  UserRepository.get uid w
  = (Ok (UserRepository._orm_to_model uid <$> users_tbl w !! uid), w).
Proof.
  intros Hf. unfold UserRepository.get. munfold.
  rewrite (db_session_no_fault _ Hf). reflexivity.
Qed.

Lemma set_banned_flag_no_fault uid flag w :
  db_faults w = [] ->
  exists w',
    BanManagerMore.set_banned_flag uid flag w = (Ok tt, w') /\
    db_faults w' = [] /\ clock w' = clock w /\ bans_tbl w' = bans_tbl w /\
    trackers_of uid w' = trackers_of uid w /\
    user_requests w' = user_requests w /\
    user_messages w' = user_messages w /\
    user_content w' = user_content w /\
    (forall u, users_tbl w !! uid = Some u ->
       is_banned <$> users_tbl w' !! uid = Some flag).
Proof.
  intros Hf. unfold BanManagerMore.set_banned_flag. unfold bind at 1.
  rewrite (user_repo_get_no_fault _ _ Hf).
  destruct (users_tbl w !! uid) as [u|] eqn:Hu; cbn [fmap option_fmap option_map].
  - unfold UserRepository.update. munfold.
    rewrite (db_session_no_fault _ Hf).
    cbn [user_id with_banned UserRepository._orm_to_model]. rewrite Hu.
    eexists. split; [reflexivity|]. cbn. repeat split; auto.
    intros u' _. rewrite lookup_insert_eq. reflexivity.
  - exists w. unfold ret. repeat split; auto. intros u' Hu'. discriminate.
Qed.

(** The expiry date of [ban_user]. *)
Lemma ban_expiry_fit btype dur t w :
  (btype = TEMPORARY -> hours_fit t (default 1 dur)) ->
  (if bool_decide (btype = TEMPORARY)
   then e <- add_hours t (default 1 dur) ;; ret (Some e)
   else ret None) w
  = (Ok (if bool_decide (btype = TEMPORARY)
         then Some (t + default 1 dur * 3600 * usec) else None), w).
Proof.
  intros Hfit. destruct (bool_decide (btype = TEMPORARY)) eqn:Hb.
  - apply bool_decide_eq_true in Hb. unfold bind.
    rewrite (add_hours_fit _ _ _ (Hfit Hb)). reflexivity.
  - reflexivity.
Qed.

(** X7. With no storage fault, [ban_user] appends one record that starts
    now, sets the banned flag of the user when the user has a row, and
    clears the three tracking windows of that user only, provided the
    expiry date of a TEMPORARY ban, [now + duration_hours] (one hour when
    no duration is given), exists as a datetime. From then on [is_banned]
    answers True at every time for a PERMANENT ban and at every time
    before the expiry date for a TEMPORARY one, whatever other records
    there are. When the expiry date of a TEMPORARY ban is out of range,
    [ban_user] raises and nothing has changed. *)
Theorem ban_user_takes_effect :
  forall w uid rsn btype dur dtl,
    (db_faults w = [] ->
     (btype = TEMPORARY -> hours_fit (clock w) (default 1 dur)) ->
     let rec := ban_record_of uid rsn btype dur dtl (clock w) in
     exists w',
       BanManagerMore.ban_user uid rsn btype dur dtl w = (Ok rec, w') /\
       bans_tbl w' = (bans_tbl w ++ [rec])%list /\
       (forall u, users_tbl w !! uid = Some u ->
          is_banned <$> users_tbl w' !! uid = Some true) /\
       trackers_of uid w' = (None, None, None) /\
       (forall u, u <> uid -> trackers_of u w' = trackers_of u w) /\
       (forall t,
          btype = PERMANENT \/ t < clock w + default 1 dur * 3600 * usec ->
          BanManager.is_banned uid (set_clock t w')
          = (Ok true, set_clock t w'))) /\
    (btype = TEMPORARY ->
     is_timedelta (default 1 dur * 3600 * usec) = false \/
     is_datetime (clock w + default 1 dur * 3600 * usec) = false ->
     exists e, BanManagerMore.ban_user uid rsn btype dur dtl w = (Raise e, w)).
Proof.
  intros w uid rsn btype dur dtl. split.
  - intros Hf Hfit rec.
    unfold BanManagerMore.ban_user. unfold bind at 1. unfold now, gets.
    unfold bind at 1. rewrite (ban_expiry_fit _ _ _ _ Hfit).
    fold (ban_record_of uid rsn btype dur dtl (clock w)). fold rec.
    unfold bind at 1.
    unfold BanRecordRepository.create. munfold.
    rewrite (db_session_no_fault _ Hf).
    set (w1 := set_bans (bans_tbl w ++ [rec]) w).
    destruct (set_banned_flag_no_fault uid true w1 Hf)
      as (w2 & Hflag & Hf2 & Hc2 & Hb2 & _ & Hr2 & Hm2 & Hn2 & Hu2).
    change (set_bans (bans_tbl w ++ [_]) w) with w1.
    rewrite Hflag. unfold BanManagerMore._clear_user_tracking.
    eexists. split; [reflexivity|].
    cbn [bans_tbl users_tbl set_user_content set_user_messages
         set_user_requests].
    split; [exact Hb2|]. split; [exact Hu2|]. split; [|split].
    + unfold trackers_of. cbn. rewrite !lookup_delete_eq. reflexivity.
    + intros u Hu. unfold trackers_of. cbn.
      rewrite !lookup_delete_ne by congruence.
      rewrite Hr2, Hm2, Hn2. reflexivity.
    + intros t Ht. apply (is_banned_when_selected _ _ rec).
      * exact Hf2.
      * cbn. rewrite Hb2. unfold w1. cbn. apply in_or_app. right. left.
        reflexivity.
      * unfold BanRecordRepository.selected. cbn.
        rewrite bool_decide_eq_true_2 by reflexivity. cbn.
        destruct btype; cbn.
        -- destruct Ht as [Ht|Ht]; [discriminate|]. apply Z.ltb_lt. exact Ht.
        -- reflexivity.
  - intros -> Hout. exists "OverflowError".
    unfold BanManagerMore.ban_user. unfold bind at 1. unfold now, gets.
    unfold bind at 1.
    rewrite bool_decide_eq_true_2 by reflexivity.
    unfold bind at 1. rewrite (add_hours_overflow _ _ _ Hout). reflexivity.
Qed.

Lemma unban_no_fault uid w r :
  db_faults w = [] ->
  active_ban uid w = Some r ->
  List.filter (BanRecordRepositoryMore.same_row r) (bans_tbl w) = [r] ->
  exists w',
    BanManagerMore.unban_user uid w = (Ok true, w') /\
    db_faults w' = [] /\
    bans_tbl w' = bans_after_unban r (clock w) (bans_tbl w) /\
    (forall u, users_tbl w !! uid = Some u ->
       is_banned <$> users_tbl w' !! uid = Some false).
Proof.
  intros Hf Hact Hone.
  unfold BanManagerMore.unban_user. unfold bind at 1.
  rewrite (get_active_ban_no_fault _ _ Hf), Hact.
  unfold bind at 1. unfold now, gets. unfold bind at 1.
  unfold BanRecordRepositoryMore.update. munfold.
  rewrite (db_session_no_fault _ Hf).
  change (BanRecordRepositoryMore.same_row (with_expiry (Some (clock w)) r))
    with (BanRecordRepositoryMore.same_row r).
  rewrite Hone.
  set (w1 := set_bans _ w).
  destruct (set_banned_flag_no_fault uid false w1 Hf)
    as (w2 & Hflag & Hf2 & Hc2 & Hb2 & _ & _ & _ & _ & Hu2).
  rewrite Hflag. exists w2. repeat split; auto.
Qed.

Lemma selected_user uid t r :
  BanRecordRepository.selected uid t r = true -> b_user_id r = uid.
Proof.
  unfold BanRecordRepository.selected. intros H.
  apply andb_true_iff in H as [H _]. apply bool_decide_eq_true in H. exact H.
Qed.

Lemma active_ban_in uid w r :
  active_ban uid w = Some r ->
  In r (bans_tbl w) /\ BanRecordRepository.selected uid (clock w) r = true.
Proof. intros H. apply latest_in in H. apply filter_In in H. exact H. Qed.

Lemma same_row_refl r : BanRecordRepositoryMore.same_row r r = true.
Proof.
  unfold BanRecordRepositoryMore.same_row.
  rewrite !bool_decide_eq_true_2 by reflexivity. reflexivity.
Qed.

(** X8. [unban_user] does not lift a PERMANENT ban. It stamps the
    record with an expiry date and clears the banned flag of the user and
    answers True, but the record stays PERMANENT, so [is_banned] keeps
    answering True at every later time. *)
Theorem unban_keeps_permanent_ban :
  forall w uid r,
    db_faults w = [] ->
    active_ban uid w = Some r ->
    ban_type r = PERMANENT ->
    List.filter (BanRecordRepositoryMore.same_row r) (bans_tbl w) = [r] ->
    exists w',
      BanManagerMore.unban_user uid w = (Ok true, w') /\
      (forall u, users_tbl w !! uid = Some u ->
         is_banned <$> users_tbl w' !! uid = Some false) /\
      forall t, BanManager.is_banned uid (set_clock t w')
                = (Ok true, set_clock t w').
Proof.
  intros w uid r Hf Hact Hperm Hone.
  destruct (unban_no_fault uid w r Hf Hact Hone) as (w' & Hrun & Hf' & Hb & Hu).
  destruct (active_ban_in _ _ _ Hact) as [Hin Hsel].
  exists w'. split; [exact Hrun|]. split; [exact Hu|]. intros t.
  apply (is_banned_when_selected _ _
           (BanRecordRepositoryMore.updated_row
              (with_expiry (Some (clock w)) r) r)).
  - exact Hf'.
  - cbn [bans_tbl set_clock]. rewrite Hb. unfold bans_after_unban.
    apply in_map_iff. exists r. split; [|exact Hin].
    rewrite same_row_refl. reflexivity.
  - unfold BanRecordRepository.selected. cbn.
    rewrite (selected_user _ _ _ Hsel), Hperm.
    rewrite !bool_decide_eq_true_2 by reflexivity. reflexivity.
Qed.

(** X9. With no storage fault, [unban_user] answers False and changes
    nothing for a user without an active ban. For a user whose only
    active record is a TEMPORARY one it ends that record now: [is_banned]
    answers False from this moment on. *)
Theorem unban_lifts_sole_temporary_ban :
  (forall w uid,
     db_faults w = [] -> active_ban uid w = None ->
     BanManagerMore.unban_user uid w = (Ok false, w)) /\
  (forall w uid r,
     db_faults w = [] ->
     List.filter (BanRecordRepository.selected uid (clock w)) (bans_tbl w)
     = [r] ->
     ban_type r = TEMPORARY ->
     List.filter (BanRecordRepositoryMore.same_row r) (bans_tbl w) = [r] ->
     exists w',
       BanManagerMore.unban_user uid w = (Ok true, w') /\
       forall t, clock w <= t ->
         BanManager.is_banned uid (set_clock t w')
         = (Ok false, set_clock t w')).
Proof.
  split.
  - intros w uid Hf Hact.
    unfold BanManagerMore.unban_user. unfold bind at 1.
    rewrite (get_active_ban_no_fault _ _ Hf), Hact. reflexivity.
  - intros w uid r Hf Hsole Htemp Hone.
    assert (Hact : active_ban uid w = Some r).
    { unfold active_ban. rewrite Hsole. reflexivity. }
    destruct (unban_no_fault uid w r Hf Hact Hone)
      as (w' & Hrun & Hf' & Hb & _).
    exists w'. split; [exact Hrun|]. intros t Ht.
    apply is_banned_when_none_selected; [exact Hf'|].
    cbn [bans_tbl clock set_clock]. rewrite Hb. unfold bans_after_unban.
    intros y Hy. apply in_map_iff in Hy as (x & <- & Hx).
    destruct (BanRecordRepositoryMore.same_row r x) eqn:Hsame.
    + assert (Hxr : In x (List.filter (BanRecordRepositoryMore.same_row r)
                            (bans_tbl w))) by (apply filter_In; auto).
      rewrite Hone in Hxr. destruct Hxr as [<-|[]].
      unfold BanRecordRepository.selected. cbn. rewrite Htemp.
      rewrite (bool_decide_eq_false_2 (TEMPORARY = PERMANENT)) by discriminate.
      cbn. rewrite andb_false_iff. right. apply Z.ltb_ge. exact Ht.
    + destruct (BanRecordRepository.selected uid t x) eqn:Hselt; [|reflexivity].
      exfalso.
      assert (Hsel0 : BanRecordRepository.selected uid (clock w) x = true).
      { unfold BanRecordRepository.selected in *.
        apply andb_true_iff in Hselt as [Hu Hrest].
        rewrite Hu. cbn [andb].
        destruct (bool_decide (ban_type x = PERMANENT)); [reflexivity|].
        cbn [orb] in *. destruct (b_expires_at x) as [e|]; [|discriminate].
        apply Z.ltb_lt in Hrest. apply Z.ltb_lt. lia. }
      assert (Hxr : In x (List.filter
                            (BanRecordRepository.selected uid (clock w))
                            (bans_tbl w))) by (apply filter_In; auto).
      rewrite Hsole in Hxr. destruct Hxr as [<-|[]].
      rewrite same_row_refl in Hsame. discriminate.
Qed.

(** *** BanManager: tracking *)

(** X10. [detect_abuse] works on the trackers of the user at hand and on
    nothing else: it never raises, it leaves the database, the cache, the
    clock and the fault schedules as they are, and it does not touch the
    tracking windows of any other user. *)
Theorem detect_abuse_isolated :
  forall rules uid text tokens w,
    exists res w',
      BanManager.detect_abuse rules uid text tokens w = (Ok res, w') /\
      outside_trackers w' = outside_trackers w /\
      forall u, u <> uid -> trackers_of u w' = trackers_of u w.
Proof.
  intros rules uid text tokens w.
  unfold BanManager.detect_abuse, BanManager._detect_rapid_requests,
    BanManager._detect_token_abuse, BanManager._detect_spam,
    BanManager._detect_repeated_content.
  munfold.
  repeat match goal with
         | |- context [if ?b then _ else _] => destruct b; cbv beta iota
         end;
    (eexists; eexists; split; [reflexivity|]; split; [reflexivity|];
     intros u Hu; unfold trackers_of; cbn;
     rewrite ?lookup_insert_ne by congruence; reflexivity).
Qed.

(** *** Session storage *)

Lemma redis_call_no_fault w :
  cache_faults w = [] -> redis_call w = (Ok tt, w).
Proof. unfold redis_call. intros ->. reflexivity. Qed.

Lemma redis_get_no_fault cid w :
  cache_faults w = [] ->
  RedisContextStorage.get cid w = (Ok (cached cid w), w).
Proof.
  intros Hc. unfold RedisContextStorage.get, ContextCache.get, cached.
  munfold. rewrite (redis_call_no_fault _ Hc).
  destruct (redis_ctx w !! cid) as [[expiry c]|]; [|reflexivity].
  destruct (expiry <=? clock w); [reflexivity|].
  destruct (ContextCache._deserialize c); reflexivity.
Qed.

Lemma redis_save_no_fault c w :
  cache_faults w = [] ->
  RedisContextStorage.save 3600 c w = (Ok true, cache_put c w).
Proof.
  intros Hc. unfold RedisContextStorage.save, ContextCache.set. munfold.
  rewrite (redis_call_no_fault _ Hc). reflexivity.
Qed.

Lemma redis_delete_no_fault cid w :
  cache_faults w = [] ->
  RedisContextStorage.delete cid w
  = (Ok true, set_redis (delete cid (redis_ctx w)) w).
Proof.
  intros Hc. unfold RedisContextStorage.delete, ContextCache.delete. munfold.
  rewrite (redis_call_no_fault _ Hc). reflexivity.
Qed.

Lemma ctx_repo_get_no_fault cid w :
  db_faults w = [] -> ContextRepository.get cid w = (Ok (db_model cid w), w).
Proof.
  intros Hf. unfold ContextRepository.get, ContextRepository._orm_to_model,
    db_model. munfold. rewrite (db_session_no_fault _ Hf).
  destruct (contexts_tbl w !! cid); reflexivity.
Qed.

Lemma db_get_no_fault cid w :
  db_faults w = [] ->
  DatabaseContextStorage.get cid w = (Ok (db_model cid w), w).
Proof.
  intros Hf. unfold DatabaseContextStorage.get, try_except.
  rewrite (ctx_repo_get_no_fault _ _ Hf). reflexivity.
Qed.

Lemma deserialize_ok c :
  1 <= max_messages c -> ContextCache._deserialize c = Ok (without_role c).
Proof.
  intros H. unfold ContextCache._deserialize.
  apply Z.leb_le in H. rewrite H. reflexivity.
Qed.

Lemma hybrid_get_unfold cid :
  storage_get default_storage cid =
  (context <- RedisContextStorage.get cid ;;
   match context with
   | Some c => ret (Some c)
   | None =>
       context <- DatabaseContextStorage.get cid ;;
       match context with
       | Some c => RedisContextStorage.save 3600 c ;;; ret (Some c)
       | None => ret None
       end
   end).
Proof. reflexivity. Qed.

Lemma cache_hit cid w expiry c :
  cache_faults w = [] ->
  redis_ctx w !! cid = Some (expiry, c) ->
  clock w < expiry ->
  1 <= max_messages c ->
  storage_get default_storage cid w = (Ok (Some (without_role c)), w).
Proof.
  intros Hc Hlk Hexp Hmax.
  rewrite hybrid_get_unfold. unfold bind at 1.
  rewrite (redis_get_no_fault _ _ Hc). unfold cached. rewrite Hlk.
  assert (H : (expiry <=? clock w) = false) by (apply Z.leb_gt; lia).
  rewrite H, (deserialize_ok _ Hmax). reflexivity.
Qed.

(** X11. A cache hit is served from the cache alone. When the cache
    holds an unexpired session under the key, [get] of the default
    (hybrid) storage returns it with its history and its bound, without
    its role, and leaves the world as it is: the database is not
    consulted, so the answer is the same when the database is down. *)
Theorem hybrid_get_cache_hit :
  forall cid w expiry c,
    cache_faults w = [] ->
    redis_ctx w !! cid = Some (expiry, c) ->
    clock w < expiry ->
    1 <= max_messages c ->
    storage_get default_storage cid w = (Ok (Some (without_role c)), w).
Proof.
  intros cid w expiry c. apply cache_hit.
Qed.

Lemma cache_miss cid w c :
  db_faults w = [] ->
  cache_faults w = [] ->
  match redis_ctx w !! cid with
  | Some (expiry, _) => expiry <= clock w
  | None => True
  end ->
  db_model cid w = Some c ->
  storage_get default_storage cid w = (Ok (Some c), cache_put c w).
Proof.
  intros Hf Hc Hmiss Hdb.
  rewrite hybrid_get_unfold. unfold bind at 1.
  rewrite (redis_get_no_fault _ _ Hc).
  assert (Hnone : cached cid w = None).
  { unfold cached. destruct (redis_ctx w !! cid) as [[expiry c0]|];
      [|reflexivity].
    apply Z.leb_le in Hmiss. rewrite Hmiss. reflexivity. }
  rewrite Hnone. unfold bind at 1.
  rewrite (db_get_no_fault _ _ Hf), Hdb. unfold bind.
  rewrite (redis_save_no_fault _ _ Hc). reflexivity.
Qed.

(** X12. On a cache miss the session is rebuilt from the database and
    written back to the cache for an hour. The rebuilt session carries
    every message the message table holds for the key, in the order of
    their timestamps, and the bound 200, whatever the bound and the
    trimmed history of the session that was saved. *)
Theorem hybrid_get_cache_miss :
  forall cid w c,
    db_faults w = [] ->
    cache_faults w = [] ->
    match redis_ctx w !! cid with
    | Some (expiry, _) => expiry <= clock w
    | None => True
    end ->
    db_model cid w = Some c ->
    storage_get default_storage cid w = (Ok (Some c), cache_put c w) /\
    context_id c = cid /\
    messages c = ContextRepository.messages_of cid (messages_tbl w) /\
    max_messages c = 200.
Proof.
  intros cid w c Hf Hc Hmiss Hdb.
  split.
  - apply cache_miss; assumption.
  - unfold db_model in Hdb. destruct (contexts_tbl w !! cid); [|discriminate].
    injection Hdb as <-. repeat split.
Qed.

Lemma db_save_no_fault c w :
  db_faults w = [] ->
  exists w',
    DatabaseContextStorage.save c w = (Ok true, w') /\
    db_faults w' = [] /\ cache_faults w' = cache_faults w /\
    clock w' = clock w /\ redis_ctx w' = redis_ctx w /\
    messages_tbl w' = messages_tbl w /\ users_tbl w' = users_tbl w /\
    (exists row, contexts_tbl w' !! context_id c = Some row /\
       status row = status c /\ participants row = participants c /\
       type row = type c) /\
    (forall k, k <> context_id c ->
       contexts_tbl w' !! k = contexts_tbl w !! k).
Proof.
  intros Hf. unfold DatabaseContextStorage.save, try_except.
  unfold bind at 1. rewrite (ctx_repo_get_no_fault _ _ Hf).
  unfold db_model.
  destruct (contexts_tbl w !! context_id c) as [old|] eqn:Hold.
  - unfold ContextRepository.update. munfold.
    rewrite (db_session_no_fault _ Hf). rewrite Hold.
    eexists. split; [reflexivity|]. cbn. repeat split; auto.
    + eexists. rewrite lookup_insert_eq. split; [reflexivity|]. cbn. auto.
    + intros k Hk. apply lookup_insert_ne. congruence.
  - unfold ContextRepository.create, ContextRepository._orm_to_model.
    munfold. rewrite (db_session_no_fault _ Hf).
    eexists. split; [reflexivity|]. cbn. repeat split; auto.
    + eexists. rewrite lookup_insert_eq. split; [reflexivity|]. cbn. auto.
    + intros k Hk. apply lookup_insert_ne. congruence.
Qed.

Lemma hybrid_save_unfold c :
  storage_save default_storage c =
  (cache_ok <- RedisContextStorage.save 3600 c ;;
   db_ok <- DatabaseContextStorage.save c ;;
   ret (cache_ok && db_ok)).
Proof. reflexivity. Qed.

Lemma hybrid_save_no_fault c w :
  db_faults w = [] ->
  cache_faults w = [] ->
  exists w',
    storage_save default_storage c w = (Ok true, w') /\
    db_faults w' = [] /\ cache_faults w' = [] /\ clock w' = clock w /\
    redis_ctx w' = <[context_id c := (clock w + 3600 * usec, c)]> (redis_ctx w) /\
    messages_tbl w' = messages_tbl w /\ users_tbl w' = users_tbl w /\
    (exists row, contexts_tbl w' !! context_id c = Some row /\
       status row = status c /\ participants row = participants c /\
       type row = type c) /\
    (forall k, k <> context_id c ->
       contexts_tbl w' !! k = contexts_tbl w !! k).
Proof.
  intros Hf Hc. rewrite hybrid_save_unfold. unfold bind at 1.
  rewrite (redis_save_no_fault _ _ Hc). unfold bind at 1.
  destruct (db_save_no_fault c (cache_put c w) Hf)
    as (w' & Hrun & Hf' & Hc' & Hclk & Hred & Hmsg & Husr & Hrow & Hothers).
  rewrite Hrun. exists w'. split; [reflexivity|].
  split; [exact Hf'|]. split; [rewrite Hc'; exact Hc|].
  split; [exact Hclk|]. split; [exact Hred|].
  split; [exact Hmsg|]. split; [exact Husr|].
  split; [exact Hrow|exact Hothers].
Qed.

(** X13. With no storage fault, a session saved through the default
    storage is read back unchanged, apart from its role, which the cache
    does not keep, during the hour that follows, provided it satisfies
    the constraint [max_messages >= 1] of the model. *)
Theorem hybrid_save_then_get :
  forall c w,
    db_faults w = [] ->
    cache_faults w = [] ->
    1 <= max_messages c ->
    exists w',
      storage_save default_storage c w = (Ok true, w') /\
      forall t, t < clock w + 3600 * usec ->
        storage_get default_storage (context_id c) (set_clock t w')
        = (Ok (Some (without_role c)), set_clock t w').
Proof.
  intros c w Hf Hc Hmax.
  destruct (hybrid_save_no_fault c w Hf Hc)
    as (w' & Hrun & Hf' & Hc' & Hclk & Hred & _).
  exists w'. split; [exact Hrun|]. intros t Ht.
  apply (cache_hit _ _ (clock w + 3600 * usec)).
  - exact Hc'.
  - cbn [redis_ctx set_clock]. rewrite Hred. apply lookup_insert_eq.
  - exact Ht.
  - exact Hmax.
Qed.

Lemma hybrid_delete_unfold cid :
  storage_delete default_storage cid =
  (cache_ok <- RedisContextStorage.delete cid ;;
   db_ok <- DatabaseContextStorage.delete cid ;;
   ret (cache_ok && db_ok)).
Proof. reflexivity. Qed.

(** X14. Deleting through the default storage is a soft delete. With no
    storage fault and a row under the key, [delete] answers True, drops
    the cache entry and marks the row DELETED; the messages stay in the
    message table, and a later [get] still returns the session, now with
    the status DELETED and its full history. For a key without a row
    [delete] answers False. *)
Theorem hybrid_delete_is_soft :
  (forall cid w row,
     db_faults w = [] ->
     cache_faults w = [] ->
     contexts_tbl w !! cid = Some row ->
     exists w',
       storage_delete default_storage cid w = (Ok true, w') /\
       redis_ctx w' !! cid = None /\
       messages_tbl w' = messages_tbl w /\
       exists c w'',
         storage_get default_storage cid w' = (Ok (Some c), w'') /\
         status c = DELETED /\
         messages c = ContextRepository.messages_of cid (messages_tbl w)) /\
  (forall cid w,
     db_faults w = [] ->
     cache_faults w = [] ->
     contexts_tbl w !! cid = None ->
     storage_delete default_storage cid w
     = (Ok false, set_redis (delete cid (redis_ctx w)) w)).
Proof.
  split.
  - intros cid w row Hf Hc Hrow.
    rewrite hybrid_delete_unfold. unfold bind at 1.
    rewrite (redis_delete_no_fault _ _ Hc). unfold bind at 1.
    set (w1 := set_redis (delete cid (redis_ctx w)) w).
    unfold DatabaseContextStorage.delete, try_except. unfold bind at 1.
    rewrite (ctx_repo_get_no_fault cid w1 Hf). unfold db_model.
    cbn [contexts_tbl w1 set_redis]. rewrite Hrow.
    unfold ContextRepository.update. munfold.
    rewrite (db_session_no_fault w1 Hf).
    cbn [context_id with_status contexts_tbl w1 set_redis]. rewrite Hrow.
    eexists. split; [reflexivity|].
    split; [cbn; apply lookup_delete_eq|]. split; [reflexivity|].
    eexists. eexists. split.
    + apply cache_miss.
      * exact Hf.
      * exact Hc.
      * cbn. rewrite lookup_delete_eq. exact I.
      * unfold db_model. cbn. rewrite lookup_insert_eq. reflexivity.
    + split; reflexivity.
  - intros cid w Hf Hc Hrow.
    rewrite hybrid_delete_unfold. unfold bind at 1.
    rewrite (redis_delete_no_fault _ _ Hc). unfold bind at 1.
    unfold DatabaseContextStorage.delete, try_except. unfold bind at 1.
    rewrite ctx_repo_get_no_fault by exact Hf. unfold db_model.
    cbn [contexts_tbl set_redis]. rewrite Hrow. reflexivity.
Qed.

(** *** ContextManager *)

Lemma hybrid_get_keeps_messages cid :
  keeps messages_tbl (storage_get default_storage cid).
Proof. keeps_tac. Qed.

Lemma hybrid_save_keeps_messages c :
  keeps messages_tbl (storage_save default_storage c).
Proof. keeps_tac. Qed.

Lemma update_context_keeps_messages c :
  keeps messages_tbl (ContextManager.update_context default_storage c).
Proof. keeps_tac. Qed.

Lemma generate_message_id_keeps_messages :
  keeps messages_tbl IDHelper.generate_message_id.
Proof. keeps_tac. Qed.

(** X15. [add_message] never removes or rewrites a row of the message
    table: whatever it returns or raises, the table afterwards is the old
    one, or the old one followed by one row for this session that carries
    the given sender, role and text and the present time. When it answers
    True the row has been added. *)
Theorem add_message_appends_one_row :
  forall cid sender sender_nm text mtype rl is_sys w r w',
    ContextManager.add_message default_storage cid sender sender_nm text
      mtype rl is_sys w = (r, w') ->
    (messages_tbl w' = messages_tbl w /\ r <> Ok true) \/
    exists m,
      messages_tbl w' = (messages_tbl w ++ [(cid, m)])%list /\
      sender_id m = sender /\ role m = rl /\ content m = text /\
      message_type m = mtype /\ timestamp m = clock w.
Proof.
  intros cid sender sender_nm text mtype rl is_sys w r w'.
  unfold ContextManager.add_message, ContextManager.get_context.
  unfold bind at 1.
  destruct (storage_get default_storage cid w) as [[[c|]|e] w1] eqn:Eget.
  2: { intros [= <- <-]. left.
       rewrite (hybrid_get_keeps_messages _ _ _ _ Eget).
       split; [reflexivity|discriminate]. }
  2: { intros [= <- <-]. left.
       rewrite (hybrid_get_keeps_messages _ _ _ _ Eget).
       split; [reflexivity|discriminate]. }
  pose proof (hybrid_get_keeps_messages _ _ _ _ Eget) as Hm1.
  pose proof (hybrid_get_keeps_clock _ _ _ _ Eget) as Hc1.
  unfold bind at 1.
  destruct (generate_message_id_total w1) as (mid & Hmid). rewrite Hmid.
  pose proof (generate_message_id_keeps_messages _ _ _ Hmid) as Hm2.
  pose proof (generate_message_id_keeps_clock _ _ _ Hmid) as Hc2.
  set (w2 := snd (IDHelper.generate_message_id w1)) in *.
  unfold bind at 1. unfold now, gets. unfold bind at 1.
  unfold ContextRepository.add_message at 1. munfold.
  destruct (db_session w2) as [[[]|e] w3] eqn:Edb.
  - pose proof (keeps_db_session messages_tbl (fun _ _ => eq_refl) _ _ _ Edb)
      as Hm3.
    intros Esave. right.
    apply update_context_keeps_messages in Esave.
    cbn [messages_tbl set_messages] in Esave.
    eexists. split.
    + rewrite Esave, Hm3, Hm2, Hm1. reflexivity.
    + cbn. rewrite Hc2, Hc1. repeat split.
  - pose proof (keeps_db_session messages_tbl (fun _ _ => eq_refl) _ _ _ Edb)
      as Hm3.
    intros [= <- <-]. left. rewrite Hm3, Hm2, Hm1.
    split; [reflexivity|discriminate].
Qed.

Lemma redis_get_id cid w c w1 :
  cache_keyed w ->
  RedisContextStorage.get cid w = (Ok (Some c), w1) -> context_id c = cid.
Proof.
  intros Hk.
  unfold RedisContextStorage.get, ContextCache.get, ContextCache._deserialize.
  munfold.
  destruct (redis_call w) as [[[]|e] w0] eqn:E; cbv beta iota;
    [|discriminate].
  assert (Hr : redis_ctx w0 = redis_ctx w).
  { eapply (keeps_redis_call redis_ctx); eauto. }
  rewrite Hr.
  destruct (redis_ctx w !! cid) as [[expiry c0]|] eqn:Hlk; [|discriminate].
  destruct (expiry <=? clock w0); [discriminate|].
  destruct (1 <=? max_messages c0); cbv beta iota; [|discriminate].
  intros [= <- <-]. cbn. eapply Hk. exact Hlk.
Qed.

Lemma db_get_id cid w c w1 :
  DatabaseContextStorage.get cid w = (Ok (Some c), w1) -> context_id c = cid.
Proof.
  unfold DatabaseContextStorage.get, ContextRepository.get,
    ContextRepository._orm_to_model.
  munfold.
  destruct (db_session w) as [[[]|e] w0]; cbv beta iota; [|discriminate].
  destruct (contexts_tbl w0 !! cid) as [row|]; [|discriminate].
  intros [= <- <-]. reflexivity.
Qed.

Lemma hybrid_get_id cid w c w1 :
  cache_keyed w ->
  storage_get default_storage cid w = (Ok (Some c), w1) -> context_id c = cid.
Proof.
  intros Hk. rewrite hybrid_get_unfold. unfold bind at 1.
  destruct (RedisContextStorage.get cid w) as [[[c1|]|e] w2] eqn:E1.
  - unfold ret. intros [= <- <-]. eapply redis_get_id; eauto.
  - unfold bind at 1.
    destruct (DatabaseContextStorage.get cid w2) as [[[c2|]|e] w3] eqn:E2.
    + apply db_get_id in E2. unfold bind, ret.
      destruct (RedisContextStorage.save 3600 c2 w3) as [[b|e] w4];
        [|discriminate].
      intros [= <- <-]. exact E2.
    + discriminate.
    + discriminate.
  - discriminate.
Qed.

Lemma add_message_true_cache cid sender sender_nm text mtype rl is_sys w w' :
  cache_keyed w ->
  ContextManager.add_message default_storage cid sender sender_nm text
    mtype rl is_sys w = (Ok true, w') ->
  exists c mid,
    1 <= max_messages c /\
    redis_ctx w' !! cid
    = Some (clock w + 3600 * usec,
            with_updated_at (clock w)
              (ContextManager.append_message
                 {| message_id := mid; sender_id := sender;
                    sender_name := sender_nm; role := rl; content := text;
                    message_type := mtype; timestamp := clock w;
                    is_system := is_sys |} (clock w) c)).
Proof.
  intros Hk.
  unfold ContextManager.add_message, ContextManager.get_context.
  unfold bind at 1.
  destruct (storage_get default_storage cid w) as [[[c|]|e] w1] eqn:Eget;
    [|discriminate|discriminate].
  pose proof (hybrid_get_valid _ _ _ _ Eget) as Hmax.
  pose proof (hybrid_get_keeps_clock _ _ _ _ Eget) as Hc1.
  pose proof (hybrid_get_id _ _ _ _ Hk Eget) as Hcid.
  unfold bind at 1.
  destruct (generate_message_id_total w1) as (mid & Hmid).
  rewrite Hmid.
  pose proof (generate_message_id_keeps_clock _ _ _ Hmid) as Hc2.
  set (w2 := snd (IDHelper.generate_message_id w1)) in *.
  unfold bind at 1. unfold now, gets. unfold bind at 1.
  destruct (ContextRepository.add_message cid _ w2) as [[[]|e] w3] eqn:Eadd;
    [|discriminate].
  pose proof (repo_add_message_keeps_clock _ _ _ _ _ Eadd) as Hc3.
  unfold ContextManager.update_context. unfold bind, gets.
  intros Hsave. apply hybrid_save_true in Hsave.
  exists c, mid. split; [exact Hmax|].
  assert (Hid : context_id (with_updated_at (clock w3)
                  (ContextManager.append_message
                     {| message_id := mid; sender_id := sender;
                        sender_name := sender_nm; role := rl;
                        content := text; message_type := mtype;
                        timestamp := clock w2; is_system := is_sys |}
                     (clock w2) c)) = cid).
  { unfold with_updated_at. cbn [context_id with_messages].
    transitivity (context_id c); [|exact Hcid].
    apply append_message_spec. exact Hmax. }
  rewrite Hid in Hsave. rewrite Hsave.
  rewrite Hc3, Hc2, Hc1. reflexivity.
Qed.

Lemma append_message_last message t c :
  1 <= max_messages c ->
  exists ms,
    messages (ContextManager.append_message message t c)
    = (ms ++ [message])%list.
Proof.
  intros Hmax.
  destruct (append_message_spec message t c Hmax) as (Hm & _ & _).
  rewrite Hm.
  exists (drop (Z.to_nat (Z.of_nat (length (messages c)) + 1 - max_messages c))
               (messages c)).
  apply drop_app_le. lia.
Qed.

(** X16. A message that [add_message] accepted is the last entry of the
    history [get_messages] returns next: when the cache holds every
    session under its own identifier and does not fail, [add_message]
    answering True is followed by a [get_messages] (without a limit)
    whose result ends with a message carrying the given sender, role and
    text. *)
Theorem add_message_then_get_messages :
  forall cid sender sender_nm text mtype rl is_sys w w',
    quiet w ->
    cache_keyed w ->
    ContextManager.add_message default_storage cid sender sender_nm text
      mtype rl is_sys w = (Ok true, w') ->
    exists ms m,
      ContextManager.get_messages default_storage cid None w'
      = (Ok (ms ++ [m])%list, w') /\
      sender_id m = sender /\ role m = rl /\ content m = text /\
      timestamp m = clock w.
Proof.
  intros cid sender sender_nm text mtype rl is_sys w w' Hq Hk Hadd.
  pose proof (quiet_add_message _ _ _ _ _ _ _ _ _ _ Hq Hadd) as [_ Hc'].
  pose proof (add_message_keeps_clock _ _ _ _ _ _ _ _ _ _ Hadd) as Hclk.
  destruct (add_message_true_cache _ _ _ _ _ _ _ _ _ Hk Hadd)
    as (c & mid & Hmax & Hlk).
  set (message := {| message_id := mid; sender_id := sender;
                     sender_name := sender_nm; role := rl; content := text;
                     message_type := mtype; timestamp := clock w;
                     is_system := is_sys |}) in *.
  destruct (append_message_last message (clock w) c Hmax) as (ms & Hms).
  exists ms, message.
  split; [|repeat split].
  unfold ContextManager.get_messages, ContextManager.get_context.
  unfold bind.
  rewrite (cache_hit cid w' _ _ Hc' Hlk).
  - cbn [messages without_role with_updated_at with_messages].
    rewrite Hms. reflexivity.
  - rewrite Hclk. unfold usec. lia.
  - cbn [max_messages with_updated_at with_messages].
    destruct (append_message_spec message (clock w) c Hmax) as (_ & Hx & _).
    rewrite Hx. exact Hmax.
Qed.

Lemma get_or_create_no_fault uid nick w :
  db_faults w = [] ->
  exists u w1,
    UserRepository.get_or_create uid nick w = (Ok u, w1) /\
    user_id u = uid /\ is_Some (users_tbl w1 !! uid) /\
    db_faults w1 = [] /\ cache_faults w1 = cache_faults w /\
    clock w1 = clock w /\ uuids w1 = uuids w /\
    redis_ctx w1 = redis_ctx w /\ contexts_tbl w1 = contexts_tbl w /\
    messages_tbl w1 = messages_tbl w.
Proof.
  intros Hf. unfold UserRepository.get_or_create. unfold bind at 1.
  rewrite (user_repo_get_no_fault _ _ Hf).
  destruct (users_tbl w !! uid) as [row|] eqn:Hrow;
    cbn [fmap option_fmap option_map].
  - eexists. exists w. split; [reflexivity|]. cbn.
    repeat split; auto.
  - unfold UserRepository.create. munfold.
    rewrite (db_session_no_fault _ Hf).
    eexists. eexists. split; [reflexivity|]. cbn.
    repeat split; auto. rewrite lookup_insert_eq. eauto.
Qed.

Lemma generate_context_id_total w :
  exists u w2,
    IDHelper.generate_context_id w = (Ok ("ctx_" +:+ u), w2) /\
    w2 = set_uuids (uuids w2) w.
Proof.
  unfold IDHelper.generate_context_id, generate_uuid. munfold.
  destruct (uuids w) as [|u us] eqn:Hu.
  - exists "", w. split; [reflexivity|]. rewrite Hu. destruct w; cbn in *.
    subst. reflexivity.
  - exists u, (set_uuids us w). split; [reflexivity|]. reflexivity.
Qed.

(** The expiry date of [create_context]. *)
Lemma context_expiry_fit hours t w :
  (forall h, hours = Some h -> h <> 0 -> hours_fit t h) ->
  match hours with
  | Some h => if h =? 0 then ret None
              else (e <- add_hours t h ;; ret (Some e))
  | None => ret None
  end w
  = (Ok match hours with
        | Some h => if h =? 0 then None else Some (t + h * 3600 * usec)
        | None => None
        end, w).
Proof.
  intros Hfit. destruct hours as [h|]; [|reflexivity].
  destruct (h =? 0) eqn:Hz; [reflexivity|].
  apply Z.eqb_neq in Hz. unfold bind.
  rewrite (add_hours_fit _ _ _ (Hfit h eq_refl Hz)). reflexivity.
Qed.

Lemma create_context_no_fault ctype creator nm parts hours w :
  quiet w ->
  (forall h, hours = Some h -> h <> 0 -> hours_fit (clock w) h) ->
  exists u c w',
    ContextManager.create_context default_storage ctype creator nm parts
      hours w = (Ok c, w') /\
    context_id c = "ctx_" +:+ u /\
    status c = ACTIVE /\ creator_id c = creator /\ type c = ctype /\
    creator ∈ participants c /\
    (parts = Some [creator] -> participants c = [creator]) /\
    quiet w' /\ clock w' = clock w /\
    (forall k, k <> "ctx_" +:+ u -> contexts_tbl w' !! k = contexts_tbl w !! k) /\
    ContextManager.get_user_context default_storage creator w'
    = (Ok (Some c), w').
Proof.
  intros [Hf Hc] Hfit.
  unfold ContextManager.create_context. unfold bind at 1.
  destruct (get_or_create_no_fault creator "" w Hf)
    as (user & w1 & Hrun1 & Huid & Hrow1 & Hf1 & Hc1 & Hclk1 & _ & _ & Hctx1
        & _).
  rewrite Hrun1. unfold bind at 1.
  destruct (generate_context_id_total w1) as (u & w2 & Hrun2 & Hw2).
  rewrite Hrun2. unfold bind at 1. unfold now, gets.
  set (cid := "ctx_" +:+ u) in *.
  assert (Hf2 : db_faults w2 = []) by (rewrite Hw2; exact Hf1).
  assert (Hc2 : cache_faults w2 = []).
  { rewrite Hw2. cbn. rewrite Hc1. exact Hc. }
  assert (Hclk2 : clock w2 = clock w) by (rewrite Hw2; exact Hclk1).
  assert (Hrow2 : is_Some (users_tbl w2 !! creator))
    by (rewrite Hw2; exact Hrow1).
  assert (Hctx2 : contexts_tbl w2 = contexts_tbl w)
    by (rewrite Hw2; exact Hctx1).
  unfold bind at 1. rewrite context_expiry_fit by (rewrite Hclk2; exact Hfit).
  unfold bind at 1.
  unfold ContextRepository.create, ContextRepository._orm_to_model. munfold.
  rewrite (db_session_no_fault _ Hf2).
  cbn [context_id messages_tbl set_contexts].
  match goal with
  | |- context [storage_save default_storage ?c ?w] =>
      set (created := c); set (w3 := w)
  end.
  destruct (hybrid_save_no_fault created w3 Hf2 Hc2)
    as (w4 & Hrun4 & Hf4 & Hc4 & Hclk4 & Hred4 & _ & Husr4 & _ & Hoth4).
  rewrite Hrun4.
  unfold UserRepository.update. munfold.
  rewrite (db_session_no_fault _ Hf4).
  cbn [user_id with_current_context]. rewrite Huid.
  assert (Hrow4 : is_Some (users_tbl w4 !! creator)).
  { rewrite Husr4. exact Hrow2. }
  destruct Hrow4 as [row4 Hrow4]. rewrite Hrow4.
  exists u. eexists. eexists. split; [reflexivity|].
  split; [reflexivity|].
  split; [reflexivity|]. split; [reflexivity|]. split; [reflexivity|].
  split; [|split; [|split; [|split; [|split]]]].
  - cbn [participants created]. destruct parts as [ps|].
    + destruct (bool_decide (creator ∈ ps)) eqn:Hin.
      * apply bool_decide_eq_true in Hin. exact Hin.
      * apply elem_of_app. right. apply list_elem_of_singleton. reflexivity.
    + apply list_elem_of_singleton. reflexivity.
  - intros ->. cbn [participants created].
    rewrite bool_decide_eq_true_2; [reflexivity|].
    apply list_elem_of_singleton. reflexivity.
  - split; [exact Hf4|exact Hc4].
  - cbn [clock set_users]. rewrite Hclk4. exact Hclk2.
  - intros k Hk. cbn [contexts_tbl set_users].
    rewrite (Hoth4 k Hk). cbn [contexts_tbl w3 set_contexts].
    rewrite lookup_insert_ne
      by (intros Heq; apply Hk; symmetry; exact Heq).
    rewrite Hctx2. reflexivity.
  - unfold ContextManager.get_user_context. unfold bind at 1.
    rewrite user_repo_get_no_fault by exact Hf4.
    cbn [users_tbl set_users]. rewrite lookup_insert_eq.
    cbn [fmap option_fmap option_map current_context_id
         UserRepository._orm_to_model with_current_context].
    rewrite bool_decide_eq_false_2 by (unfold cid; discriminate).
    unfold ContextManager.get_context.
    rewrite (cache_hit cid _ (clock w3 + 3600 * usec) created).
    + reflexivity.
    + exact Hc4.
    + cbn [redis_ctx set_users]. rewrite Hred4. apply lookup_insert_eq.
    + cbn [clock set_users]. rewrite Hclk4. unfold usec. lia.
    + cbn. lia.
Qed.

(** X17. With no storage fault, and provided the expiry date
    [now + expires_in_hours] exists as a datetime when a number of hours
    other than zero is given, [create_context] returns an ACTIVE session
    that has the creator among its participants, and makes it the current
    session of the creator: [get_user_context] for the creator returns
    this very session. When the expiry date is out of range,
    [create_context] raises and no session has been stored. *)
Theorem create_context_becomes_current :
  forall ctype creator nm parts hours w,
    quiet w ->
    ((forall h, hours = Some h -> h <> 0 -> hours_fit (clock w) h) ->
     exists c w',
       ContextManager.create_context default_storage ctype creator nm parts
         hours w = (Ok c, w') /\
       status c = ACTIVE /\ creator_id c = creator /\ type c = ctype /\
       creator ∈ participants c /\
       ContextManager.get_user_context default_storage creator w'
       = (Ok (Some c), w')) /\
    (forall h, hours = Some h -> h <> 0 ->
       is_timedelta (h * 3600 * usec) = false \/
       is_datetime (clock w + h * 3600 * usec) = false ->
       exists e w',
         ContextManager.create_context default_storage ctype creator nm parts
           hours w = (Raise e, w') /\
         contexts_tbl w' = contexts_tbl w /\ redis_ctx w' = redis_ctx w).
Proof.
  intros ctype creator nm parts hours w Hq. split.
  - intros Hfit.
    destruct (create_context_no_fault ctype creator nm parts hours w Hq Hfit)
      as (u & c & w' & Hrun & _ & Hst & Hcr & Hty & Hin & _ & _ & _ & _
          & Hcur).
    exists c, w'. repeat split; assumption.
  - intros h -> Hnz Hout. destruct Hq as [Hf Hc].
    unfold ContextManager.create_context. unfold bind at 1.
    destruct (get_or_create_no_fault creator "" w Hf)
      as (user & w1 & Hrun1 & _ & _ & _ & _ & Hclk1 & _ & Hred1 & Hctx1 & _).
    rewrite Hrun1. unfold bind at 1.
    destruct (generate_context_id_total w1) as (u & w2 & Hrun2 & Hw2).
    rewrite Hrun2. unfold bind at 1. unfold now, gets. unfold bind at 1.
    apply Z.eqb_neq in Hnz. rewrite Hnz. unfold bind at 1.
    assert (Hclk2 : clock w2 = clock w) by (rewrite Hw2; exact Hclk1).
    rewrite add_hours_overflow by (rewrite Hclk2; exact Hout).
    exists "OverflowError", w2. split; [reflexivity|].
    split; rewrite Hw2; assumption.
Qed.

Lemma status_change st cid w c w1 :
  quiet w ->
  cache_keyed w ->
  storage_get default_storage cid w = (Ok (Some c), w1) ->
  exists w',
    ContextManager.update_context default_storage (with_status st c) w1
    = (Ok true, w') /\
    (exists c', storage_get default_storage cid w' = (Ok (Some c'), w') /\
       status c' = st /\ messages c' = messages c /\
       participants c' = participants c) /\
    exists row, contexts_tbl w' !! cid = Some row /\ status row = st.
Proof.
  intros Hq Hk Hget.
  pose proof (quiet_storage_get _ _ _ _ Hq Hget) as [Hf1 Hc1].
  pose proof (hybrid_get_valid _ _ _ _ Hget) as Hmax.
  pose proof (hybrid_get_id _ _ _ _ Hk Hget) as Hid.
  unfold ContextManager.update_context. unfold bind, now, gets.
  set (c1 := with_updated_at (clock w1) (with_status st c)).
  destruct (hybrid_save_no_fault c1 w1 Hf1 Hc1)
    as (w' & Hrun & Hf' & Hc' & Hclk & Hred & _ & _ & Hrow & _).
  assert (Hid1 : context_id c1 = cid) by exact Hid.
  rewrite Hid1 in Hred, Hrow.
  exists w'. split; [exact Hrun|]. split.
  - exists (without_role c1). split.
    + apply (cache_hit cid w' (clock w1 + 3600 * usec)).
      * exact Hc'.
      * rewrite Hred. apply lookup_insert_eq.
      * rewrite Hclk. unfold usec. lia.
      * exact Hmax.
    + repeat split.
  - destruct Hrow as (row & Hrow & Hst & _). exists row. split; auto.
Qed.

(** X18. [pause_context] and [resume_context] set the status without
    looking at the present one. With no storage fault, whatever the
    status of the session that [get_context] finds (a DELETED or EXPIRED
    one included), [resume_context] answers True and the session is
    ACTIVE afterwards, in the database row and in what [get_context]
    returns, with its history and participants unchanged;
    [pause_context] does the same with PAUSED. *)
Theorem resume_reactivates_any_session :
  forall cid w c w1,
    quiet w ->
    cache_keyed w ->
    storage_get default_storage cid w = (Ok (Some c), w1) ->
    (exists w',
       ContextManagerMore.resume_context default_storage cid w
       = (Ok true, w') /\
       (exists c', storage_get default_storage cid w' = (Ok (Some c'), w') /\
          status c' = ACTIVE /\ messages c' = messages c /\
          participants c' = participants c) /\
       exists row, contexts_tbl w' !! cid = Some row /\ status row = ACTIVE) /\
    (exists w',
       ContextManagerMore.pause_context default_storage cid w
       = (Ok true, w') /\
       (exists c', storage_get default_storage cid w' = (Ok (Some c'), w') /\
          status c' = PAUSED /\ messages c' = messages c /\
          participants c' = participants c) /\
       exists row, contexts_tbl w' !! cid = Some row /\ status row = PAUSED).
Proof.
  intros cid w c w1 Hq Hk Hget. split.
  - destruct (status_change ACTIVE cid w c w1 Hq Hk Hget)
      as (w' & Hrun & Hread & Hrow).
    exists w'. split; [|split; assumption].
    unfold ContextManagerMore.resume_context, ContextManager.get_context.
    unfold bind. rewrite Hget. exact Hrun.
  - destruct (status_change PAUSED cid w c w1 Hq Hk Hget)
      as (w' & Hrun & Hread & Hrow).
    exists w'. split; [|split; assumption].
    unfold ContextManagerMore.pause_context, ContextManager.get_context.
    unfold bind. rewrite Hget. exact Hrun.
Qed.

Lemma clear_current_context_spec cid ps : forall w,
  db_faults w = [] ->
  exists w',
    ContextManagerMore.clear_current_context cid ps w = (Ok tt, w') /\
    db_faults w' = [] /\ cache_faults w' = cache_faults w /\
    (forall p u', In p ps -> users_tbl w' !! p = Some u' ->
       current_context_id u' <> Some cid) /\
    (forall p u', users_tbl w' !! p = Some u' ->
       exists u, users_tbl w !! p = Some u /\
         (current_context_id u' = current_context_id u \/
          current_context_id u' = None)).
Proof.
  induction ps as [|p rest IH]; intros w Hf.
  - exists w. cbn. unfold ret.
    split; [reflexivity|]. split; [exact Hf|]. split; [reflexivity|].
    split.
    + intros p u' [].
    + intros p u' Hu. eauto.
  - cbn [ContextManagerMore.clear_current_context]. unfold bind at 1.
    rewrite (user_repo_get_no_fault _ _ Hf).
    destruct (users_tbl w !! p) as [row|] eqn:Hrow;
      cbn [fmap option_fmap option_map].
    + cbn [current_context_id UserRepository._orm_to_model].
      destruct (bool_decide (current_context_id row = Some cid)) eqn:Hcur.
      * unfold UserRepository.update. munfold.
        rewrite (db_session_no_fault _ Hf).
        cbn [user_id with_current_context UserRepository._orm_to_model].
        rewrite Hrow.
        match goal with
        | |- context [ContextManagerMore.clear_current_context cid rest ?w1] =>
            destruct (IH w1 Hf) as (w' & Hrun & Hf' & Hc' & Hclr & Hinv)
        end.
        rewrite Hrun. exists w'. split; [reflexivity|].
        split; [exact Hf'|]. split; [exact Hc'|]. split.
        -- intros q u' [<-|Hq] Hu'; [|eauto].
           destruct (Hinv _ _ Hu') as (u1 & Hu1 & Hor).
           cbn in Hu1. rewrite lookup_insert_eq in Hu1.
           injection Hu1 as <-. cbn in Hor.
           destruct Hor as [-> | ->]; discriminate.
        -- intros q u' Hu'.
           destruct (Hinv _ _ Hu') as (u1 & Hu1 & Hor). cbn in Hu1.
           destruct (decide (q = p)) as [->|Hne].
           ++ rewrite lookup_insert_eq in Hu1. injection Hu1 as <-.
              exists row. split; [exact Hrow|]. cbn in Hor. right.
              destruct Hor as [-> | ->]; reflexivity.
           ++ rewrite lookup_insert_ne in Hu1 by congruence. eauto.
      * destruct (IH w Hf) as (w' & Hrun & Hf' & Hc' & Hclr & Hinv).
        exists w'. split; [exact Hrun|].
        split; [exact Hf'|]. split; [exact Hc'|]. split; [|exact Hinv].
        intros q u' [<-|Hq] Hu'; [|eauto].
        destruct (Hinv _ _ Hu') as (u1 & Hu1 & Hor).
        rewrite Hrow in Hu1. injection Hu1 as <-.
        apply bool_decide_eq_false in Hcur.
        destruct Hor as [-> | ->]; [exact Hcur|discriminate].
    + destruct (IH w Hf) as (w' & Hrun & Hf' & Hc' & Hclr & Hinv).
      exists w'. split; [exact Hrun|].
      split; [exact Hf'|]. split; [exact Hc'|]. split; [|exact Hinv].
      intros q u' [<-|Hq] Hu'; [|eauto].
      destruct (Hinv _ _ Hu') as (u1 & Hu1 & _). congruence.
Qed.

Lemma hybrid_delete_keeps_users cid :
  keeps users_tbl (storage_delete default_storage cid).
Proof. keeps_tac. Qed.

Lemma hybrid_delete_total cid w :
  exists b w', storage_delete default_storage cid w = (Ok b, w').
Proof.
  rewrite hybrid_delete_unfold. unfold bind at 1.
  unfold RedisContextStorage.delete at 1. unfold try_except.
  destruct ((ContextCache.delete cid;;; ret true) w) as [[b1|e1] w1];
    unfold ret, bind.
  - unfold DatabaseContextStorage.delete, try_except.
    match goal with
    | |- context [let (_, _) := (let (_, _) := ?m w1 in _) in _] =>
        destruct (m w1) as [[b2|e2] w2]
    end; eauto.
  - unfold DatabaseContextStorage.delete, try_except.
    match goal with
    | |- context [let (_, _) := (let (_, _) := ?m w1 in _) in _] =>
        destruct (m w1) as [[b2|e2] w2]
    end; eauto.
Qed.

(** X19. With no storage fault, after [delete_context] no participant of
    the session has it as current session any more: every participant
    whose current session it was is detached before the session is
    deleted. *)
Theorem delete_context_detaches_participants :
  forall cid w c w1,
    quiet w ->
    storage_get default_storage cid w = (Ok (Some c), w1) ->
    exists b w',
      ContextManagerMore.delete_context default_storage cid w = (Ok b, w') /\
      forall p u, In p (participants c) -> users_tbl w' !! p = Some u ->
        current_context_id u <> Some cid.
Proof.
  intros cid w c w1 Hq Hget.
  pose proof (quiet_storage_get _ _ _ _ Hq Hget) as [Hf1 Hc1].
  unfold ContextManagerMore.delete_context, ContextManager.get_context.
  unfold bind at 1 2. rewrite Hget.
  destruct (clear_current_context_spec cid (participants c) w1 Hf1)
    as (w2 & Hrun & _ & _ & Hclr & _).
  rewrite Hrun.
  destruct (hybrid_delete_total cid w2) as (b & w' & Hdel).
  rewrite Hdel. exists b, w'. split; [reflexivity|].
  intros p u Hp Hu.
  rewrite (hybrid_delete_keeps_users _ _ _ _ Hdel) in Hu. eauto.
Qed.

(** *** MessageRouter._pre_check *)

Lemma is_banned_no_fault uid w :
  db_faults w = [] ->
  BanManager.is_banned uid w
  = (Ok (bool_decide (active_ban uid w <> None)), w).
Proof.
  intros Hf. unfold BanManager.is_banned. unfold bind.
  rewrite (check_ban_status_no_fault _ _ Hf). reflexivity.
Qed.

(** X20. With no storage fault, for a user who is not banned and whose
    minute window is not full, [_pre_check] depends on the daily budget
    alone: it answers DAILY_LIMIT_EXCEEDED when nothing is left of it
    (after the lazy daily reset) and lets the user through otherwise, also when
    the total quota is used up, since it asks [check_quota] for zero
    tokens. A user without a quota row is let through, and the check itself
    creates the default row. *)
Theorem pre_check_decision :
  (forall w uid row,
     db_faults w = [] ->
     active_ban uid w = None ->
     quotas_tbl w !! uid = Some row ->
     TokenQuotaRepository.valid row = true ->
     is_minute_limit_exceeded (clock w) row = false ->
     let q := after_lazy_reset (clock w) (quota_model uid (clock w) row) in
     MessageRouter._pre_check uid w =
       (Ok (if 0 <? daily_remaining q then ALLOWED
            else {| allowed := false;
                    cr_reason := "今日配额已用完，请明天再试。";
                    error_code := Some "DAILY_LIMIT_EXCEEDED" |}),
        after_get_quota uid row w)) /\
  (forall w uid,
     db_faults w = [] ->
     active_ban uid w = None ->
     quotas_tbl w !! uid = None ->
     MessageRouter._pre_check uid w =
       (Ok ALLOWED,
        set_quotas (<[uid := default_quota uid (clock w)]> (quotas_tbl w)) w)).
Proof.
  split.
  - intros w uid row Hf Hban Hrow Hv Hmin q.
    unfold MessageRouter._pre_check. unfold bind at 1.
    assert (Hb : BanManager.is_banned uid w = (Ok false, w)).
    { rewrite (is_banned_no_fault _ _ Hf), Hban. reflexivity. }
    rewrite (attempt_ok _ _ _ _ Hb). unfold bind at 1.
    pose proof (check_quota_no_fault uid 0 w row Hf Hrow Hv) as Hq.
    cbv zeta in Hq. fold q in Hq.
    assert (H1 : (remaining q <? 0) = false).
    { apply Z.ltb_ge. unfold remaining. lia. }
    assert (H2 : (daily_remaining q <? 0) = false).
    { apply Z.ltb_ge. unfold daily_remaining. lia. }
    rewrite H1, H2, Hmin in Hq.
    rewrite (attempt_ok _ _ _ _ Hq). cbn [negb].
    set (w1 := after_get_quota uid row w).
    assert (Hc1 : clock w1 = clock w) by apply after_get_quota_clock.
    pose proof (get_quota_again uid w row Hf Hrow Hv) as Hagain.
    fold q in Hagain. fold w1 in Hagain.
    assert (Hm : TokenController.check_minute_limit uid w1 = (Ok true, w1)).
    { unfold TokenController.check_minute_limit. unfold bind at 1.
      rewrite Hagain. munfold. rewrite Hc1. unfold q.
      rewrite minute_limit_of_model, Hmin. reflexivity. }
    unfold bind at 1. rewrite (attempt_ok _ _ _ _ Hm).
    assert (Hd : TokenController.check_daily_limit uid w1
                 = (Ok (0 <? daily_remaining q), w1)).
    { unfold TokenController.check_daily_limit. unfold bind.
      rewrite Hagain. reflexivity. }
    unfold bind at 1. rewrite (attempt_ok _ _ _ _ Hd).
    destruct (0 <? daily_remaining q); reflexivity.
  - intros w uid Hf Hban Hrow.
    unfold MessageRouter._pre_check. unfold bind at 1.
    assert (Hb : BanManager.is_banned uid w = (Ok false, w)).
    { rewrite (is_banned_no_fault _ _ Hf), Hban. reflexivity. }
    rewrite (attempt_ok _ _ _ _ Hb). unfold bind at 1.
    set (w1 := set_quotas (<[uid := default_quota uid (clock w)]>
                             (quotas_tbl w)) w).
    assert (Hq : TokenController.check_quota uid 0 w = (Ok (true, ""), w1)).
    { unfold TokenController.check_quota. unfold bind at 1.
      rewrite (get_quota_unknown _ _ Hf Hrow). reflexivity. }
    rewrite (attempt_ok _ _ _ _ Hq). cbn [negb].
    pose proof (default_quota_again uid w Hf) as Hagain.
    cbv zeta in Hagain. fold w1 in Hagain.
    assert (Hm : TokenController.check_minute_limit uid w1 = (Ok true, w1)).
    { unfold TokenController.check_minute_limit. unfold bind at 1.
      rewrite Hagain. reflexivity. }
    unfold bind at 1. rewrite (attempt_ok _ _ _ _ Hm).
    assert (Hd : TokenController.check_daily_limit uid w1 = (Ok true, w1)).
    { unfold TokenController.check_daily_limit. unfold bind.
      rewrite Hagain. reflexivity. }
    unfold bind at 1. rewrite (attempt_ok _ _ _ _ Hd). reflexivity.
Qed.



(** X21. [_pre_check] fails open. When the first database call fails the
    user is let through without any check, whatever the ban and quota tables
    hold. When the ban lookup succeeds and finds an active ban but the
    lookup of the remaining time fails, the user is turned away with the
    code USER_BANNED and an empty reason. *)
Theorem pre_check_fails_open :
  (forall w uid fs,
     db_faults w = true :: fs ->
     MessageRouter._pre_check uid w = (Ok ALLOWED, set_db_faults fs w)) /\
  (forall w uid fs r,
     db_faults w = false :: true :: fs ->
     active_ban uid w = Some r ->
     MessageRouter._pre_check uid w =
       (Ok {| allowed := false; cr_reason := "";
              error_code := Some "USER_BANNED" |}, set_db_faults fs w)).
Proof.
  split.
  - intros w uid fs Hf.
    unfold MessageRouter._pre_check, attempt, BanManager.is_banned,
      BanManager.check_ban_status, BanRecordRepository.get_active_ban.
    munfold. rewrite (db_session_fault _ _ Hf). reflexivity.
  - intros w uid fs r Hf Hban.
    unfold MessageRouter._pre_check, attempt, BanManager.is_banned,
      BanManager.get_remaining_ban_time,
      BanManager.check_ban_status, BanRecordRepository.get_active_ban.
    munfold. rewrite (db_session_pass _ _ Hf).
    cbn [clock bans_tbl set_db_faults].
    unfold active_ban in Hban. rewrite Hban.
    assert (Ha : ban_is_active (clock w) r = true).
    { eapply active_ban_is_active. exact Hban. }
    rewrite Ha. cbn. destruct w; reflexivity.
Qed.

(** X22. The text a banned user is sent rounds the remaining time down
    twice, to whole seconds and then to whole minutes: with less than a
    minute left of a TEMPORARY ban the user is told that 0 minutes
    remain, and with less than a second left the text carries no time at
    all, although the ban is still in force. *)
Theorem pre_check_ban_text_last_minute :
  forall w uid r e,
    db_faults w = [] ->
    active_ban uid w = Some r ->
    ban_type r = TEMPORARY ->
    b_expires_at r = Some e ->
    e - clock w < 60 * usec ->
    MessageRouter._pre_check uid w =
      (Ok {| allowed := false;
             cr_reason := if e - clock w <? usec then "您已被封禁。"
                          else "您已被封禁，剩余 0 分钟。";
             error_code := Some "USER_BANNED" |}, w).
Proof.
  intros w uid r e Hf Hact Htemp He Hlt.
  rewrite (pre_check_banned _ _ _ Hf Hact).
  assert (Hpos : clock w < e).
  { pose proof (active_ban_is_active _ _ _ Hact) as Ha.
    unfold ban_is_active in Ha. rewrite Htemp, He in Ha.
    destruct (decide (TEMPORARY = PERMANENT)); [discriminate|].
    apply Z.ltb_lt in Ha. exact Ha. }
  unfold ban_text, remaining_seconds. rewrite Htemp, He.
  destruct (decide (TEMPORARY = PERMANENT)); [discriminate|].
  rewrite Z.quot_div_nonneg by (unfold usec; lia).
  destruct (e - clock w <? usec) eqn:Hsub.
  - apply Z.ltb_lt in Hsub.
    rewrite (Z.div_small (e - clock w) usec) by lia. reflexivity.
  - apply Z.ltb_ge in Hsub.
    assert (H1 : 1 <= (e - clock w) / usec).
    { apply Z.div_le_lower_bound; unfold usec in *; lia. }
    assert (H2 : (e - clock w) / usec < 60).
    { apply Z.div_lt_upper_bound; unfold usec in *; lia. }
    rewrite Z.max_r by lia.
    assert (H3 : (0 <? (e - clock w) / usec) = true) by (apply Z.ltb_lt; lia).
    rewrite H3. rewrite (Z.div_small _ 60) by lia. reflexivity.
Qed.

(** *** MessageRouter: sessions *)

(** X23. The router never finds a group session again. For a group
    message it looks for a row keyed [group_<id>], but the session it
    creates when there is none is stored under a fresh [ctx_...]
    identifier: with no storage fault the call returns a new session
    whose only participant is the sender, and the table still has no row
    keyed [group_<id>] afterwards, so the next message of the group
    starts a new session again. *)
Theorem group_session_never_reused :
  forall uid uname g w,
    quiet w ->
    contexts_tbl w !! ("group_" +:+ g) = None ->
    exists c w',
      MessageRouter._get_or_create_context default_storage uid uname
        (Some g) GROUP w = (Ok (Some c), w') /\
      context_id c <> "group_" +:+ g /\
      participants c = [uid] /\
      quiet w' /\
      contexts_tbl w' !! ("group_" +:+ g) = None.
Proof.
  intros uid uname g w Hq Hnone.
  unfold MessageRouter._get_or_create_context, try_except.
  rewrite bool_decide_eq_false_2 by discriminate.
  cbn [IntentRecognizer.py_str_option].
  unfold bind at 1. destruct Hq as [Hf Hc].
  rewrite (ctx_repo_get_no_fault _ _ Hf). unfold db_model. rewrite Hnone.
  unfold bind at 1.
  destruct (create_context_no_fault GROUP uid ("群聊_" +:+ g) (Some [uid]) None
              w (conj Hf Hc) ltac:(discriminate))
    as (u & c & w' & Hrun & Hid & _ & _ & _ & Hin & Hparts & Hq' & _ & Hoth & _).
  rewrite Hrun.
  rewrite bool_decide_eq_true_2 by exact Hin.
  unfold bind, ret.
  exists c, w'. split; [reflexivity|].
  assert (Hne : "group_" +:+ g <> "ctx_" +:+ u) by discriminate.
  split; [rewrite Hid; congruence|].
  split; [apply Hparts; reflexivity|].
  split; [exact Hq'|].
  rewrite (Hoth _ Hne). exact Hnone.
Qed.

Lemma first_private_session uid uname w :
  quiet w ->
  users_tbl w !! uid = None ->
  exists c w',
    MessageRouter._get_or_create_context default_storage uid uname
      None PRIVATE w = (Ok (Some c), w') /\
    clock w' = clock w /\ status c = ACTIVE /\
    ContextManager.get_user_context default_storage uid w' = (Ok (Some c), w').
Proof.
  intros Hq Hnew.
  destruct (create_context_no_fault PRIVATE uid ("私聊_" +:+ uname)
              (Some [uid]) None w Hq ltac:(discriminate))
    as (u & c & w' & Hrun & _ & Hst & _ & _ & _ & _ & _ & Hclk & _ & Hcur).
  exists c, w'. split; [|auto].
  unfold MessageRouter._get_or_create_context, try_except.
  rewrite bool_decide_eq_true_2 by reflexivity.
  unfold bind at 1.
  assert (Hget : ContextManager.get_user_context default_storage uid w
                 = (Ok None, w)).
  { unfold ContextManager.get_user_context. unfold bind at 1.
    destruct Hq as [Hf _].
    rewrite (user_repo_get_no_fault _ _ Hf), Hnew. reflexivity. }
  rewrite Hget. unfold bind, ret. rewrite Hrun. reflexivity.
Qed.

(** X24. A private session is found again. With no storage fault, the
    first private message of a user without a row creates a session, and
    asking again returns this very session without creating another. *)
Theorem private_session_reused :
  forall uid uname w,
    quiet w ->
    users_tbl w !! uid = None ->
    exists c w',
      MessageRouter._get_or_create_context default_storage uid uname
        None PRIVATE w = (Ok (Some c), w') /\
      MessageRouter._get_or_create_context default_storage uid uname
        None PRIVATE w' = (Ok (Some c), w').
Proof.
  intros uid uname w Hq Hnew.
  destruct (first_private_session uid uname w Hq Hnew)
    as (c & w' & Hrun & _ & Hst & Hcur).
  exists c, w'. split; [exact Hrun|].
  unfold MessageRouter._get_or_create_context, try_except.
  rewrite bool_decide_eq_true_2 by reflexivity.
  unfold bind at 1. rewrite Hcur.
  unfold MessageRouter.is_active_context. rewrite Hst.
  rewrite bool_decide_eq_true_2 by reflexivity. reflexivity.
Qed.

(** X25. A message type given by the NAME of a member of [MessageType]
    ("TEXT", "IMAGE", ...) makes the router fail: for a user let through
    with a session, the conversion raises, nothing is handed to the
    pipeline, and the answer is success=False with the apology and the
    text of the enumeration error. *)
Theorem route_message_member_name_rejected :
  forall re_compile extract_numbers storage lgm uid uname text gid mtype
         w cr w1 c w2,
    MessageRouter._pre_check uid (snd (IDHelper.generate_message_id w))
      = (Ok cr, w1) ->
    allowed cr = true ->
    MessageRouter._get_or_create_context storage uid uname gid
      (match gid with None => PRIVATE | Some _ => GROUP end) w1
      = (Ok (Some c), w2) ->
    mtype ∈ MessageRouter.MessageType_members ->
    MessageRouter.route_message re_compile extract_numbers storage lgm
      uid uname text gid mtype w
    = (Ok {| success := false;
             mpr_response := "抱歉，处理您的消息时出现错误。";
             error := Some ("'" +:+ mtype +:+ "' is not a valid MessageType");
             processing_time_ms :=
               MessageRouter._calculate_elapsed_ms (clock w) (clock w2);
             tokens_used := 0; state_snapshot := None |}, w2).
Proof.
  intros re_compile extract_numbers storage lgm uid uname text gid mtype
         w cr w1 c w2 Hpre Hall Hctx Hmem.
  unfold MessageRouter.route_message. unfold bind at 1. unfold now, gets.
  unfold bind at 1.
  destruct (generate_message_id_total w) as (mid & Hmid). rewrite Hmid.
  unfold try_except. unfold bind at 1. rewrite Hpre, Hall. cbn [negb].
  unfold bind at 1. rewrite Hctx.
  unfold bind at 1. unfold bind at 1.
  unfold MessageRouter.message_type_of.
  rewrite bool_decide_eq_true_2 by exact Hmem.
  unfold lift, bind, ret. reflexivity.
Qed.

(** *** IntentRecognizer *)

Lemma in_unit_from_spec fuel z0 z :
  in_unit_from fuel z0 = true ->
  z0 <= z < z0 + Z.of_nat fuel ->
  forall short, in_unit (confidence_at z short) = true.
Proof.
  revert z0. induction fuel as [|k IH]; intros z0 Hall Hz; [lia|].
  cbn [in_unit_from] in Hall.
  apply andb_true_iff in Hall as [Hall Hrest].
  apply andb_true_iff in Hall as [Ht Hf].
  destruct (Z.eq_dec z z0) as [->|Hne].
  - intros [|]; assumption.
  - apply (IH (z0 + 1) Hrest). lia.
Qed.

Lemma confidences_evaluated :
  in_unit_from KEYWORDS_EVALUATED 1 = true.
Proof. vm_compute. reflexivity. Qed.

Lemma match_count_le text kws :
  (IntentRecognizer.match_count text kws <= length kws)%nat.
Proof. unfold IntentRecognizer.match_count. apply List.filter_length_le. Qed.

Lemma keyword_confidence_bounds text kws :
  (length kws <= KEYWORDS_EVALUATED)%nat ->
  in_unit (IntentRecognizer._calculate_keyword_confidence text kws) = true.
Proof.
  intros Hlen. pose proof (match_count_le text kws) as Hle.
  unfold IntentRecognizer._calculate_keyword_confidence.
  destruct (IntentRecognizer.match_count text kws =? 0)%nat eqn:Hz;
    [vm_compute; reflexivity|].
  apply Nat.eqb_neq in Hz. cbv zeta.
  change (in_unit (confidence_at
                     (Z.of_nat (IntentRecognizer.match_count text kws))
                     (py_len text <? 20)) = true).
  apply (in_unit_from_spec KEYWORDS_EVALUATED 1 _ confidences_evaluated).
  lia.
Qed.

Lemma scan_rules_intent self text rs r :
  IntentRecognizer.scan_rules self text rs = Some r -> intent r <> COMMAND.
Proof.
  induction rs as [|rule rest IH]; [discriminate|].
  cbn [IntentRecognizer.scan_rules].
  destruct (bool_decide (rule_intent rule = COMMAND)) eqn:Hc; [exact IH|].
  apply bool_decide_eq_false in Hc.
  destruct (IntentRecognizer.keyword_hit text rule).
  - intros [= <-]. exact Hc.
  - destruct (IntentRecognizer.pattern_hit self text rule); [|exact IH].
    intros [= <-]. exact Hc.
Qed.

Lemma scan_rules_confidence self text rs r :
  Forall (fun rule => (length (keywords rule) <= KEYWORDS_EVALUATED)%nat) rs ->
  IntentRecognizer.scan_rules self text rs = Some r ->
  in_unit (confidence r) = true.
Proof.
  intros Hall. induction Hall as [|rule rest Hrule Hall IH]; [discriminate|].
  cbn [IntentRecognizer.scan_rules].
  destruct (bool_decide (rule_intent rule = COMMAND)); [exact IH|].
  destruct (IntentRecognizer.keyword_hit text rule).
  - intros [= <-]. cbn [confidence].
    apply keyword_confidence_bounds. exact Hrule.
  - destruct (IntentRecognizer.pattern_hit self text rule); [|exact IH].
    intros [= <-]. vm_compute. reflexivity.
Qed.

(** X26. The confidence the rule-based recognizer reports lies between 0
    and 1 as a binary64 number, whatever the text, for every recognizer
    whose rules list at most 65536 keywords each (the confidences for
    these numbers of keywords are evaluated one by one), so that
    assigning its result to the state does not violate the bounds the
    state model puts on [intent_confidence]. *)
Theorem recognize_confidence_in_bounds :
  forall self text,
    Forall (fun rule => (length (keywords rule) <= KEYWORDS_EVALUATED)%nat)
           (IntentRecognizer.rules self) ->
    PrimFloat.leb 0 (confidence (IntentRecognizer.recognize_sync self text))
    = true /\
    PrimFloat.leb (confidence (IntentRecognizer.recognize_sync self text)) 1
    = true /\
    forall st, exists st',
      LangGraphManager.assign_intent
        (IntentRecognizer.recognize_sync self text) st = Ok st'.
Proof.
  intros self text Hall.
  assert (H : in_unit (confidence (IntentRecognizer.recognize_sync self text))
              = true).
  { unfold IntentRecognizer.recognize_sync.
    destruct (bool_decide (strip text = "")); [vm_compute; reflexivity|].
    unfold IntentRecognizer._recognize_by_rules.
    destruct (EntityHelper.has_command _ && _); [vm_compute; reflexivity|].
    destruct (IntentRecognizer.scan_rules self (strip text)
                (IntentRecognizer.rules self)) as [r|] eqn:Hs.
    - eapply scan_rules_confidence; eauto.
    - vm_compute. reflexivity. }
  pose proof H as H'. unfold in_unit in H'.
  apply andb_true_iff in H' as [H0 H1].
  split; [exact H0|]. split; [exact H1|].
  intros st. unfold LangGraphManager.assign_intent.
  rewrite H0, H1. eexists. reflexivity.
Qed.

(** X27. The recognizer answers COMMAND in one way only: the stripped
    text starts with "/" or with the full-width "！" and contains a
    keyword of some COMMAND rule. The patterns of a COMMAND rule are
    never consulted, so a command that is not among the keywords is
    classified by the other rules. *)
Theorem command_intent_needs_known_keyword :
  forall self text,
    intent (IntentRecognizer.recognize_sync self text) = COMMAND <->
    strip text <> "" /\
    (startswith "/" (strip text) || startswith "！" (strip text)) = true /\
    exists rule kw,
      In rule (IntentRecognizer.rules self) /\ rule_intent rule = COMMAND /\
      In kw (keywords rule) /\ contains kw (strip text) = true.
Proof.
  intros self text. unfold IntentRecognizer.recognize_sync.
  destruct (bool_decide (strip text = "")) eqn:He.
  - apply bool_decide_eq_true in He. cbn. split; [discriminate|].
    intros [Hne _]. contradiction.
  - apply bool_decide_eq_false in He.
    unfold IntentRecognizer._recognize_by_rules.
    cbn [EntityHelper.has_command EntityHelper.extract_intent_hints].
    assert (Hhit : IntentRecognizer.command_hit self (strip text) = true <->
              exists rule kw,
                In rule (IntentRecognizer.rules self) /\
                rule_intent rule = COMMAND /\
                In kw (keywords rule) /\ contains kw (strip text) = true).
    { unfold IntentRecognizer.command_hit. rewrite existsb_exists. split.
      - intros (rule & Hin & H). apply andb_true_iff in H as [Hc Hk].
        apply bool_decide_eq_true in Hc. apply existsb_exists in Hk.
        destruct Hk as (kw & Hkw & Hcont). exists rule, kw. auto.
      - intros (rule & kw & Hin & Hc & Hkw & Hcont). exists rule.
        split; [exact Hin|]. apply andb_true_iff. split.
        + apply bool_decide_eq_true. exact Hc.
        + apply existsb_exists. exists kw. auto. }
    destruct (startswith "/" (strip text) || startswith "！" (strip text))
      eqn:Hp; cbn [andb].
    + destruct (IntentRecognizer.command_hit self (strip text)) eqn:Hc.
      * cbn. split; [|reflexivity]. intros _. split; [exact He|].
        split; [reflexivity|]. apply Hhit. reflexivity.
      * split.
        -- intros Hi. exfalso.
           destruct (IntentRecognizer.scan_rules self (strip text)
                       (IntentRecognizer.rules self)) as [r|] eqn:Hs.
           ++ apply scan_rules_intent in Hs. contradiction.
           ++ discriminate.
        -- intros (_ & _ & Hex). apply Hhit in Hex. discriminate.
    + split.
      * intros Hi. exfalso.
        destruct (IntentRecognizer.scan_rules self (strip text)
                    (IntentRecognizer.rules self)) as [r|] eqn:Hs.
        -- apply scan_rules_intent in Hs. contradiction.
        -- discriminate.
      * intros (_ & Hf & _). discriminate.
Qed.

(** *** LangGraphManager *)

Lemma error_handler_response st :
  response (LangGraphManager._error_handler_node st) <> "".
Proof.
  unfold LangGraphManager._error_handler_node.
  repeat match goal with
         | |- context [if ?b then _ else _] => destruct b
         end; cbn; discriminate.
Qed.

Lemma default_response_nonempty st :
  LangGraphManager._generate_default_response st <> "".
Proof.
  unfold LangGraphManager._generate_default_response.
  destruct (rs_intent st); cbn; discriminate.
Qed.

Lemma default_generator_response self st :
  LangGraphManager.response_generator self = None ->
  response (LangGraphManager._response_generator_node self st) <> "".
Proof.
  intros Hnone. unfold LangGraphManager._response_generator_node.
  rewrite Hnone. cbn [response with_stage with_response].
  apply default_response_nonempty.
Qed.

(** X28. Without a response generator of its own the pipeline never
    answers with an empty text: whatever the message and the classifier,
    the final state carries a built-in reply or one of the fixed
    apologies. *)
Theorem default_pipeline_never_silent :
  forall re_compile extract_numbers self st,
    LangGraphManager.response_generator self = None ->
    response (LangGraphManager.process re_compile extract_numbers self st)
    <> "".
Proof.
  intros re_compile extract_numbers self st Hnone.
  unfold LangGraphManager.process. cbn [response with_stage].
  unfold LangGraphManager.run_graph.
  destruct (LangGraphManager._should_continue_after_input _);
    try apply error_handler_response;
    (destruct (LangGraphManager._route_by_intent _);
     try apply error_handler_response;
     try (apply default_generator_response; exact Hnone);
     destruct (LangGraphManager._should_continue_after_context _);
     try apply error_handler_response;
     apply default_generator_response; exact Hnone).
Qed.

(** X29. When the intent classifier raises an exception with a text,
    the pipeline records the text with the code INTENT_CLASSIFY_ERROR,
    sets the intent to UNKNOWN and answers with the apology of the error
    handler, whatever the response generator would have said; it still
    ends in the stage COMPLETED. If the exception carries no text the
    error goes unnoticed: the message is routed on as an ordinary one
    and, without a response generator, gets the built-in reply for an
    unknown intent. *)
Theorem classifier_failure_handling :
  forall re_compile extract_numbers self f st e,
    LangGraphManager.intent_classifier self = Some f ->
    error_message st = "" ->
    f (TextHelper.clean_text (message_content st)) = Raise e ->
    let final := LangGraphManager.process re_compile extract_numbers self st in
    processing_stage final = COMPLETED /\
    (e <> "" ->
     rs_intent final = UNKNOWN /\ error_message final = e /\
     rs_error_code final = Some "INTENT_CLASSIFY_ERROR" /\
     response final = "抱歉，我无法理解您的意思。") /\
    (e = "" -> LangGraphManager.response_generator self = None ->
     rs_intent final = UNKNOWN /\ error_message final = "" /\
     rs_error_code final = Some "INTENT_CLASSIFY_ERROR" /\
     response final = "我收到了你的消息。").
Proof.
  intros re_compile extract_numbers self f st e Hf Herr Hraise final.
  subst final. split; [reflexivity|].
  unfold LangGraphManager.process, LangGraphManager.run_graph.
  unfold LangGraphManager._should_continue_after_input.
  cbn [error_message LangGraphManager._input_processor_node with_stage
       with_content].
  rewrite Herr. rewrite bool_decide_eq_false_2 by (intros H; apply H; reflexivity).
  unfold LangGraphManager._intent_classifier_node. rewrite Hf.
  cbn [message_content LangGraphManager._input_processor_node with_stage
       with_content].
  rewrite Hraise.
  unfold LangGraphManager._route_by_intent.
  cbn [error_message rs_intent LangGraphManager.with_unknown_intent
       with_error with_intent with_stage with_content].
  split.
  - intros Hne. rewrite bool_decide_eq_true_2 by exact Hne.
    unfold LangGraphManager._error_handler_node.
    cbn [rs_error_code with_stage LangGraphManager.with_unknown_intent
         with_error with_intent with_content].
    rewrite bool_decide_eq_true_2 by reflexivity.
    cbn. repeat split.
  - intros -> Hnone.
    rewrite bool_decide_eq_false_2 by (intros H; apply H; reflexivity).
    unfold LangGraphManager._response_generator_node. rewrite Hnone.
    cbn. repeat split.
Qed.

(** *** TextHelper.truncate_text *)

Lemma py_len_nonneg s : 0 <= py_len s.
Proof.
  induction s as [|c r IH]; cbn; [lia|]. destruct (is_continuation c); lia.
Qed.

Lemma py_len_app a b : py_len (a +:+ b) = py_len a + py_len b.
Proof.
  induction a as [|c r IH]; [reflexivity|].
  change (String c r +:+ b) with (String c (r +:+ b)).
  cbn [py_len]. rewrite IH. lia.
Qed.

Lemma py_len_take s : forall n,
  py_len (py_take n s) = Z.min (Z.of_nat n) (py_len s).
Proof.
  induction s as [|c r IH]; intros n; cbn [py_take py_len].
  - lia.
  - pose proof (py_len_nonneg r) as Hr.
    destruct (is_continuation c) eqn:Hc.
    + cbn [py_len]. rewrite Hc, IH. lia.
    + destruct n as [|k].
      * cbn [py_len]. lia.
      * cbn [py_len]. rewrite Hc, IH. lia.
Qed.

(** X30. [truncate_text] returns a text of at most [max_length]
    characters by itself when it fits, and cuts a longer one to exactly
    [max_length] characters, suffix included, provided the suffix is not
    longer than [max_length]. When the suffix is longer than
    [max_length] the result of a cut is longer than [max_length]: it is
    the text without its last characters, followed by the whole suffix. *)
Theorem truncate_text_length :
  forall text max_length suffix,
    (py_len text <= max_length ->
     TextHelperMore.truncate_text text max_length suffix = text) /\
    (py_len suffix <= max_length < py_len text ->
     py_len (TextHelperMore.truncate_text text max_length suffix)
     = max_length) /\
    (max_length < py_len text -> max_length < py_len suffix ->
     py_len (TextHelperMore.truncate_text text max_length suffix)
     = Z.max 0 (py_len text + max_length - py_len suffix) + py_len suffix /\
     max_length
     < py_len (TextHelperMore.truncate_text text max_length suffix)).
Proof.
  intros text m suffix. unfold TextHelperMore.truncate_text.
  pose proof (py_len_nonneg text) as Ht.
  pose proof (py_len_nonneg suffix) as Hs.
  split; [|split].
  - intros H. apply Z.leb_le in H. rewrite H. reflexivity.
  - intros [H1 H2].
    assert (H : (py_len text <=? m) = false) by (apply Z.leb_gt; lia).
    rewrite H, py_len_app. unfold slice_to.
    assert (H0 : (m - py_len suffix <? 0) = false) by (apply Z.ltb_ge; lia).
    rewrite H0, py_len_take. lia.
  - intros H1 H2.
    assert (H : (py_len text <=? m) = false) by (apply Z.leb_gt; lia).
    rewrite H, py_len_app. unfold slice_to.
    assert (H0 : (m - py_len suffix <? 0) = true) by (apply Z.ltb_lt; lia).
    rewrite H0, py_len_take. split; lia.
Qed.

(** *** ContextManager.add_message: the history stays bounded *)




(** ** Concrete runs *)

(** C3 as stated fails: the daily reset is due, the amount exceeds what is
    left before and after the reset, [consume] answers False, and
    [daily_used] went from 3000 to 0. *)
Lemma consume_rejected_resets_daily_used :
  quotas_tbl stale_world !! "u" = Some stale_quota /\
  daily_remaining stale_quota < 6000 /\
  daily_remaining (after_lazy_reset (clock stale_world) stale_quota) < 6000 /\
  match TokenController.consume "u" 6000 stale_world with
  | (r, w') =>
      r = Ok false /\
      daily_used <$> quotas_tbl w' !! "u" = Some 0 /\
      daily_used stale_quota = 3000
  end.
Proof. vm_compute. repeat split; reflexivity. Qed.

(** C10 as stated fails: a negative limit is not zero and smaller than
    the length of the history "a", "b", "c", so the history is cut: with
    limit -1 the first entry is gone, with limit -5 all of them. *)
Lemma get_messages_negative_limit_truncates :
  ContextManager.get_messages default_storage "ctx_2" None abc_world
    = (Ok [sample_message 1 "a"; sample_message 2 "b"; sample_message 3 "c"],
       abc_world) /\
  ContextManager.get_messages default_storage "ctx_2" (Some (-1)) abc_world
    = (Ok [sample_message 2 "b"; sample_message 3 "c"], abc_world) /\
  ContextManager.get_messages default_storage "ctx_2" (Some (-5)) abc_world
    = (Ok [], abc_world) /\
  ~ (0 < -1) /\ ~ (0 < -5).
Proof.
  split; [vm_compute; reflexivity|]. split; [vm_compute; reflexivity|].
  split; [vm_compute; reflexivity|]. split; lia.
Qed.

Lemma ban_is_active_spec_witness :
  ban_type temporary_ban = TEMPORARY /\
  b_expires_at temporary_ban = Some (2000 * usec) /\
  ban_is_active (2000 * usec - 1) temporary_ban = true /\
  ban_is_active (2000 * usec) temporary_ban = false.
Proof.
  split; [reflexivity|]. split; [reflexivity|].
  exact (proj1 (proj2 (proj2 ban_is_active_spec))
           temporary_ban (2000 * usec) eq_refl eq_refl).
Defined.

Lemma hybrid_save_strict_and_witness :
  cache_faults (set_cache_faults [true] fresh_world) = [true] /\
  db_faults (set_cache_faults [true] fresh_world) = [] /\
  exists w2,
    storage_save default_storage small_context
      (set_cache_faults [true] fresh_world) = (Ok false, w2) /\
    is_Some (contexts_tbl w2 !! context_id small_context) /\
    redis_ctx w2 = redis_ctx (set_cache_faults [true] fresh_world).
Proof.
  split; [reflexivity|]. split; [reflexivity|].
  exact (proj1 (proj2 hybrid_save_strict_and) small_context
           (set_cache_faults [true] fresh_world) [] eq_refl eq_refl).
Defined.

Lemma consume_rejection_charges_nothing_witness :
  quotas_tbl stale_world !! "u" = Some stale_quota /\
  daily_remaining (after_lazy_reset (clock stale_world) stale_quota) < 6000 /\
  fst (TokenController.consume "u" 6000 stale_world) <> Ok true /\
  exists row', quotas_tbl (snd (TokenController.consume "u" 6000 stale_world))
                 !! "u" = Some row' /\ used row' = used stale_quota.
Proof.
  assert (H1 : quotas_tbl stale_world !! "u" = Some stale_quota)
    by (vm_compute; reflexivity).
  assert (H2 : daily_remaining
                 (after_lazy_reset (clock stale_world) stale_quota) < 6000)
    by (vm_compute; reflexivity).
  split; [exact H1|]. split; [exact H2|].
  destruct (proj1 consume_rejection_charges_nothing stale_world "u" 6000
              stale_quota _ _ H1 (or_intror H2)
              (surjective_pairing _)) as (Hr & _ & row' & Hrow & Hu & _).
  split; [exact Hr|]. exists row'. split; [exact Hrow|exact Hu].
Defined.


Lemma pre_check_minute_window_full_witness :
  db_faults busy_world = [] /\
  active_ban "u" busy_world = None /\
  quotas_tbl busy_world !! "u" = Some busy_quota /\
  remaining busy_quota = 49900 /\ daily_remaining busy_quota = 4900 /\
  is_minute_limit_exceeded (clock busy_world) busy_quota = true /\
  fst (MessageRouter._pre_check "u" busy_world)
  = Ok {| allowed := false; cr_reason := "请求过于频繁，请稍后再试";
          error_code := Some "QUOTA_EXCEEDED" |}.
Proof.
  assert (H1 : quotas_tbl busy_world !! "u" = Some busy_quota)
    by (vm_compute; reflexivity).
  repeat (split; [first [exact H1 | reflexivity]|]).
  rewrite (pre_check_minute_window_full busy_world "u" busy_quota
             eq_refl eq_refl H1 eq_refl eq_refl).
  reflexivity.
Defined.

Lemma route_message_denied_frame_witness :
  db_faults banned_world = [] /\
  active_ban "u" banned_world = Some permanent_ban /\
  exists w1,
    MessageRouter.route_message no_patterns no_numbers default_storage
      failing_manager "u" "U" "hi" None "text" banned_world
    = (Ok {| success := false;
             mpr_response := ban_text (clock banned_world) permanent_ban;
             error := Some "USER_BANNED"; processing_time_ms := 0;
             tokens_used := 0; state_snapshot := None |}, w1)
    /\ session_view w1 = session_view banned_world.
Proof.
  split; [reflexivity|]. split; [reflexivity|].
  exact (proj2 route_message_denied_frame no_patterns no_numbers
           default_storage failing_manager "u" "U" "hi" None "text"
           banned_world permanent_ban eq_refl eq_refl).
Defined.

Lemma route_message_admitted_outcome_witness :
  exists res w',
    MessageRouter.route_message no_patterns no_numbers default_storage
      failing_manager "u" "U" "hi" None "text" fresh_world = (Ok res, w') /\
    success res = true /\ error res = None /\
    mpr_response res = "抱歉，生成回复时出现错误。" /\
    error_message <$> state_snapshot res = Some "boom".
Proof.
  edestruct (route_message_admitted_outcome no_patterns no_numbers
               default_storage failing_manager "u" "U" "hi" None "text"
               fresh_world)
    as (res & w' & Hrun & _ & _ & Hsome).
  - vm_compute. reflexivity.
  - vm_compute. reflexivity.
  - reflexivity.
  - vm_compute. reflexivity.
  - destruct (Hsome _ eq_refl) as [_ Hmt].
    destruct (Hmt TEXT eq_refl) as [_ Hadd].
    edestruct Hadd as [_ Hfull]; [vm_compute; reflexivity|].
    destruct Hfull as [_ Hrobot]; [vm_compute; discriminate|].
    edestruct Hrobot as (Hs & He & Hr & Hsnap); [vm_compute; reflexivity|].
    exists res, w'. split; [exact Hrun|]. split; [exact Hs|].
    split; [exact He|]. split; [rewrite Hr; vm_compute; reflexivity|].
    rewrite Hsnap. vm_compute. reflexivity.
Defined.


Lemma get_messages_limit_witness :
  storage_get default_storage "ctx_2" abc_world
    = (Ok (Some abc_context), abc_world) /\
  ContextManager.get_messages default_storage "ctx_2" (Some 0) abc_world
    = (Ok (messages abc_context), abc_world) /\
  ContextManager.get_messages default_storage "ctx_2" (Some 2) abc_world
    = (Ok [sample_message 2 "b"; sample_message 3 "c"], abc_world) /\
  ContextManager.get_messages default_storage "ctx_2" (Some (-2)) abc_world
    = (Ok [sample_message 3 "c"], abc_world).
Proof.
  assert (H : storage_get default_storage "ctx_2" abc_world
              = (Ok (Some abc_context), abc_world))
    by (vm_compute; reflexivity).
  split; [exact H|].
  pose proof (get_messages_limit default_storage "ctx_2" abc_world
                abc_context abc_world H) as (H0 & _ & Hl & _ & Hneg & _).
  split; [exact H0|].
  destruct (Hl 2) as [H2 _]; [cbn; lia|]. split; [exact H2|].
  destruct (Hneg (-2)) as [H3 _]; [lia|]. exact H3.
Defined.


(** ** Concrete runs of the further properties *)

Lemma consume_charges_exactly_witness :
  exists w',
    TokenController.consume "u" 10 roomy_world = (Ok true, w') /\
    quotas_tbl w'
    = <["u" := with_request (clock roomy_world)
                 (with_charge 10
                    (after_lazy_reset (clock roomy_world)
                       (quota_model "u" (clock roomy_world) roomy_quota)))]>
        (quotas_tbl roomy_world) /\
    (forall u, u <> "u" -> quotas_tbl w' !! u = quotas_tbl roomy_world !! u).
Proof.
  exact (consume_charges_exactly roomy_world "u" 10 roomy_quota
           eq_refl ltac:(vm_compute; reflexivity) eq_refl
           ltac:(vm_compute; discriminate) ltac:(vm_compute; discriminate)
           eq_refl).
Defined.

Lemma consume_negative_poisons_row_witness :
  exists w' row',
    TokenController.consume "u" (-200) roomy_world = (Ok true, w') /\
    quotas_tbl w' !! "u" = Some row' /\
    storable row' = true /\ used row' = used roomy_quota + -200 /\
    forall t,
      TokenController.get_quota "u" (set_clock t w')
      = (Raise "ValidationError", set_clock t w').
Proof.
  exact (consume_negative_poisons_row roomy_world "u" (-200) roomy_quota
           eq_refl ltac:(vm_compute; reflexivity) eq_refl eq_refl
           ltac:(vm_compute; reflexivity) ltac:(lia)
           ltac:(vm_compute; reflexivity)).
Defined.

Lemma get_quota_idempotent_witness :
  TokenController.get_quota "u"
    (snd (TokenController.get_quota "u" fresh_world))
  = (Ok (default_quota "u" (clock fresh_world)),
     snd (TokenController.get_quota "u" fresh_world)).
Proof.
  exact (get_quota_idempotent fresh_world "u"
           (default_quota "u" (clock fresh_world))
           (snd (TokenController.get_quota "u" fresh_world))
           eq_refl ltac:(vm_compute; reflexivity)).
Defined.

Lemma consume_charged_but_raises_witness :
  exists w',
    TokenController.consume "u" 10
      (set_db_faults [false; false; false; true] roomy_world)
    = (Raise "database error", w') /\
    quotas_tbl w'
    = <["u" := with_charge 10
                 (quota_model "u" (clock roomy_world) roomy_quota)]>
        (quotas_tbl roomy_world) /\
    db_faults w' = [].
Proof.
  exact (consume_charged_but_raises
           (set_db_faults [false; false; false; true] roomy_world)
           "u" 10 roomy_quota [] eq_refl
           ltac:(vm_compute; reflexivity) eq_refl eq_refl
           ltac:(vm_compute; discriminate) ltac:(vm_compute; discriminate)
           eq_refl).
Defined.

Lemma unvalidated_limit_locks_record_witness :
  exists w' row',
    TokenControllerMore.set_minute_limit "u" 0 roomy_world = (Ok true, w') /\
    quotas_tbl w' !! "u" = Some row' /\
    storable row' = true /\ minute_limit row' = 0 /\
    forall t, TokenController.get_quota "u" (set_clock t w')
              = (Raise "ValidationError", set_clock t w').
Proof.
  exact (proj1 (unvalidated_limit_locks_record roomy_world "u" roomy_quota
                  eq_refl ltac:(vm_compute; reflexivity) eq_refl eq_refl)
           0 ltac:(lia)).
Defined.

Lemma reset_user_restores_budget_witness :
  exists w',
    TokenControllerMore.reset_user "u" busy_world = (Ok true, w') /\
    (exists row', quotas_tbl w' !! "u" = Some row' /\
       used row' = 0 /\ daily_used row' = 0 /\ minute_requests row' = [] /\
       total_quota row' = total_quota busy_quota /\
       daily_limit row' = daily_limit busy_quota /\
       minute_limit row' = minute_limit busy_quota) /\
    forall n, n <= total_quota busy_quota -> n <= daily_limit busy_quota ->
      TokenController.check_quota "u" n w' = (Ok (true, ""), w').
Proof.
  exact (reset_user_restores_budget busy_world "u" busy_quota
           eq_refl ltac:(vm_compute; reflexivity) eq_refl).
Defined.

Lemma ban_user_takes_effect_witness :
  (exists w',
     BanManagerMore.ban_user "u" SPAMMING TEMPORARY (Some 2) "spam"
       fresh_world
     = (Ok (ban_record_of "u" SPAMMING TEMPORARY (Some 2) "spam"
              (clock fresh_world)), w') /\
     BanManager.is_banned "u" (set_clock (8199 * usec) w')
     = (Ok true, set_clock (8199 * usec) w')) /\
  exists e,
    BanManagerMore.ban_user "u" SPAMMING TEMPORARY (Some (10 ^ 10)) "spam"
      fresh_world
    = (Raise e, fresh_world).
Proof.
  split.
  - destruct (proj1 (ban_user_takes_effect fresh_world "u" SPAMMING TEMPORARY
                       (Some 2) "spam") eq_refl
                ltac:(intros _; split; vm_compute; reflexivity))
      as (w' & Hrun & _ & _ & _ & _ & Hban).
    exists w'. split; [exact Hrun|].
    apply Hban. right. vm_compute. reflexivity.
  - apply (proj2 (ban_user_takes_effect fresh_world "u" SPAMMING TEMPORARY
                    (Some (10 ^ 10)) "spam") eq_refl).
    right. vm_compute. reflexivity.
Defined.

Lemma unban_keeps_permanent_ban_witness :
  exists w',
    BanManagerMore.unban_user "u" banned_world = (Ok true, w') /\
    (forall u, users_tbl banned_world !! "u" = Some u ->
       is_banned <$> users_tbl w' !! "u" = Some false) /\
    forall t, BanManager.is_banned "u" (set_clock t w')
              = (Ok true, set_clock t w').
Proof.
  exact (unban_keeps_permanent_ban banned_world "u" permanent_ban
           eq_refl eq_refl eq_refl eq_refl).
Defined.

Lemma unban_lifts_sole_temporary_ban_witness :
  exists w',
    BanManagerMore.unban_user "u" tempban_world = (Ok true, w') /\
    forall t, clock tempban_world <= t ->
      BanManager.is_banned "u" (set_clock t w')
      = (Ok false, set_clock t w').
Proof.
  exact (proj2 unban_lifts_sole_temporary_ban tempban_world "u" temporary_ban
           eq_refl eq_refl eq_refl eq_refl).
Defined.

Lemma detect_abuse_isolated_witness :
  exists res w',
    BanManager.detect_abuse DEFAULT_DETECTION_RULES "u" "hi" 0 fresh_world
    = (Ok res, w') /\
    outside_trackers w' = outside_trackers fresh_world /\
    forall u, u <> "u" -> trackers_of u w' = trackers_of u fresh_world.
Proof.
  exact (detect_abuse_isolated DEFAULT_DETECTION_RULES "u" "hi" 0 fresh_world).
Defined.

Lemma hybrid_get_cache_hit_witness :
  db_faults (set_db_faults [true] abc_world) = [true] /\
  storage_get default_storage "ctx_2" (set_db_faults [true] abc_world)
  = (Ok (Some (without_role abc_context)), set_db_faults [true] abc_world).
Proof.
  split; [reflexivity|].
  exact (hybrid_get_cache_hit "ctx_2" (set_db_faults [true] abc_world)
           (5000 * usec) abc_context eq_refl
           ltac:(vm_compute; reflexivity) ltac:(vm_compute; reflexivity)
           ltac:(vm_compute; discriminate)).
Defined.

Lemma hybrid_get_cache_miss_witness :
  storage_get default_storage "ctx_2" stored_world
  = (Ok (Some stored_context), cache_put stored_context stored_world) /\
  context_id stored_context = "ctx_2" /\
  messages stored_context
  = ContextRepository.messages_of "ctx_2" (messages_tbl stored_world) /\
  max_messages stored_context = 200.
Proof.
  exact (hybrid_get_cache_miss "ctx_2" stored_world stored_context
           eq_refl eq_refl ltac:(vm_compute; exact I)
           ltac:(vm_compute; reflexivity)).
Defined.

Lemma hybrid_save_then_get_witness :
  exists w',
    storage_save default_storage small_context fresh_world = (Ok true, w') /\
    forall t, t < clock fresh_world + 3600 * usec ->
      storage_get default_storage (context_id small_context) (set_clock t w')
      = (Ok (Some (without_role small_context)), set_clock t w').
Proof.
  exact (hybrid_save_then_get small_context fresh_world eq_refl eq_refl
           ltac:(vm_compute; discriminate)).
Defined.

Lemma hybrid_delete_is_soft_witness :
  exists w',
    storage_delete default_storage "ctx_2" stored_world = (Ok true, w') /\
    redis_ctx w' !! "ctx_2" = None /\
    messages_tbl w' = messages_tbl stored_world /\
    exists c w'',
      storage_get default_storage "ctx_2" w' = (Ok (Some c), w'') /\
      status c = DELETED /\
      messages c
      = ContextRepository.messages_of "ctx_2" (messages_tbl stored_world).
Proof.
  exact (proj1 hybrid_delete_is_soft "ctx_2" stored_world
           (ContextRepository.columns stored_context) eq_refl eq_refl
           ltac:(vm_compute; reflexivity)).
Defined.

Lemma add_message_appends_one_row_witness :
  match ContextManager.add_message default_storage "ctx_2" "u" "U" "d"
          TEXT USER false abc_world with
  | (r, w') =>
      (messages_tbl w' = messages_tbl abc_world /\ r <> Ok true) \/
      exists m,
        messages_tbl w' = (messages_tbl abc_world ++ [("ctx_2", m)])%list /\
        sender_id m = "u" /\ role m = USER /\ content m = "d" /\
        message_type m = TEXT /\ timestamp m = clock abc_world
  end.
Proof.
  destruct (ContextManager.add_message default_storage "ctx_2" "u" "U" "d"
              TEXT USER false abc_world) as [r w'] eqn:E.
  exact (add_message_appends_one_row "ctx_2" "u" "U" "d" TEXT USER false
           abc_world r w' E).
Defined.

Lemma abc_world_keyed : cache_keyed abc_world.
Proof.
  intros k expiry c H. cbn in H.
  apply lookup_singleton_Some in H as [<- [= <- <-]]. reflexivity.
Defined.

Lemma add_message_then_get_messages_witness :
  exists ms m,
    ContextManager.get_messages default_storage "ctx_2" None
      (snd (ContextManager.add_message default_storage "ctx_2" "u" "U" "d"
              TEXT USER false abc_world))
    = (Ok (ms ++ [m])%list,
       snd (ContextManager.add_message default_storage "ctx_2" "u" "U" "d"
              TEXT USER false abc_world)) /\
    sender_id m = "u" /\ role m = USER /\ content m = "d" /\
    timestamp m = clock abc_world.
Proof.
  exact (add_message_then_get_messages "ctx_2" "u" "U" "d" TEXT USER false
           abc_world
           (snd (ContextManager.add_message default_storage "ctx_2" "u" "U"
                   "d" TEXT USER false abc_world))
           (conj eq_refl eq_refl) abc_world_keyed
           ltac:(vm_compute; reflexivity)).
Defined.

Lemma create_context_becomes_current_witness :
  (exists c w',
     ContextManager.create_context default_storage PRIVATE "u" "" None
       (Some 24) fresh_world = (Ok c, w') /\
     status c = ACTIVE /\ creator_id c = "u" /\ type c = PRIVATE /\
     "u" ∈ participants c /\
     ContextManager.get_user_context default_storage "u" w'
     = (Ok (Some c), w')) /\
  exists e w',
    ContextManager.create_context default_storage PRIVATE "u" "" None
      (Some (10 ^ 10)) fresh_world = (Raise e, w') /\
    contexts_tbl w' = contexts_tbl fresh_world /\
    redis_ctx w' = redis_ctx fresh_world.
Proof.
  split.
  - apply (proj1 (create_context_becomes_current PRIVATE "u" "" None
                    (Some 24) fresh_world (conj eq_refl eq_refl))).
    intros h [= <-] _. split; vm_compute; reflexivity.
  - apply (proj2 (create_context_becomes_current PRIVATE "u" "" None
                    (Some (10 ^ 10)) fresh_world (conj eq_refl eq_refl))
             (10 ^ 10) eq_refl).
    + vm_compute. discriminate.
    + right. vm_compute. reflexivity.
Defined.

Lemma resume_reactivates_any_session_witness :
  exists w',
    ContextManagerMore.resume_context default_storage "ctx_2" abc_world
    = (Ok true, w') /\
    (exists c', storage_get default_storage "ctx_2" w' = (Ok (Some c'), w') /\
       status c' = ACTIVE /\ messages c' = messages abc_context /\
       participants c' = participants abc_context) /\
    exists row, contexts_tbl w' !! "ctx_2" = Some row /\ status row = ACTIVE.
Proof.
  exact (proj1 (resume_reactivates_any_session "ctx_2" abc_world abc_context
                  abc_world (conj eq_refl eq_refl) abc_world_keyed
                  ltac:(vm_compute; reflexivity))).
Defined.

Lemma delete_context_detaches_participants_witness :
  current_context_id <$> users_tbl attached_world !! "u"
  = Some (Some "ctx_2") /\
  exists b w',
    ContextManagerMore.delete_context default_storage "ctx_2" attached_world
    = (Ok b, w') /\
    forall p u, In p (participants abc_context) ->
      users_tbl w' !! p = Some u -> current_context_id u <> Some "ctx_2".
Proof.
  split; [vm_compute; reflexivity|].
  exact (delete_context_detaches_participants "ctx_2" attached_world
           abc_context attached_world (conj eq_refl eq_refl)
           ltac:(vm_compute; reflexivity)).
Defined.

Lemma pre_check_decision_witness :
  MessageRouter._pre_check "u" roomy_world
  = (Ok (if 0 <? daily_remaining
                   (after_lazy_reset (clock roomy_world)
                      (quota_model "u" (clock roomy_world) roomy_quota))
         then ALLOWED
         else {| allowed := false;
                 cr_reason := "今日配额已用完，请明天再试。";
                 error_code := Some "DAILY_LIMIT_EXCEEDED" |}),
     after_get_quota "u" roomy_quota roomy_world).
Proof.
  exact (proj1 pre_check_decision roomy_world "u" roomy_quota
           eq_refl eq_refl ltac:(vm_compute; reflexivity) eq_refl eq_refl).
Defined.

Lemma pre_check_fails_open_witness :
  active_ban "u" (set_db_faults [true] banned_world) = Some permanent_ban /\
  MessageRouter._pre_check "u" (set_db_faults [true] banned_world)
  = (Ok ALLOWED, set_db_faults [] (set_db_faults [true] banned_world)).
Proof.
  split; [reflexivity|].
  exact (proj1 pre_check_fails_open (set_db_faults [true] banned_world)
           "u" [] eq_refl).
Defined.

Lemma pre_check_ban_text_last_minute_witness :
  MessageRouter._pre_check "u" ending_ban_world
  = (Ok {| allowed := false;
           cr_reason := if 1030 * usec - clock ending_ban_world <? usec
                        then "您已被封禁。"
                        else "您已被封禁，剩余 0 分钟。";
           error_code := Some "USER_BANNED" |}, ending_ban_world).
Proof.
  exact (pre_check_ban_text_last_minute ending_ban_world "u" ending_ban
           (1030 * usec) eq_refl eq_refl eq_refl eq_refl
           ltac:(vm_compute; reflexivity)).
Defined.

Lemma group_session_never_reused_witness :
  exists c w',
    MessageRouter._get_or_create_context default_storage "u" "U"
      (Some "42") GROUP fresh_world = (Ok (Some c), w') /\
    context_id c <> "group_" +:+ "42" /\
    participants c = ["u"] /\
    quiet w' /\
    contexts_tbl w' !! ("group_" +:+ "42") = None.
Proof.
  exact (group_session_never_reused "u" "U" "42" fresh_world
           (conj eq_refl eq_refl) ltac:(vm_compute; reflexivity)).
Defined.

Lemma private_session_reused_witness :
  exists c w',
    MessageRouter._get_or_create_context default_storage "u" "U"
      None PRIVATE fresh_world = (Ok (Some c), w') /\
    MessageRouter._get_or_create_context default_storage "u" "U"
      None PRIVATE w' = (Ok (Some c), w').
Proof.
  exact (private_session_reused "u" "U" fresh_world (conj eq_refl eq_refl)
           ltac:(vm_compute; reflexivity)).
Defined.

Lemma route_message_member_name_rejected_witness :
  "TEXT" ∈ MessageRouter.MessageType_members /\
  fst (MessageRouter.route_message no_patterns no_numbers default_storage
         failing_manager "u" "U" "hi" None "TEXT" fresh_world)
  = Ok {| success := false;
          mpr_response := "抱歉，处理您的消息时出现错误。";
          error := Some "'TEXT' is not a valid MessageType";
          processing_time_ms := 0;
          tokens_used := 0; state_snapshot := None |}.
Proof.
  assert (Hmem : "TEXT" ∈ MessageRouter.MessageType_members).
  { apply list_elem_of_In. left. reflexivity. }
  split; [exact Hmem|].
  set (w1 := snd (MessageRouter._pre_check "u"
                    (snd (IDHelper.generate_message_id fresh_world)))).
  assert (Hpre : MessageRouter._pre_check "u"
                   (snd (IDHelper.generate_message_id fresh_world))
                 = (Ok ALLOWED, w1)) by (vm_compute; reflexivity).
  destruct (first_private_session "u" "U" w1 (conj eq_refl eq_refl)
              ltac:(vm_compute; reflexivity)) as (c & w2 & Hctx & Hclk & _).
  rewrite (route_message_member_name_rejected no_patterns no_numbers
             default_storage failing_manager "u" "U" "hi" None "TEXT"
             fresh_world ALLOWED w1 c w2 Hpre eq_refl Hctx Hmem).
  cbn [fst]. rewrite Hclk. vm_compute. reflexivity.
Defined.

Lemma recognize_confidence_in_bounds_witness :
  PrimFloat.leb 0
    (confidence
       (IntentRecognizer.recognize_sync three_recognizer " 你好，今天天气 "))
  = true /\
  PrimFloat.leb
    (confidence
       (IntentRecognizer.recognize_sync three_recognizer " 你好，今天天气 "))
    1 = true /\
  forall st, exists st',
    LangGraphManager.assign_intent
      (IntentRecognizer.recognize_sync three_recognizer " 你好，今天天气 ") st
    = Ok st'.
Proof.
  apply (recognize_confidence_in_bounds three_recognizer " 你好，今天天气 ").
  repeat (apply Forall_cons; split;
          [apply Nat.leb_le; vm_compute; reflexivity|]).
  apply Forall_nil. exact I.
Defined.

Lemma command_intent_needs_known_keyword_witness :
  intent (IntentRecognizer.recognize_sync command_recognizer " /help me ")
  = COMMAND /\
  intent (IntentRecognizer.recognize_sync command_recognizer "/stop")
  <> COMMAND.
Proof.
  split.
  - apply (proj2 (command_intent_needs_known_keyword command_recognizer
                    " /help me ")).
    split; [vm_compute; discriminate|]. split; [vm_compute; reflexivity|].
    exists command_rule, "/help".
    split; [left; reflexivity|]. split; [reflexivity|].
    split; [left; reflexivity|]. vm_compute. reflexivity.
  - intros H.
    apply (proj1 (command_intent_needs_known_keyword command_recognizer
                    "/stop")) in H.
    destruct H as (_ & _ & rule & kw & [<-|[]] & _ & Hkw & Hc).
    destruct Hkw as [<-|[<-|[]]]; vm_compute in Hc; discriminate.
Defined.

Lemma default_pipeline_never_silent_witness :
  response (LangGraphManager.process no_patterns no_numbers plain_manager
              hi_state) <> "".
Proof.
  exact (default_pipeline_never_silent no_patterns no_numbers plain_manager
           hi_state eq_refl).
Defined.

Lemma classifier_failure_handling_witness :
  processing_stage
    (LangGraphManager.process no_patterns no_numbers deaf_manager hi_state)
  = COMPLETED /\
  response
    (LangGraphManager.process no_patterns no_numbers deaf_manager hi_state)
  = "抱歉，我无法理解您的意思。".
Proof.
  destruct (classifier_failure_handling no_patterns no_numbers deaf_manager
              failing_classifier hi_state "down" eq_refl eq_refl eq_refl)
    as (Hstage & Hne & _).
  split; [exact Hstage|].
  destruct Hne as (_ & _ & _ & Hr); [discriminate|exact Hr].
Defined.

Lemma truncate_text_length_witness :
  TextHelperMore.truncate_text "hello" 10 "..." = "hello" /\
  py_len (TextHelperMore.truncate_text "hello world" 8 "...") = 8 /\
  2 < py_len (TextHelperMore.truncate_text "hello world" 2 "...").
Proof.
  destruct (truncate_text_length "hello" 10 "...") as (H1 & _ & _).
  destruct (truncate_text_length "hello world" 8 "...") as (_ & H2 & _).
  destruct (truncate_text_length "hello world" 2 "...") as (_ & _ & H3).
  split; [apply H1; vm_compute; discriminate|].
  split; [apply H2; split; vm_compute; [discriminate|reflexivity]|].
  apply H3; vm_compute; reflexivity.
Defined.
